(** * java_sdk_library: API scopes, scope selection and the permissions XML

    A shallow embedding of the scope handling of [java/sdk_library.go]:
    the five API scopes and their extension / access hierarchies, the
    computation of the generated scopes of a library, the selection of the
    closest scope a library provides, the extraction of stub library paths
    from dependencies, the checks on the checked-in API files, the prebuilt
    jar lookup and the generation of the shared library permissions XML. *)

From Stdlib Require Import Ascii.
From stdpp Require Import base decidable option list countable gmap strings sorting.
From Equations Require Import Equations.

Set Default Proof Using "Type".
Open Scope string_scope.
Open Scope list_scope.

(** ** The build context

    The Go code reports problems through [ctx.ModuleErrorf] and
    [ctx.PropertyErrorf], which record the error and return, so the calling
    function carries on.  It registers modules with [ctx.CreateModule],
    missing dependencies with [ctx.AddMissingDependencies], the library
    names in the [javaSdkLibraries] list and build rules with [rule.Build].  The context is modelled as the chronological log of
    those calls; the format string and the arguments are kept as they are
    passed. *)

Inductive fmtArg :=
| ArgString (s : string)
| ArgStrings (l : list string).

Inductive event :=
| ModuleErrorf (format : string) (args : list fmtArg)
| PropertyErrorf (property : string) (format : string) (args : list fmtArg)
| AddMissingDependencies (deps : list string)
| CreateModule (name : string)
| RecordJavaSdkLibrary (name : string)
| RuleBuild (name : string) (description : string) (text : string) (output : string).

Definition isError (e : event) : bool :=
  match e with
  | ModuleErrorf _ _ | PropertyErrorf _ _ _ => true
  | _ => false
  end.

(** A Go function either returns or panics. *)
Inductive outcome (A : Type) :=
| Returned (a : A)
| Panicked (msg : string).
Arguments Returned {A} a.
Arguments Panicked {A} msg.

Definition Ctx (A : Type) : Type := list event → outcome A * list event.

Module CtxMonad.
Definition ret {A} (a : A) : Ctx A := λ log, (Returned a, log).

Definition bind {A B} (m : Ctx A) (k : A → Ctx B) : Ctx B :=
  λ log, match m log with
         | (Returned a, log') => k a log'
         | (Panicked msg, log') => (Panicked msg, log')
         end.

Definition emit (e : event) : Ctx unit := λ log, (Returned tt, log ++ [e]).

Definition panic {A} (msg : string) : Ctx A := λ log, (Panicked msg, log).

(** [for _, x := range l { body }] *)
Fixpoint forRange {A} (l : list A) (body : A → Ctx unit) : Ctx unit :=
  match l with
  | [] => ret tt
  | x :: l' => bind (body x) (λ _, forRange l' body)
  end.

Definition when (b : bool) (m : Ctx unit) : Ctx unit :=
  if b then m else ret tt.
End CtxMonad.
Import CtxMonad.

Notation "x ←← m ;; k" := (bind m (λ x, k))
  (at level 100, m at next level, right associativity, only parsing).
Notation "m ;;; k" := (bind m (λ _, k))
  (at level 100, right associativity, only parsing).

Definition isPropertyError (e : event) : Prop :=
  ∃ property format args, e = PropertyErrorf property format args.

(** A computation that appends to the log, whatever the log is, events that
    all satisfy [P]. *)
Definition emitsOnly {A} (P : event → Prop) (m : Ctx A) : Prop :=
  ∃ out evs, (∀ log, m log = (out, log ++ evs)) ∧ Forall P evs.

(** ** The API scopes *)

Inductive apiScope :=
| apiScopePublic
| apiScopeSystem
| apiScopeTest
| apiScopeModuleLib
| apiScopeSystemServer.

Global Instance apiScope_eq_dec : EqDecision apiScope.
Proof. solve_decision. Defined.

Definition apiScope_index (s : apiScope) : nat :=
  match s with
  | apiScopePublic => 0
  | apiScopeSystem => 1
  | apiScopeTest => 2
  | apiScopeModuleLib => 3
  | apiScopeSystemServer => 4
  end.

Definition apiScope_of_index (n : nat) : apiScope :=
  match n with
  | 0 => apiScopePublic
  | 1 => apiScopeSystem
  | 2 => apiScopeTest
  | 3 => apiScopeModuleLib
  | _ => apiScopeSystemServer
  end.

Global Instance apiScope_countable : Countable apiScope.
Proof.
  apply (inj_countable' apiScope_index apiScope_of_index).
  intros []; reflexivity.
Defined.

(** [android.SdkKind], declared in the [android] package; the constants are
    those of its declaration. *)
Inductive SdkKind :=
| SdkInvalid
| SdkNone
| SdkCore
| SdkCorePlatform
| SdkIntraCore
| SdkToolchain
| SdkPublic
| SdkSystem
| SdkTest
| SdkTestFrameworksCore
| SdkModule
| SdkSystemServer
| SdkPrivate.

(** The fields of the [apiScope] struct that the scope logic reads. *)
Record apiScopeFields := {
  name : string;
  extends : option apiScope;
  canAccess : option apiScope;
  defaultEnabledStatus : bool;
  apiFilePrefix : string;
  moduleSuffix : string;
  sdkVersion : string;
  unstable : bool;
  kind : SdkKind;
}.

(** The struct literals of the [var (...)] block. *)
Definition scopeLiteral (s : apiScope) : apiScopeFields :=
  match s with
  | apiScopePublic =>
      {| name := "public"; extends := None; canAccess := None;
         defaultEnabledStatus := true;
         apiFilePrefix := ""; moduleSuffix := "";
         sdkVersion := "current"; unstable := false; kind := SdkPublic |}
  | apiScopeSystem =>
      {| name := "system"; extends := Some apiScopePublic; canAccess := None;
         defaultEnabledStatus := false;
         apiFilePrefix := "system-"; moduleSuffix := ".system";
         sdkVersion := "system_current"; unstable := false; kind := SdkSystem |}
  | apiScopeTest =>
      {| name := "test"; extends := Some apiScopeSystem; canAccess := None;
         defaultEnabledStatus := false;
         apiFilePrefix := "test-"; moduleSuffix := ".test";
         sdkVersion := "test_current"; unstable := true; kind := SdkTest |}
  | apiScopeModuleLib =>
      {| name := "module-lib"; extends := Some apiScopeSystem; canAccess := None;
         defaultEnabledStatus := false;
         apiFilePrefix := "module-lib-"; moduleSuffix := ".module_lib";
         sdkVersion := "module_current"; unstable := false; kind := SdkModule |}
  | apiScopeSystemServer =>
      {| name := "system-server"; extends := Some apiScopePublic;
         canAccess := Some apiScopeModuleLib;
         defaultEnabledStatus := false;
         apiFilePrefix := "system-server-"; moduleSuffix := ".system_server";
         sdkVersion := "system_server_current"; unstable := false;
         kind := SdkSystemServer |}
  end.

(** [initApiScope]: a scope that does not set [canAccess] can access the
    scope it extends. *)
Definition initApiScope (scope : apiScopeFields) : apiScopeFields :=
  {| name := name scope;
     extends := extends scope;
     canAccess := match canAccess scope with
                  | None => extends scope
                  | Some s => Some s
                  end;
     defaultEnabledStatus := defaultEnabledStatus scope;
     apiFilePrefix := apiFilePrefix scope;
     moduleSuffix := moduleSuffix scope;
     sdkVersion := sdkVersion scope;
     unstable := unstable scope;
     kind := kind scope |}.

(** The initialised scope behind each of the five pointers. *)
Definition scope (s : apiScope) : apiScopeFields := initApiScope (scopeLiteral s).

Definition allApiScopes : list apiScope :=
  [apiScopePublic; apiScopeSystem; apiScopeTest; apiScopeModuleLib; apiScopeSystemServer].

(** ** The library *)

Record ApiScopeProperties := {
  Enabled : option bool;
  Sdk_version : option string;
  Libs : list string;
}.

Record sdkLibraryProperties := {
  Public : ApiScopeProperties;
  System : ApiScopeProperties;
  Test : ApiScopeProperties;
  Module_lib : ApiScopeProperties;
  System_server : ApiScopeProperties;
  Api_dir : option string;
  Api_only : option bool;
  Dist_stem : option string;
  Unsafe_ignore_missing_latest_api : bool;
  Generate_system_and_test_apis : bool;
}.

Record SdkLibrary := {
  (** [module.Enabled()] *)
  moduleEnabled : bool;
  (** [module.Name()] and [module.BaseModuleName()] *)
  moduleName : string;
  BaseModuleName : string;
  (** [module.properties.Srcs] *)
  Srcs : list string;
  (** [commonSdkLibraryProperties.Shared_library] *)
  Shared_library : option bool;
  sdkLibProps : sdkLibraryProperties;
}.

(** [scope.scopeSpecificProperties(module)], which [SdkLibraryFactory] stores
    in [module.scopeToProperties]. *)
Definition scopeToProperties (module : SdkLibrary) (s : apiScope) : ApiScopeProperties :=
  match s with
  | apiScopePublic => Public (sdkLibProps module)
  | apiScopeSystem => System (sdkLibProps module)
  | apiScopeTest => Test (sdkLibProps module)
  | apiScopeModuleLib => Module_lib (sdkLibProps module)
  | apiScopeSystemServer => System_server (sdkLibProps module)
  end.

Definition generateTestAndSystemScopesByDefault (module : SdkLibrary) : bool :=
  Generate_system_and_test_apis (sdkLibProps module).

(** The [legacyEnabledStatus] function of each scope literal. *)
Definition legacyEnabledStatus (s : apiScope) (module : SdkLibrary) : bool :=
  match s with
  | apiScopePublic => true
  | apiScopeSystem => generateTestAndSystemScopesByDefault module
  | apiScopeTest => generateTestAndSystemScopesByDefault module
  | apiScopeModuleLib => false
  | apiScopeSystemServer => false
  end.

(** [proptools.BoolDefault] *)
Definition BoolDefault (b : option bool) (def : bool) : bool :=
  match b with
  | Some v => v
  | None => def
  end.

(** [proptools.Bool] *)
Definition Bool (b : option bool) : bool := BoolDefault b false.

(** [proptools.StringDefault] *)
Definition StringDefault (s : option string) (def : string) : string :=
  match s with
  | Some v => v
  | None => def
  end.

(** ** getGeneratedApiScopes *)

(** The first loop: has any scope an explicit [enabled] property? *)
Definition anyScopesExplicitlyEnabled (module : SdkLibrary) : bool :=
  existsb (λ s, bool_decide (Enabled (scopeToProperties module s) ≠ None)) allApiScopes.

(** The body of the second loop, up to the test on [enabled]. *)
Definition scopeEnabled (module : SdkLibrary) (anyExplicit : bool) (s : apiScope) : bool :=
  let scopeProperties := scopeToProperties module s in
  let defaultEnabledStatus :=
    if anyExplicit then defaultEnabledStatus (scope s)
    else legacyEnabledStatus s module in
  BoolDefault (Enabled scopeProperties) defaultEnabledStatus.

(** The second loop, with its two accumulators [generatedScopes] and
    [enabledScopes]. *)
Definition collectEnabledScopes (module : SdkLibrary) (anyExplicit : bool)
    (scopes : list apiScope) (acc : list apiScope * gset apiScope)
    : list apiScope * gset apiScope :=
  fold_left
    (λ '(generatedScopes, enabledScopes) s,
       if scopeEnabled module anyExplicit s
       then (generatedScopes ++ [s], {[ s ]} ∪ enabledScopes)
       else (generatedScopes, enabledScopes))
    scopes acc.

Definition disabledExtendsError (s extends : apiScope) : event :=
  ModuleErrorf "enabled api scope %q depends on disabled scope %q"
    [ArgString (name (scope s)); ArgString (name (scope extends))].

(** The third loop: an enabled scope must not extend a disabled one. *)
Definition checkExtendsEnabled (enabledScopes : gset apiScope) (s : apiScope) : Ctx unit :=
  if decide (s ∈ enabledScopes) then
    match extends (scope s) with
    | Some extends =>
        if decide (extends ∈ enabledScopes) then ret tt
        else emit (disabledExtendsError s extends)
    | None => ret tt
    end
  else ret tt.

Definition getGeneratedApiScopes (module : SdkLibrary) : Ctx (list apiScope) :=
  let anyExplicit := anyScopesExplicitlyEnabled module in
  let '(generatedScopes, enabledScopes) :=
    collectEnabledScopes module anyExplicit allApiScopes ([], ∅) in
  forRange allApiScopes (checkExtendsEnabled enabledScopes) ;;;
  ret generatedScopes.

(** ** Scope paths *)

(** [android.Paths] is a list of paths, [android.OptionalPath] and
    [OptionalDexJarPath] an optional path. *)
Record scopePaths := {
  stubsHeaderPath : list string;
  stubsImplPath : list string;
  stubsDexJarPath : option string;
  exportableStubsDexJarPath : option string;
  currentApiFilePath : option string;
  removedApiFilePath : option string;
  stubsSrcJar : option string;
  annotationsZip : option string;
  latestApiPath : option string;
  latestRemovedApiPath : option string;
}.

(** [&scopePaths{}] *)
Definition zeroScopePaths : scopePaths :=
  {| stubsHeaderPath := []; stubsImplPath := [];
     stubsDexJarPath := None; exportableStubsDexJarPath := None;
     currentApiFilePath := None; removedApiFilePath := None;
     stubsSrcJar := None; annotationsZip := None;
     latestApiPath := None; latestRemovedApiPath := None |}.

(** The part of [commonToSdkLibraryAndImport] that scope selection reads.
    The map is [nil] until [getScopePathsCreateIfNeeded] makes it. *)
Record commonToSdkLibraryAndImport := {
  RootLibraryName : string;
  scopePathsMap : option (gmap apiScope scopePaths);
}.

Definition getScopePathsCreateIfNeeded (c : commonToSdkLibraryAndImport) (s : apiScope)
    : commonToSdkLibraryAndImport * scopePaths :=
  let m := match scopePathsMap c with
           | None => ∅
           | Some m => m
           end in
  match m !! s with
  | Some paths => ({| RootLibraryName := RootLibraryName c; scopePathsMap := Some m |}, paths)
  | None => ({| RootLibraryName := RootLibraryName c;
               scopePathsMap := Some (<[ s := zeroScopePaths ]> m) |}, zeroScopePaths)
  end.

Definition findScopePaths (c : commonToSdkLibraryAndImport) (s : apiScope) : option scopePaths :=
  match scopePathsMap c with
  | None => None
  | Some m => m !! s
  end.

(** The length of the [canAccess] chain below a scope; it bounds the loop of
    [findClosestScopePath]. *)
Definition accessDepth (s : apiScope) : nat :=
  match s with
  | apiScopePublic => 0
  | apiScopeSystem => 1
  | apiScopeTest => 2
  | apiScopeModuleLib => 2
  | apiScopeSystemServer => 3
  end.

Lemma canAccess_decreases s s' : canAccess (scope s) = Some s' → accessDepth s' < accessDepth s.
Proof. destruct s; simpl; intros [= <-]; simpl; lia. Defined.

(** Keeps the equation of a match, for the termination proof. *)
Definition inspect {A : Type} (a : A) : {b : A | a = b} := exist _ a eq_refl.

(** [for s := scope; s != nil; s = s.canAccess] *)
Equations findClosestScopePath (c : commonToSdkLibraryAndImport) (s : apiScope)
    : option scopePaths by wf (accessDepth s) lt :=
  findClosestScopePath c s with findScopePaths c s => {
    | Some paths => Some paths
    | None with inspect (canAccess (scope s)) => {
        | exist _ (Some s') Hacc => findClosestScopePath c s'
        | exist _ None _ => None } }.
Next Obligation. by apply canAccess_decreases. Defined.

(** The access chain of a scope: the scope, the scope it can access, the
    scope that one can access, and so on. *)
Equations accessChain (s : apiScope) : list apiScope by wf (accessDepth s) lt :=
  accessChain s with inspect (canAccess (scope s)) => {
    | exist _ (Some s') Hacc => s :: accessChain s'
    | exist _ None _ => [s] }.
Next Obligation. by apply canAccess_decreases. Defined.

(** [sdkKindToApiScope] maps from [android.SdkKind] to [apiScope]. *)
Definition sdkKindToApiScope (kind : SdkKind) : apiScope :=
  match kind with
  | SdkSystem => apiScopeSystem
  | SdkModule => apiScopeModuleLib
  | SdkTest => apiScopeTest
  | SdkSystemServer => apiScopeSystemServer
  | _ => apiScopePublic
  end.

(** The names of the scopes for which the library has paths, in the order
    of [allApiScopes]. *)
Definition availableScopeNames (c : commonToSdkLibraryAndImport) : list string :=
  fold_left
    (λ scopes s,
       match findScopePaths c s with
       | Some _ => scopes ++ [name (scope s)]
       | None => scopes
       end)
    allApiScopes [].

Definition scopeNotAvailableError (c : commonToSdkLibraryAndImport) (s : apiScope) : event :=
  ModuleErrorf "requires api scope %s from %s but it only has %q available"
    [ArgString (name (scope s)); ArgString (RootLibraryName c);
     ArgStrings (availableScopeNames c)].

Definition selectScopePaths (c : commonToSdkLibraryAndImport) (kind : SdkKind)
    : Ctx (option scopePaths) :=
  let apiScope := sdkKindToApiScope kind in
  match findClosestScopePath c apiScope with
  | None =>
      emit (scopeNotAvailableError c apiScope) ;;;
      ret None
  | Some paths => ret (Some paths)
  end.

(** [SdkApiStubDexJar]; [makeUnsetDexJarPath()] is the unset path. *)
Definition SdkApiStubDexJar (c : commonToSdkLibraryAndImport) (kind : SdkKind)
    : Ctx (option string) :=
  paths ←← selectScopePaths c kind ;;
  match paths with
  | None => ret None
  | Some paths => ret (stubsDexJarPath paths)
  end.

(** ** Extracting stub library paths from a dependency *)

(** The global configuration, [ctx.Config()]. *)
Record Config := {
  ReleaseHiddenApiExportableStubs : bool;
  AllowMissingDependencies : bool;
  BuildFromTextStub : bool;
  (** the keys of [GetApiLibraries()] *)
  ApiLibraries : list string;
}.

Record JavaInfo := {
  HeaderJars : list string;
  ImplementationJars : list string;
}.

(** What the extractors ask of a dependency: its [JavaInfoProvider], if it
    has one, and, if it implements [UsesLibraryDependency], the result of
    [DexJarBuildPath]. *)
Record depModule := {
  depJavaInfo : option JavaInfo;
  depDexJarBuildPath : option (option string);
}.

Definition notJavaLibraryError : string :=
  "expected module that has JavaInfoProvider, e.g. java_library".

Definition typeAssertionPanic : string :=
  "interface conversion: android.Module is not java.UsesLibraryDependency".

(** The extractors update the [scopePaths] in place and return an error;
    here they return the updated record and the error.  The type assertion
    [dep.(UsesLibraryDependency)] panics on a module without the interface. *)
Definition extractStubsLibraryInfoFromDependency (config : Config) (dep : depModule)
    (paths : scopePaths) : outcome (scopePaths * option string) :=
  match depJavaInfo dep with
  | Some lib =>
      match depDexJarBuildPath dep with
      | Some dexJar =>
          Returned
            ({| stubsHeaderPath := HeaderJars lib;
                stubsImplPath := ImplementationJars lib;
                stubsDexJarPath := dexJar;
                exportableStubsDexJarPath := dexJar;
                currentApiFilePath := currentApiFilePath paths;
                removedApiFilePath := removedApiFilePath paths;
                stubsSrcJar := stubsSrcJar paths;
                annotationsZip := annotationsZip paths;
                latestApiPath := latestApiPath paths;
                latestRemovedApiPath := latestRemovedApiPath paths |}, None)
      | None => Panicked typeAssertionPanic
      end
  | None => Returned (paths, Some notJavaLibraryError)
  end.

Definition extractEverythingStubsLibraryInfoFromDependency (config : Config)
    (dep : depModule) (paths : scopePaths) : outcome (scopePaths * option string) :=
  match depJavaInfo dep with
  | Some lib =>
      match depDexJarBuildPath dep with
      | Some dexJar =>
          Returned
            ({| stubsHeaderPath := HeaderJars lib;
                stubsImplPath :=
                  if negb (ReleaseHiddenApiExportableStubs config)
                  then ImplementationJars lib
                  else stubsImplPath paths;
                stubsDexJarPath := dexJar;
                exportableStubsDexJarPath := exportableStubsDexJarPath paths;
                currentApiFilePath := currentApiFilePath paths;
                removedApiFilePath := removedApiFilePath paths;
                stubsSrcJar := stubsSrcJar paths;
                annotationsZip := annotationsZip paths;
                latestApiPath := latestApiPath paths;
                latestRemovedApiPath := latestRemovedApiPath paths |}, None)
      | None => Panicked typeAssertionPanic
      end
  | None => Returned (paths, Some notJavaLibraryError)
  end.

Definition extractExportableStubsLibraryInfoFromDependency (config : Config)
    (dep : depModule) (paths : scopePaths) : outcome (scopePaths * option string) :=
  match depJavaInfo dep with
  | Some lib =>
      match depDexJarBuildPath dep with
      | Some dexJar =>
          Returned
            ({| stubsHeaderPath := stubsHeaderPath paths;
                stubsImplPath :=
                  if ReleaseHiddenApiExportableStubs config
                  then ImplementationJars lib
                  else stubsImplPath paths;
                stubsDexJarPath := stubsDexJarPath paths;
                exportableStubsDexJarPath := dexJar;
                currentApiFilePath := currentApiFilePath paths;
                removedApiFilePath := removedApiFilePath paths;
                stubsSrcJar := stubsSrcJar paths;
                annotationsZip := annotationsZip paths;
                latestApiPath := latestApiPath paths;
                latestRemovedApiPath := latestRemovedApiPath paths |}, None)
      | None => Panicked typeAssertionPanic
      end
  | None => Returned (paths, Some notJavaLibraryError)
  end.

(** ** Strings and paths *)

(** The double quote, the backslash and the newline. *)
Definition dq : string := String (Ascii.ascii_of_nat 34) EmptyString.
Definition bs : string := String (Ascii.ascii_of_nat 92) EmptyString.
Definition nl : string := String (Ascii.ascii_of_nat 10) EmptyString.

(** [strings.Join] *)
Definition stringsJoin (elems : list string) (sep : string) : string :=
  String.concat sep elems.

(** [strings.Split(path, "/")]: the first element and the others. *)
Fixpoint splitFirst (path : string) : string * list string :=
  match path with
  | EmptyString => (EmptyString, [])
  | String a rest =>
      let '(e, es) := splitFirst rest in
      if decide (a = "/"%char) then (EmptyString, e :: es) else (String a e, es)
  end.

Definition splitPath (path : string) : list string :=
  let '(e, es) := splitFirst path in e :: es.

(** One element of the path in [Clean]; [out] holds the elements kept so
    far, the last one first.  An empty element and [.] are dropped; [..]
    removes the element before it, unless there is none or it is [..]
    itself: then [..] is kept in a path that is not rooted, and dropped at
    the root. *)
Definition cleanStep (rooted : bool) (out : list string) (e : string) : list string :=
  if decide (e = EmptyString ∨ e = ".") then out
  else if decide (e = "..") then
    match out with
    | top :: below => if decide (top = "..") then e :: out else below
    | [] => if rooted then [] else [e]
    end
  else e :: out.

Definition isRooted (path : string) : bool :=
  match path with
  | String a _ => bool_decide (a = "/"%char)
  | EmptyString => false
  end.

(** [path.Clean], and [filepath.Clean] where the separator is the slash:
    the shortest path that names the same file, [.] for the empty one. *)
Definition Clean (path : string) : string :=
  if decide (path = EmptyString) then "."
  else
    let rooted := isRooted path in
    let out := rev (fold_left (cleanStep rooted) (splitPath path) []) in
    let cleaned := (if rooted then "/" else EmptyString) +:+ String.concat "/" out in
    if decide (cleaned = EmptyString) then "." else cleaned.

(** [path.Join], and [filepath.Join] where the separator is the slash: the
    elements from the first one that is not empty on, separated by slashes
    and cleaned; the empty path when every element is empty. *)
Fixpoint pathJoin (elem : list string) : string :=
  match elem with
  | [] => EmptyString
  | e :: rest =>
      if decide (e = EmptyString) then pathJoin rest
      else Clean (String.concat "/" elem)
  end.

(** [strings.ReplaceAll] for an [old] and a [new] of one character. *)
Fixpoint ReplaceAll (s : string) (old new : Ascii.ascii) : string :=
  match s with
  | EmptyString => EmptyString
  | String a s' =>
      String (if decide (a = old) then new else a) (ReplaceAll s' old new)
  end.

(** ** CreateInternalModules and DepsMutator *)

(** What the hook and mutator contexts answer. *)
Record moduleContext := {
  config : Config;
  ModuleDir : string;
  (** [android.ExistentPathForSource(ctx, path).Valid()] *)
  ExistentPathForSource : string → bool;
  OtherModuleExists : string → bool;
  (** [decodeSdkDep(mctx, ...).hasStandardLibs()] *)
  hasStandardLibs : bool;
}.

Definition requiresRuntimeImplementationLibrary (module : SdkLibrary) : bool :=
  negb (Bool (Api_only (sdkLibProps module))).

Definition sharedLibrary (module : SdkLibrary) : bool :=
  BoolDefault (Shared_library module) true.

Definition getApiDir (module : SdkLibrary) : string :=
  StringDefault (Api_dir (sdkLibProps module)) "api".

Definition distStem (module : SdkLibrary) : string :=
  StringDefault (Dist_stem (sdkLibProps module)) (BaseModuleName module).

Definition compareAgainstLatestApi (module : SdkLibrary) (s : apiScope) : bool :=
  negb (unstable (scope s) || Unsafe_ignore_missing_latest_api (sdkLibProps module)).

(** The module names of the default naming scheme. *)
Definition stubsLibraryModuleNameSuffix (s : apiScope) : string :=
  ".stubs" +:+ moduleSuffix (scope s).
Definition exportableStubsLibraryModuleNameSuffix (s : apiScope) : string :=
  ".stubs.exportable" +:+ moduleSuffix (scope s).
Definition stubsLibraryModuleName (s : apiScope) (baseName : string) : string :=
  baseName +:+ stubsLibraryModuleNameSuffix s.
Definition exportableStubsLibraryModuleName (s : apiScope) (baseName : string) : string :=
  baseName +:+ exportableStubsLibraryModuleNameSuffix s.
Definition apiLibraryModuleName (s : apiScope) (baseName : string) : string :=
  stubsLibraryModuleName s baseName +:+ ".from-text".
Definition sourceStubLibraryModuleName (s : apiScope) (baseName : string) : string :=
  stubsLibraryModuleName s baseName +:+ ".from-source".
Definition exportableSourceStubsLibraryModuleName (s : apiScope) (baseName : string) : string :=
  exportableStubsLibraryModuleName s baseName +:+ ".from-source".
Definition stubsSourceModuleName (s : apiScope) (baseName : string) : string :=
  baseName +:+ ".stubs.source" +:+ moduleSuffix (scope s).
Definition implLibraryModuleName (module : SdkLibrary) : string :=
  BaseModuleName module +:+ ".impl".
Definition xmlPermissionsModuleName (module : SdkLibrary) : string :=
  BaseModuleName module +:+ ".xml".

(** [apiLibraryAdditionalProperties[name].FullApiSurfaceStubLib] *)
Definition alternativeFullApiSurfaceStubLib (module : SdkLibrary) : string :=
  if decide (moduleName module = "legacy.i18n.module.platform.api")
  then "legacy.core.platform.api.stubs"
  else if decide (moduleName module = "stable.i18n.module.platform.api")
  then "stable.core.platform.api.stubs"
  else if decide (moduleName module = "conscrypt.module.platform.api")
  then "stable.core.platform.api.stubs"
  else EmptyString.

Definition contributesToApiSurface (c : Config) (module : SdkLibrary) : bool :=
  bool_decide (moduleName module ∈ ApiLibraries c).

Definition setGenerateSystemAndTestApis (module : SdkLibrary) (b : bool) : SdkLibrary :=
  let p := sdkLibProps module in
  {| moduleEnabled := moduleEnabled module;
     moduleName := moduleName module;
     BaseModuleName := BaseModuleName module;
     Srcs := Srcs module;
     Shared_library := Shared_library module;
     sdkLibProps :=
       {| Public := Public p; System := System p; Test := Test p;
          Module_lib := Module_lib p; System_server := System_server p;
          Api_dir := Api_dir p; Api_only := Api_only p; Dist_stem := Dist_stem p;
          Unsafe_ignore_missing_latest_api := Unsafe_ignore_missing_latest_api p;
          Generate_system_and_test_apis := b |} |}.

Definition currentApiFileError (path : string) : event :=
  ModuleErrorf "Current api file %#v doesn't exist" [ArgString path].

Definition genCurrentApiScript : string :=
  "build/soong/scripts/gen-java-current-api-files.sh".

Definition missingCurrentApiError (mctx : moduleContext) (module : SdkLibrary)
    (generatedScopes : list apiScope) : event :=
  ModuleErrorf
    ("One or more current api files are missing. " +:+
     "You can update them by:" +:+ nl +:+
     "%s %q %s && m update-api")
    [ArgString genCurrentApiScript;
     ArgString (pathJoin [ModuleDir mctx; getApiDir module]);
     ArgString (stringsJoin (map (λ s, apiFilePrefix (scope s)) generatedScopes) " ")].

(** The path of one of the two checked-in API files of a scope. *)
Definition currentApiFilePathOf (mctx : moduleContext) (module : SdkLibrary)
    (s : apiScope) (api : string) : string :=
  pathJoin [ModuleDir mctx; getApiDir module; apiFilePrefix (scope s) +:+ api].

(** The body of the inner loop over [current.txt] and [removed.txt]; the
    result is the new value of [missingCurrentApi]. *)
Definition checkCurrentApiFile (mctx : moduleContext) (module : SdkLibrary)
    (s : apiScope) (missingCurrentApi : bool) (api : string) : Ctx bool :=
  let path := currentApiFilePathOf mctx module s api in
  if negb (ExistentPathForSource mctx path) then
    if AllowMissingDependencies (config mctx) then
      emit (AddMissingDependencies [path]) ;;;
      ret missingCurrentApi
    else
      emit (currentApiFileError path) ;;;
      ret true
  else ret missingCurrentApi.

(** A loop that updates a local variable. *)
Fixpoint forRangeAcc {A S} (l : list A) (acc : S) (body : S → A → Ctx S) : Ctx S :=
  match l with
  | [] => ret acc
  | x :: l' => acc' ←← body acc x ;; forRangeAcc l' acc' body
  end.

Definition checkCurrentApiFiles (mctx : moduleContext) (module : SdkLibrary)
    (generatedScopes : list apiScope) : Ctx bool :=
  forRangeAcc generatedScopes false
    (λ missingCurrentApi s,
       forRangeAcc ["current.txt"; "removed.txt"] missingCurrentApi
         (checkCurrentApiFile mctx module s)).

(** The modules created for one scope.  Only the names of the created
    modules are kept: their properties are not modelled, and neither is the
    lookup of the lint baseline file that [createStubsSourcesAndApi] does for
    a library with [api_lint] enabled. *)
Definition createScopeModules (mctx : moduleContext) (module : SdkLibrary)
    (s : apiScope) : Ctx unit :=
  let baseName := BaseModuleName module in
  emit (CreateModule (stubsSourceModuleName s baseName)) ;;;
  emit (CreateModule (sourceStubLibraryModuleName s baseName)) ;;;
  emit (CreateModule (exportableSourceStubsLibraryModuleName s baseName)) ;;;
  let alternativeFullApiSurfaceStubLib :=
    if decide (s = apiScopePublic) then alternativeFullApiSurfaceStubLib module
    else EmptyString in
  let contributesToApiSurface :=
    contributesToApiSurface (config mctx) module
    || bool_decide (alternativeFullApiSurfaceStubLib ≠ EmptyString) in
  when contributesToApiSurface (emit (CreateModule (apiLibraryModuleName s baseName))) ;;;
  emit (CreateModule (stubsLibraryModuleName s baseName)) ;;;
  emit (CreateModule (exportableStubsLibraryModuleName s baseName)).

Definition CreateInternalModules (mctx : moduleContext) (module : SdkLibrary)
    : Ctx SdkLibrary :=
  if negb (moduleEnabled module) then ret module
  else if bool_decide (length (Srcs module) = 0) then
    emit (PropertyErrorf "srcs" "java_sdk_library must specify srcs" []) ;;;
    ret module
  else
    let module := setGenerateSystemAndTestApis module (hasStandardLibs mctx) in
    generatedScopes ←← getGeneratedApiScopes module ;;
    missingCurrentApi ←← checkCurrentApiFiles mctx module generatedScopes ;;
    if missingCurrentApi then
      if negb (ExistentPathForSource mctx genCurrentApiScript) then
        panic ("script file " +:+ genCurrentApiScript +:+ " doesn't exist")
      else
        emit (missingCurrentApiError mctx module generatedScopes) ;;;
        ret module
    else
      forRange generatedScopes (createScopeModules mctx module) ;;;
      when (requiresRuntimeImplementationLibrary module)
        (emit (CreateModule (implLibraryModuleName module)) ;;;
         when (sharedLibrary module)
           (emit (CreateModule (xmlPermissionsModuleName module))) ;;;
         emit (RecordJavaSdkLibrary (BaseModuleName module))) ;;;
      ret module.

Section LatestApi.
(** [PrebuiltApiModuleName(name, scope, version)] of [prebuilt_apis.go]. *)
Variable PrebuiltApiModuleName : string → string → string → string.
(** [module.Library.deps(ctx)] of [java.go]: how the call ends, and the
    events that it adds to the log. *)
Variable LibraryDeps : moduleContext → SdkLibrary → outcome unit * list event.

Definition latestPrebuiltApiModuleName (nm : string) (s : apiScope) : string :=
  PrebuiltApiModuleName nm (name (scope s)) "latest".
Definition latestApiModuleName (module : SdkLibrary) (s : apiScope) : string :=
  latestPrebuiltApiModuleName (distStem module) s.
Definition latestRemovedApiModuleName (module : SdkLibrary) (s : apiScope) : string :=
  latestPrebuiltApiModuleName (distStem module +:+ "-removed") s.
Definition latestIncompatibilitiesModuleName (module : SdkLibrary) (s : apiScope) : string :=
  latestPrebuiltApiModuleName (distStem module +:+ "-incompatibilities") s.

(** The filegroup modules of the latest released API that do not exist. *)
Definition missingApiModulesOf (mctx : moduleContext) (module : SdkLibrary)
    (generatedScopes : list apiScope) : list string :=
  fold_left
    (λ missingApiModules s,
       if unstable (scope s) then missingApiModules
       else
         let add (m : string) (l : list string) :=
           if negb (OtherModuleExists mctx m) then l ++ [m] else l in
         add (latestIncompatibilitiesModuleName module s)
           (add (latestRemovedApiModuleName module s)
              (add (latestApiModuleName module s) missingApiModules)))
    generatedScopes [].

Definition missingLatestApiMessage (module : SdkLibrary)
    (missingApiModules : list string) : string :=
  moduleName module +:+ " is missing tracking files for previously released library versions." +:+ nl +:+
  "You need to do one of the following:" +:+ nl +:+
  "- Add `unsafe_ignore_missing_latest_api: true` to your blueprint (to disable compat tracking)" +:+ nl +:+
  "- Add a set of prebuilt txt files representing the last released version of this library for compat checking." +:+ nl +:+
  "  (the current set of API files can be used as a seed for this compatibility tracking" +:+ nl +:+
  nl +:+
  "The following filegroup modules are missing:" +:+ nl +:+ "  " +:+
  stringsJoin missingApiModules (nl +:+ "  ") +:+ nl +:+
  "Please see the documentation of the prebuilt_apis module type (and a usage example in prebuilts/sdk) for a convenient way to generate these.".

(** The call of [module.Library.deps(ctx)]. *)
Definition libraryDeps (mctx : moduleContext) (module : SdkLibrary) : Ctx unit :=
  λ log, ((LibraryDeps mctx module).1, log ++ (LibraryDeps mctx module).2).

Definition DepsMutator (mctx : moduleContext) (module : SdkLibrary) : Ctx unit :=
  generatedScopes ←← getGeneratedApiScopes module ;;
  let missingApiModules := missingApiModulesOf mctx module generatedScopes in
  when (negb (bool_decide (length missingApiModules = 0))
        && negb (Unsafe_ignore_missing_latest_api (sdkLibProps module)))
    (emit (ModuleErrorf (missingLatestApiMessage module missingApiModules) [])) ;;;
  when (requiresRuntimeImplementationLibrary module)
    (libraryDeps mctx module).
End LatestApi.

(** ** API levels

    [android.ApiLevel] and the functions on it belong to the [android]
    package; the code here only calls them, so they are taken as an
    interface. *)
Class ApiLevels := {
  ApiLevel : Type;
  (** [android.ApiLevelFromUser(ctx, raw)]: the level, or the error. *)
  ApiLevelFromUser : string → ApiLevel + string;
  (** [android.ApiLevelOrPanic(ctx, raw)] *)
  ApiLevelOrPanic : string → outcome ApiLevel;
  GreaterThan : ApiLevel → ApiLevel → bool;
  LessThan : ApiLevel → ApiLevel → bool;
  IsCurrent : ApiLevel → bool;
  IsPreview : ApiLevel → bool;
  (** [ApiLevel.String()] *)
  ApiLevelString : ApiLevel → string;
  FutureApiLevel : ApiLevel;
  (** [SdkKind.String()] *)
  SdkKindString : SdkKind → string;
}.

Section WithApiLevels.
Context `{ApiLevels}.

(** [android.SdkSpec] *)
Record SdkSpec := {
  Kind : SdkKind;
  SpecApiLevel : ApiLevel;
  Raw : string;
}.

(** ** Prebuilt jars of a numbered sdk version *)

Definition invalidSdkVersionError (s : SdkSpec) (jar : string) : event :=
  PropertyErrorf "sdk_library" "invalid sdk version %q, %q does not exist"
    [ArgString (Raw s); ArgString jar].

(** The version and kind whose prebuilt is used; [UsePrebuilt] is the
    answer of [s.UsePrebuilt(ctx)]. *)
Definition prebuiltVersionAndKind (UsePrebuilt : SdkSpec → bool) (s : SdkSpec)
    : ApiLevel * SdkKind :=
  if UsePrebuilt s then (SpecApiLevel s, Kind s)
  else (FutureApiLevel, SdkSystem).

Definition prebuiltJarPath (ver : ApiLevel) (kind : SdkKind) (baseName : string) : string :=
  let dir := pathJoin ["prebuilts"; "sdk"; ApiLevelString ver; SdkKindString kind] in
  pathJoin [dir; baseName +:+ ".jar"].

Definition PrebuiltJars (ctx : moduleContext) (UsePrebuilt : SdkSpec → bool)
    (baseName : string) (s : SdkSpec) : Ctx (list string) :=
  let '(ver, kind) := prebuiltVersionAndKind UsePrebuilt s in
  let jar := prebuiltJarPath ver kind baseName in
  if negb (ExistentPathForSource ctx jar) then
    if AllowMissingDependencies (config ctx) then ret [jar]
    else
      emit (invalidSdkVersionError s jar) ;;;
      ret []
  else ret [jar].

Definition selectHeaderJarsForSdkVersion (c : commonToSdkLibraryAndImport)
    (ctx : moduleContext) (UsePrebuilt : SdkSpec → bool) (sdkVersion : SdkSpec)
    : Ctx (list string) :=
  if negb (IsPreview (SpecApiLevel sdkVersion)) then
    PrebuiltJars ctx UsePrebuilt (RootLibraryName c) sdkVersion
  else
    paths ←← selectScopePaths c (Kind sdkVersion) ;;
    match paths with
    | None => ret []
    | Some paths => ret (stubsHeaderPath paths)
    end.

(** ** The permissions XML of a shared library *)

Record sdkLibraryXmlProperties := {
  Lib_name : option string;
  On_bootclasspath_since : option string;
  On_bootclasspath_before : option string;
  Min_device_sdk : option string;
  Max_device_sdk : option string;
  Sdk_library_min_api_level : option string;
  (** [nil] is [None] *)
  Uses_libs_dependencies : option (list string);
}.

(** The module, with what its context says about its apex and partition. *)
Record sdkLibraryXml := {
  properties : sdkLibraryXmlProperties;
  IsForPlatform : bool;
  ApexVariationName : string;
  SocSpecific : bool;
  DeviceSpecific : bool;
  ProductSpecific : bool;
  SystemExtSpecific : bool;
}.

(** [proptools.String] *)
Definition StringOf (s : option string) : string := StringDefault s EmptyString.

Definition implPath (module : sdkLibraryXml) : string :=
  let implName := StringOf (Lib_name (properties module)) in
  if negb (IsForPlatform module) then
    "/apex/" +:+ ApexVariationName module +:+ "/javalib/" +:+ implName +:+ ".jar"
  else
    let partition :=
      if SocSpecific module then "vendor"
      else if DeviceSpecific module then "odm"
      else if ProductSpecific module then "product"
      else if SystemExtSpecific module then "system_ext"
      else "system" in
    "/" +:+ partition +:+ "/framework/" +:+ implName +:+ ".jar".

(** The formats are raw string literals: the backslashes stay, for the
    [echo -e] of the build rule. *)
Definition formattedOptionalAttribute (attrName : string) (value : option string) : string :=
  match value with
  | None => EmptyString
  | Some v =>
      "        " +:+ attrName +:+ "=" +:+ bs +:+ dq +:+ v +:+ bs +:+ dq +:+ bs +:+ "n"
  end.

Definition currentNotAllowed : string :=
  dq +:+ "current" +:+ dq +:+ " is not an allowed value for this attribute".

Definition formattedOptionalSdkLevelAttribute (attrName : string) (value : option string)
    : Ctx string :=
  match value with
  | None => ret EmptyString
  | Some v =>
      match ApiLevelFromUser v with
      | inr err =>
          emit (PropertyErrorf (ReplaceAll attrName "-"%char "_"%char) err []) ;;;
          ret EmptyString
      | inl apiLevel =>
          if IsCurrent apiLevel then
            emit (PropertyErrorf (ReplaceAll attrName "-"%char "_"%char) currentNotAllowed []) ;;;
            ret EmptyString
          else
            let safeValue := ApiLevelString apiLevel in
            ret (formattedOptionalAttribute attrName (Some safeValue))
      end
  end.

Definition formattedDependenciesAttribute (dependencies : option (list string)) : string :=
  match dependencies with
  | None => EmptyString
  | Some deps =>
      "        dependency=" +:+ bs +:+ dq +:+ stringsJoin deps ":" +:+ bs +:+ dq +:+ bs +:+ "n"
  end.

(** The lines before the library element. *)
Definition permissionsHeader : list string :=
  [ "<?xml version=" +:+ bs +:+ dq +:+ "1.0" +:+ bs +:+ dq +:+ " encoding=" +:+ bs +:+ dq +:+ "utf-8" +:+ bs +:+ dq +:+ "?>" +:+ bs +:+ "n";
    "<!-- Copyright (C) 2018 The Android Open Source Project" +:+ bs +:+ "n";
    bs +:+ "n";
    "    Licensed under the Apache License, Version 2.0 (the " +:+ bs +:+ dq +:+ "License" +:+ bs +:+ dq +:+ ");" +:+ bs +:+ "n";
    "    you may not use this file except in compliance with the License." +:+ bs +:+ "n";
    "    You may obtain a copy of the License at" +:+ bs +:+ "n";
    bs +:+ "n";
    "        http://www.apache.org/licenses/LICENSE-2.0" +:+ bs +:+ "n";
    bs +:+ "n";
    "    Unless required by applicable law or agreed to in writing, software" +:+ bs +:+ "n";
    "    distributed under the License is distributed on an " +:+ bs +:+ dq +:+ "AS IS" +:+ bs +:+ dq +:+ " BASIS," +:+ bs +:+ "n";
    "    WITHOUT WARRANTIES OR CONDITIONS OF ANY KIND, either express or implied." +:+ bs +:+ "n";
    "    See the License for the specific language governing permissions and" +:+ bs +:+ "n";
    "    limitations under the License." +:+ bs +:+ "n";
    "-->" +:+ bs +:+ "n";
    "<permissions>" +:+ bs +:+ "n" ].

Definition apexLibraryTag : string := "    <apex-library" +:+ bs +:+ "n".
Definition plainLibraryTag : string := "    <library" +:+ bs +:+ "n".

Definition libraryTagOf (module : sdkLibraryXml) : string :=
  match Min_device_sdk (properties module) with
  | Some _ => apexLibraryTag
  | None => plainLibraryTag
  end.

Definition permissionsContents (module : sdkLibraryXml) : Ctx string :=
  let libName := StringOf (Lib_name (properties module)) in
  let libNameAttr := formattedOptionalAttribute "name" (Some libName) in
  let filePath := implPath module in
  let filePathAttr := formattedOptionalAttribute "file" (Some filePath) in
  implicitFromAttr ←← formattedOptionalSdkLevelAttribute "on-bootclasspath-since"
                        (On_bootclasspath_since (properties module)) ;;
  implicitUntilAttr ←← formattedOptionalSdkLevelAttribute "on-bootclasspath-before"
                         (On_bootclasspath_before (properties module)) ;;
  minSdkAttr ←← formattedOptionalSdkLevelAttribute "min-device-sdk"
                  (Min_device_sdk (properties module)) ;;
  maxSdkAttr ←← formattedOptionalSdkLevelAttribute "max-device-sdk"
                  (Max_device_sdk (properties module)) ;;
  let dependenciesAttr :=
    formattedDependenciesAttribute (Uses_libs_dependencies (properties module)) in
  let libraryTag := libraryTagOf module in
  ret (stringsJoin
         (permissionsHeader ++
          [ libraryTag; libNameAttr; filePathAttr; implicitFromAttr;
            implicitUntilAttr; minSdkAttr; maxSdkAttr; dependenciesAttr;
            "    />" +:+ bs +:+ "n";
            "</permissions>" +:+ bs +:+ "n" ])
         EmptyString).

Definition atLeastTError (attrName : string) : event :=
  PropertyErrorf attrName "Attribute value needs to be at least T" [].

Definition attrAtLeastT (t : ApiLevel) (attr : option string) (attrName : string) : Ctx unit :=
  match attr with
  | Some a =>
      match ApiLevelFromUser a with
      | inl level => when (GreaterThan t level) (emit (atLeastTError attrName))
      | inr _ => ret tt
      end
  | None => ret tt
  end.

(** Runs a call that may panic. *)
Definition orPanic {A} (o : outcome A) : Ctx A :=
  match o with
  | Returned a => ret a
  | Panicked msg => panic msg
  end.

Definition validateAtLeastTAttributes (module : sdkLibraryXml) : Ctx unit :=
  t ←← orPanic (ApiLevelOrPanic "Tiramisu") ;;
  attrAtLeastT t (Min_device_sdk (properties module)) "min_device_sdk" ;;;
  attrAtLeastT t (Max_device_sdk (properties module)) "max_device_sdk" ;;;
  attrAtLeastT t (On_bootclasspath_before (properties module)) "on_bootclasspath_before" ;;;
  attrAtLeastT t (On_bootclasspath_since (properties module)) "on_bootclasspath_since".

Definition minGreaterThanMaxError : event :=
  ModuleErrorf "min_device_sdk can't be greater than max_device_sdk" [].

Definition validateMinAndMaxDeviceSdk (module : sdkLibraryXml) : Ctx unit :=
  match Min_device_sdk (properties module), Max_device_sdk (properties module) with
  | Some minS, Some maxS =>
      match ApiLevelFromUser minS, ApiLevelFromUser maxS with
      | inl min, inl max =>
          when (GreaterThan min max) (emit minGreaterThanMaxError)
      | _, _ => ret tt
      end
  | _, _ => ret tt
  end.

Definition nilDereference : string :=
  "runtime error: invalid memory address or nil pointer dereference".

(** [*module.properties.Sdk_library_min_api_level] *)
Definition moduleMinApiOf (module : sdkLibraryXml) : Ctx ApiLevel :=
  match Sdk_library_min_api_level (properties module) with
  | Some v => orPanic (ApiLevelOrPanic v)
  | None => panic nilDereference
  end.

Definition lessThanModuleMinSdkError (property : string) (moduleMinApi : ApiLevel) : event :=
  PropertyErrorf property "Can't be less than module's min sdk (%s)"
    [ArgString (ApiLevelString moduleMinApi)].

Definition checkNotBelowModuleMinSdk (moduleMinApi : ApiLevel) (attr : option string)
    (property : string) : Ctx unit :=
  match attr with
  | Some a =>
      match ApiLevelFromUser a with
      | inl api =>
          when (GreaterThan moduleMinApi api)
            (emit (lessThanModuleMinSdkError property moduleMinApi))
      | inr _ => ret tt
      end
  | None => ret tt
  end.

Definition validateMinMaxDeviceSdkAndModuleMinSdk (module : sdkLibraryXml) : Ctx unit :=
  moduleMinApi ←← moduleMinApiOf module ;;
  checkNotBelowModuleMinSdk moduleMinApi (Min_device_sdk (properties module)) "min_device_sdk" ;;;
  checkNotBelowModuleMinSdk moduleMinApi (Max_device_sdk (properties module)) "max_device_sdk".

Definition onBootclasspathBeforeError : event :=
  PropertyErrorf "on_bootclasspath_before"
    "Using this property requires that the module's min_sdk_version or the shared library's min_device_sdk is at least T"
    [].

Definition validateOnBootclasspathBeforeRequirements (module : sdkLibraryXml) : Ctx unit :=
  moduleMinApi ←← moduleMinApiOf module ;;
  match On_bootclasspath_before (properties module) with
  | Some _ =>
      t ←← orPanic (ApiLevelOrPanic "Tiramisu") ;;
      if LessThan moduleMinApi t then
        match Min_device_sdk (properties module) with
        | None => emit onBootclasspathBeforeError
        | Some _ => ret tt
        end
      else ret tt
  | None => ret tt
  end.

Definition selfValidate (module : sdkLibraryXml) : Ctx unit :=
  validateAtLeastTAttributes module ;;;
  validateMinAndMaxDeviceSdk module ;;;
  validateMinMaxDeviceSdkAndModuleMinSdk module ;;;
  validateOnBootclasspathBeforeRequirements module.

(** The text of the command that writes the file. *)
Definition xmlCommandText (xmlContent : string) : string :=
  "/bin/bash -c " +:+ dq +:+ "echo -e '" +:+ xmlContent +:+ "'" +:+ dq +:+ " > ".

(** [GenerateAndroidBuildActions] of the XML module; the output is
    [libName.xml] in the output directory of the module. *)
Definition xmlGenerateAndroidBuildActions (module : sdkLibraryXml) : Ctx unit :=
  let libName := StringOf (Lib_name (properties module)) in
  selfValidate module ;;;
  xmlContent ←← permissionsContents module ;;
  emit (RuleBuild "java_sdk_xml" "Permission XML" (xmlCommandText xmlContent)
          (libName +:+ ".xml")).

(** What follows [validateMinAndMaxDeviceSdk] in
    [GenerateAndroidBuildActions]. *)
Definition afterMinAndMax (module : sdkLibraryXml) : Ctx unit :=
  (validateMinMaxDeviceSdkAndModuleMinSdk module ;;;
   validateOnBootclasspathBeforeRequirements module) ;;;
  xmlContent ←← permissionsContents module ;;
  emit (RuleBuild "java_sdk_xml" "Permission XML" (xmlCommandText xmlContent)
          (StringOf (Lib_name (properties module)) +:+ ".xml")).
End WithApiLevels.

(** ** More of the dependency extractors *)

(** [tag.extractDepInfo]: an error of the extractor becomes a module error
    with the name of the tag and [ctx.OtherModuleName(dep)]; a panic of the
    extractor goes through. *)
Definition invalidDependencyError (tagName depName err : string) : event :=
  ModuleErrorf "has an invalid {scopeDependencyTag: %s} dependency on module %s: %s"
    [ArgString tagName; ArgString depName; ArgString err].

Definition extractDepInfo (tagName : string)
    (depInfoExtractor : scopePaths → outcome (scopePaths * option string))
    (depName : string) (paths : scopePaths) : Ctx scopePaths :=
  match depInfoExtractor paths with
  | Returned (paths', Some err) =>
      emit (invalidDependencyError tagName depName err) ;;;
      ret paths'
  | Returned (paths', None) => ret paths'
  | Panicked msg => panic msg
  end.

(** The names that [initApiScope] gives the three tags of the stubs
    libraries. *)
Definition prebuiltStubsTagName (s : apiScope) : string := name (scope s) +:+ "-stubs".
Definition everythingStubsTagName (s : apiScope) : string :=
  name (scope s) +:+ "-stubs-everything".
Definition exportableStubsTagName (s : apiScope) : string :=
  name (scope s) +:+ "-stubs-exportable".

(** [StubsType] of [droidstubs.go], as far as this file uses it. *)
Inductive StubsType :=
| Everything
| Exportable.

(** The [ApiStubsProvider] interface, which includes [ApiStubsSrcProvider]:
    each method returns a path or an error. *)
Record ApiStubsProvider := {
  AnnotationsZip : StubsType → string + string;
  ApiFilePath : StubsType → string + string;
  RemovedApiFilePath : StubsType → string + string;
  StubsSrcJar : StubsType → string + string;
}.

(** The error of a call, [nil] when it returned a path. *)
Definition errorOf (r : string + string) : option string :=
  match r with
  | inl _ => None
  | inr err => Some err
  end.

(** [errors.Join]: [nil] if every error is [nil], and otherwise the
    messages of the others, one per line. *)
Definition errorsJoin (errs : list (option string)) : option string :=
  match omap id errs with
  | [] => None
  | msgs => Some (String.concat nl msgs)
  end.

Definition notApiStubsProviderError : string :=
  "expected module that implements ExportableApiStubsSrcProvider, e.g. droidstubs".

(** [treatDepAsApiStubsProvider]; the dependency is [None] when it does not
    implement the interface.  The action returns the updated paths and its
    error. *)
Definition treatDepAsApiStubsProvider (dep : option ApiStubsProvider)
    (action : ApiStubsProvider → scopePaths * option string) (paths : scopePaths)
    : scopePaths * option string :=
  match dep with
  | Some apiStubsProvider => action apiStubsProvider
  | None => (paths, Some notApiStubsProviderError)
  end.

Definition extractApiInfoFromApiStubsProvider (provider : ApiStubsProvider)
    (stubsType : StubsType) (paths : scopePaths) : scopePaths * option string :=
  let annotationsZipR := AnnotationsZip provider stubsType in
  let currentApiFilePathR := ApiFilePath provider stubsType in
  let removedApiFilePathR := RemovedApiFilePath provider stubsType in
  let combinedError :=
    errorsJoin [errorOf annotationsZipR; errorOf currentApiFilePathR;
                errorOf removedApiFilePathR] in
  match combinedError, annotationsZipR, currentApiFilePathR, removedApiFilePathR with
  | None, inl annotationsZip', inl currentApiFilePath', inl removedApiFilePath' =>
      ({| stubsHeaderPath := stubsHeaderPath paths;
          stubsImplPath := stubsImplPath paths;
          stubsDexJarPath := stubsDexJarPath paths;
          exportableStubsDexJarPath := exportableStubsDexJarPath paths;
          currentApiFilePath := Some currentApiFilePath';
          removedApiFilePath := Some removedApiFilePath';
          stubsSrcJar := stubsSrcJar paths;
          annotationsZip := Some annotationsZip';
          latestApiPath := latestApiPath paths;
          latestRemovedApiPath := latestRemovedApiPath paths |}, None)
  | _, _, _, _ => (paths, combinedError)
  end.

Definition extractStubsSourceInfoFromApiStubsProviders (provider : ApiStubsProvider)
    (stubsType : StubsType) (paths : scopePaths) : scopePaths * option string :=
  match StubsSrcJar provider stubsType with
  | inl stubsSrcJar' =>
      ({| stubsHeaderPath := stubsHeaderPath paths;
          stubsImplPath := stubsImplPath paths;
          stubsDexJarPath := stubsDexJarPath paths;
          exportableStubsDexJarPath := exportableStubsDexJarPath paths;
          currentApiFilePath := currentApiFilePath paths;
          removedApiFilePath := removedApiFilePath paths;
          stubsSrcJar := Some stubsSrcJar';
          annotationsZip := annotationsZip paths;
          latestApiPath := latestApiPath paths;
          latestRemovedApiPath := latestRemovedApiPath paths |}, None)
  | inr err => (paths, Some err)
  end.

Definition extractApiInfoFromDep (dep : option ApiStubsProvider) (paths : scopePaths)
    : scopePaths * option string :=
  treatDepAsApiStubsProvider dep
    (λ provider, extractApiInfoFromApiStubsProvider provider Everything paths) paths.

Definition extractStubsSourceAndApiInfoFromApiStubsProvider (config : Config)
    (dep : option ApiStubsProvider) (paths : scopePaths) : scopePaths * option string :=
  let stubsType :=
    if ReleaseHiddenApiExportableStubs config then Exportable else Everything in
  treatDepAsApiStubsProvider dep
    (λ provider,
       let '(paths1, extractApiInfoErr) :=
         extractApiInfoFromApiStubsProvider provider stubsType paths in
       let '(paths2, extractStubsSourceInfoErr) :=
         extractStubsSourceInfoFromApiStubsProviders provider stubsType paths1 in
       (paths2, errorsJoin [extractApiInfoErr; extractStubsSourceInfoErr]))
    paths.




(** ** ComponentDepsMutator *)

(** The tag of a dependency: the tag of a scope, by its name, or one of the
    two component tags. *)
Inductive dependencyTag :=
| scopeDependencyTag (tagName : string)
| implLibraryTag
| xmlPermissionsFileTag.

(** A call of [ctx.AddVariationDependencies(nil, tag, name)] or of
    [ctx.AddDependency(module, tag, name)]. *)
Inductive addedDependency :=
| AddVariationDependencies (tag : dependencyTag) (name : string)
| AddDependency (tag : dependencyTag) (name : string).

Section ComponentDeps.
Variable PrebuiltApiModuleName : string → string → string → string.

(** The dependencies that the loop adds for one scope. *)
Definition scopeComponentDeps (module : SdkLibrary) (s : apiScope) : list addedDependency :=
  let baseName := BaseModuleName module in
  [AddVariationDependencies
     (scopeDependencyTag (name (scope s) +:+ "-stubs-everything"))
     (stubsLibraryModuleName s baseName);
   AddVariationDependencies
     (scopeDependencyTag (name (scope s) +:+ "-stubs-exportable"))
     (exportableStubsLibraryModuleName s baseName);
   AddVariationDependencies
     (scopeDependencyTag (name (scope s) +:+ "-stubs-source-and-api"))
     (stubsSourceModuleName s baseName)] ++
  (if compareAgainstLatestApi module s
   then [AddDependency
           (scopeDependencyTag (name (scope s) +:+ "-latest-api"))
           (latestApiModuleName PrebuiltApiModuleName module s);
         AddDependency
           (scopeDependencyTag (name (scope s) +:+ "-latest-removed-api"))
           (latestRemovedApiModuleName PrebuiltApiModuleName module s)]
   else []).

(** [ComponentDepsMutator]: the dependencies it adds, in order. *)
Definition ComponentDepsMutator (module : SdkLibrary) : Ctx (list addedDependency) :=
  generatedScopes ←← getGeneratedApiScopes module ;;
  ret (concat (map (scopeComponentDeps module) generatedScopes) ++
       (if requiresRuntimeImplementationLibrary module
        then AddDependency implLibraryTag (implLibraryModuleName module) ::
             (if sharedLibrary module
              then [AddDependency xmlPermissionsFileTag (xmlPermissionsModuleName module)]
              else [])
        else [])).
End ComponentDeps.

(** ** Stub link types *)

(** [sdkLinkType], declared in [java.go]. *)
Inductive sdkLinkType :=
| javaCore
| javaSdk
| javaSystem
| javaModule
| javaSystemServer
| javaPlatform.

(** [strings.HasSuffix]:
    [len(s) >= len(suffix) && s[len(s)-len(suffix):] == suffix] *)
Definition HasSuffix (s suffix : string) : bool :=
  (String.length suffix <=? String.length s)%nat
  && bool_decide
       (String.substring (String.length s - String.length suffix) (String.length suffix) s = suffix).

(** [strings.TrimSuffix] *)
Definition TrimSuffix (s suffix : string) : string :=
  if HasSuffix s suffix
  then String.substring 0 (String.length s - String.length suffix) s
  else s.

Definition hasStubsLibrarySuffix (name : string) (s : apiScope) : bool :=
  HasSuffix name (stubsLibraryModuleNameSuffix s)
  || HasSuffix name (exportableStubsLibraryModuleNameSuffix s).

Definition moduleStubLinkType (name : string) : bool * sdkLinkType :=
  let name := TrimSuffix name ".from-source" in
  if hasStubsLibrarySuffix name apiScopePublic then
    if bool_decide (name = "hwbinder.stubs") || bool_decide (name = "libcore_private.stubs")
    then (false, javaPlatform)
    else (true, javaSdk)
  else if hasStubsLibrarySuffix name apiScopeSystem then (true, javaSystem)
  else if hasStubsLibrarySuffix name apiScopeModuleLib then (true, javaModule)
  else if hasStubsLibrarySuffix name apiScopeTest then (true, javaSystem)
  else if hasStubsLibrarySuffix name apiScopeSystemServer then (true, javaSystemServer)
  else (false, javaPlatform).

(** ** Output files by tag *)

Definition stubsSourceComponentName : string := "stubs.source".
Definition apiTxtComponentName : string := "api.txt".
Definition removedApiTxtComponentName : string := "removed-api.txt".
Definition annotationsComponentName : string := "annotations.zip".

(** [allScopeNames] and [scopeByName], as [initApiScope] fills them. *)
Definition allScopeNames : list string := map (λ s, name (scope s)) allApiScopes.

Definition scopeByName (scopeName : string) : option apiScope :=
  head (filter (λ s, name (scope s) = scopeName) allApiScopes).

Definition componentNames : list string :=
  [stubsSourceComponentName; apiTxtComponentName; removedApiTxtComponentName;
   annotationsComponentName].

(** [tagSplitter.FindStringSubmatch(tag)].  The expression is
    [^\.(scopes)\.(components)$] with the quoted names of the scopes and of
    the components as alternatives; the groups are those of the first
    alternatives, in their order, with which the whole tag matches. *)
Definition tagSplitter (tag : string) : option (string * string) :=
  head (filter (λ groups, tag = "." +:+ groups.1 +:+ "." +:+ groups.2)
          (list_prod allScopeNames componentNames)).

(** An error of [fmt.Errorf], with its format and its arguments. *)
Inductive error :=
| Errorf (format : string) (args : list fmtArg).

Definition notAvailableForScope (component scopeName : string) : error :=
  Errorf "%s not available for api scope %s" [ArgString component; ArgString scopeName].

(** The result of a component whose path may be invalid. *)
Definition validPathOr (path : option string) (otherwise : option (list string) * option error)
    : option (list string) * option error :=
  match path with
  | Some p => (Some [p], None)
  | None => otherwise
  end.

(** [commonOutputFiles]; [doctagPaths] is the field of that name, [None]
    when it is [nil].  In the branch of an unknown scope [scope] is the nil
    pointer, which [%s] prints as [<nil>]. *)
Definition commonOutputFiles (c : commonToSdkLibraryAndImport)
    (doctagPaths : option (list string)) (tag : string)
    : option (list string) * option error :=
  match tagSplitter tag with
  | Some (scopeName, component) =>
      match scopeByName scopeName with
      | Some scope =>
          match findScopePaths c scope with
          | None =>
              (None, Some (Errorf "%q does not provide api scope %s"
                             [ArgString (RootLibraryName c); ArgString scopeName]))
          | Some paths =>
              let notAvailable := (None, Some (notAvailableForScope component scopeName)) in
              if decide (component = stubsSourceComponentName) then
                validPathOr (stubsSrcJar paths) notAvailable
              else if decide (component = apiTxtComponentName) then
                validPathOr (currentApiFilePath paths) notAvailable
              else if decide (component = removedApiTxtComponentName) then
                validPathOr (removedApiFilePath paths) notAvailable
              else if decide (component = annotationsComponentName) then
                validPathOr (annotationsZip paths) notAvailable
              else notAvailable
          end
      | None =>
          (None, Some (Errorf "unknown scope %s in %s" [ArgString "<nil>"; ArgString tag]))
      end
  | None =>
      if decide (tag = ".doctags") then
        match doctagPaths with
        | Some paths => (Some paths, None)
        | None =>
            (None, Some (Errorf "no doctag_files specified on %s"
                           [ArgString (RootLibraryName c)]))
        end
      else (None, None)
  end.

(** [SdkRemovedTxtFile] *)
Definition SdkRemovedTxtFile (c : commonToSdkLibraryAndImport) (kind : SdkKind)
    : option string :=
  let apiScope := sdkKindToApiScope kind in
  match findScopePaths c apiScope with
  | None => None
  | Some paths => removedApiFilePath paths
  end.

(** ** Closed forms used in the proofs *)

Fixpoint hasSlash (s : string) : bool :=
  match s with
  | EmptyString => false
  | String a rest => bool_decide (a = "/"%char) || hasSlash rest
  end.

(** The name of a file or of a directory, which [Clean] leaves as it is:
    it has no slash, and it is not empty, [.] or [..]. *)
Definition plainComponent (e : string) : bool :=
  negb (hasSlash e) && negb (bool_decide (e = EmptyString ∨ e = "." ∨ e = "..")).

(** The errors of the third loop of [getGeneratedApiScopes] for one scope,
    given the enabled status of every scope. *)
Definition extendsErrors (en : apiScope → bool) (s : apiScope) : list event :=
  if en s then
    match extends (scope s) with
    | Some e => if en e then [] else [disabledExtendsError s e]
    | None => []
    end
  else [].

(** The enabled status that [getGeneratedApiScopes] computes for a scope. *)
Definition enabledStatus (module : SdkLibrary) (s : apiScope) : bool :=
  scopeEnabled module (anyScopesExplicitlyEnabled module) s.

(** The checked-in API files of a scope that are missing, and the errors
    that the strict check reports for them. *)
Definition currentApiFileNames : list string := ["current.txt"; "removed.txt"].

Definition missingCurrentApiFile (mctx : moduleContext) (module : SdkLibrary)
    (s : apiScope) (api : string) : bool :=
  negb (ExistentPathForSource mctx (currentApiFilePathOf mctx module s api)).


(** The names of the modules that [createScopeModules] creates for a
    scope, in the order of their creation. *)
Definition scopeModuleNames (contributes : bool) (s : apiScope) (baseName : string)
    : list string :=
  [stubsSourceModuleName s baseName;
   sourceStubLibraryModuleName s baseName;
   exportableSourceStubsLibraryModuleName s baseName] ++
  (if contributes then [apiLibraryModuleName s baseName] else []) ++
  [stubsLibraryModuleName s baseName;
   exportableStubsLibraryModuleName s baseName].

(** Whether [CreateInternalModules] creates the [java_api_library] of a
    scope. *)
Definition createsApiLibrary (c : Config) (module : SdkLibrary) (s : apiScope) : bool :=
  contributesToApiSurface c module
  || bool_decide (s = apiScopePublic ∧ alternativeFullApiSurfaceStubLib module ≠ EmptyString).

(** The names of the modules that a log creates, in order. *)
Definition createdModules (events : list event) : list string :=
  omap (λ e, match e with CreateModule n => Some n | _ => None end) events.

(** The names [CreateInternalModules] creates when it gets past its checks. *)
Definition internalModuleNames (c : Config) (module : SdkLibrary)
    (generated : list apiScope) : list string :=
  concat (map (λ s, scopeModuleNames (createsApiLibrary c module s) s (BaseModuleName module))
            generated) ++
  (if requiresRuntimeImplementationLibrary module
   then implLibraryModuleName module ::
        (if sharedLibrary module then [xmlPermissionsModuleName module] else [])
   else []).

(** The suffixes of all the names that a library can give a module. *)
Definition internalModuleSuffixes : list string :=
  concat (map (λ s, [".stubs.source" +:+ moduleSuffix (scope s);
                     stubsLibraryModuleNameSuffix s +:+ ".from-source";
                     exportableStubsLibraryModuleNameSuffix s +:+ ".from-source";
                     stubsLibraryModuleNameSuffix s +:+ ".from-text";
                     stubsLibraryModuleNameSuffix s;
                     exportableStubsLibraryModuleNameSuffix s])
            allApiScopes) ++
  [".impl"; ".xml"].

(** What one pass of the check of the current API files appends to the log,
    whether missing dependencies are allowed or not. *)
Definition currentApiFileEvents (mctx : moduleContext) (module : SdkLibrary)
    (s : apiScope) : list event :=
  concat (map (λ api,
                 let path := currentApiFilePathOf mctx module s api in
                 if missingCurrentApiFile mctx module s api
                 then if AllowMissingDependencies (config mctx)
                      then [AddMissingDependencies [path]]
                      else [currentApiFileError path]
                 else [])
            currentApiFileNames).

(** The link type that [moduleStubLinkType] gives the stubs of a scope. *)
Definition scopeLinkType (s : apiScope) : sdkLinkType :=
  match s with
  | apiScopePublic => javaSdk
  | apiScopeSystem => javaSystem
  | apiScopeTest => javaSystem
  | apiScopeModuleLib => javaModule
  | apiScopeSystemServer => javaSystemServer
  end.

(** What is known of [HasSuffix (p +:+ a) b] for every [p]: its value, or
    nothing when [a] is a proper suffix of [b]. *)
Definition suffixVerdict (a b : string) : option bool :=
  if (String.length b <=? String.length a)%nat then Some (HasSuffix a b)
  else if HasSuffix b a then None
  else Some false.

(** The path of a scope that a component of [commonOutputFiles] names. *)
Definition componentPath (component : string) (paths : scopePaths) : option string :=
  if decide (component = stubsSourceComponentName) then stubsSrcJar paths
  else if decide (component = apiTxtComponentName) then currentApiFilePath paths
  else if decide (component = removedApiTxtComponentName) then removedApiFilePath paths
  else annotationsZip paths.

(** * Sample inputs *)

Module Sample.
Definition scopeProps (enabled : option bool) : ApiScopeProperties :=
  {| Enabled := enabled; Sdk_version := None; Libs := [] |}.

(** A library [L] with the given [enabled] properties. *)
Definition library (public system test moduleLib systemServer : option bool) : SdkLibrary :=
  {| moduleEnabled := true; moduleName := "L"; BaseModuleName := "L";
     Srcs := ["L.java"]; Shared_library := None;
     sdkLibProps :=
       {| Public := scopeProps public; System := scopeProps system;
          Test := scopeProps test; Module_lib := scopeProps moduleLib;
          System_server := scopeProps systemServer;
          Api_dir := None; Api_only := None; Dist_stem := None;
          Unsafe_ignore_missing_latest_api := false;
          Generate_system_and_test_apis := true |} |}.

(** [system: { enabled: true }] and nothing else. *)
Definition systemOnly : SdkLibrary := library None (Some true) None None None.

(** [public: { enabled: false }, system: { enabled: true }] *)
Definition systemWithoutPublic : SdkLibrary :=
  library (Some false) (Some true) None None None.

(** The paths of a scope whose stubs header jar is [jar]. *)
Definition pathsWithHeader (jar : string) : scopePaths :=
  {| stubsHeaderPath := [jar]; stubsImplPath := [];
     stubsDexJarPath := None; exportableStubsDexJarPath := None;
     currentApiFilePath := None; removedApiFilePath := None;
     stubsSrcJar := None; annotationsZip := None;
     latestApiPath := None; latestRemovedApiPath := None |}.

(** A library that provides the system-server scope only. *)
Definition systemServerOnly : commonToSdkLibraryAndImport :=
  {| RootLibraryName := "L";
     scopePathsMap := Some {[ apiScopeSystemServer := pathsWithHeader "ss.jar" ]} |}.

(** A configuration with [RELEASE_HIDDEN_API_EXPORTABLE_STUBS] set. *)
Definition exportableConfig : Config :=
  {| ReleaseHiddenApiExportableStubs := true; AllowMissingDependencies := false;
     BuildFromTextStub := false; ApiLibraries := [] |}.

(** A stubs library with its jars. *)
Definition stubsDep : depModule :=
  {| depJavaInfo := Some {| HeaderJars := ["stubs-header.jar"];
                            ImplementationJars := ["stubs-impl.jar"] |};
     depDexJarBuildPath := Some (Some "stubs-dex.jar") |}.

(** A library that provides the module-lib scope only. *)
Definition moduleLibOnly : commonToSdkLibraryAndImport :=
  {| RootLibraryName := "L";
     scopePathsMap := Some {[ apiScopeModuleLib := pathsWithHeader "ml.jar" ]} |}.

(** API levels as numbers: 30 to 34 by their number, [Tiramisu] for 33
    and [current] for the future level 10000, which is a preview. *)
Definition levelFromUser (raw : string) : Z + string :=
  if decide (raw = "30") then inl 30%Z
  else if decide (raw = "31") then inl 31%Z
  else if decide (raw = "32") then inl 32%Z
  else if decide (raw = "33") then inl 33%Z
  else if decide (raw = "34") then inl 34%Z
  else if decide (raw = "Tiramisu") then inl 33%Z
  else if decide (raw = "current") then inl 10000%Z
  else inr ("unrecognized api level " +:+ raw).

Definition levelString (level : Z) : string :=
  if decide (level = 30%Z) then "30"
  else if decide (level = 31%Z) then "31"
  else if decide (level = 32%Z) then "32"
  else if decide (level = 33%Z) then "33"
  else if decide (level = 34%Z) then "34"
  else "current".

Definition kindString (kind : SdkKind) : string :=
  match kind with
  | SdkInvalid => "invalid"
  | SdkNone => "none"
  | SdkCore => "core"
  | SdkCorePlatform => "core_platform"
  | SdkIntraCore => "intracore"
  | SdkToolchain => "toolchain"
  | SdkPublic => "public"
  | SdkSystem => "system"
  | SdkTest => "test"
  | SdkTestFrameworksCore => "test_frameworks_core"
  | SdkModule => "module-lib"
  | SdkSystemServer => "system-server"
  | SdkPrivate => "private"
  end.

Definition apiLevels : ApiLevels :=
  {| ApiLevel := Z;
     ApiLevelFromUser := levelFromUser;
     ApiLevelOrPanic raw :=
       match levelFromUser raw with
       | inl level => Returned level
       | inr err => Panicked err
       end;
     GreaterThan a b := bool_decide (b < a)%Z;
     LessThan a b := bool_decide (a < b)%Z;
     IsCurrent level := bool_decide (level = 10000%Z);
     IsPreview level := bool_decide (level = 10000%Z);
     ApiLevelString := levelString;
     FutureApiLevel := 10000%Z;
     SdkKindString := kindString |}.

(** A configuration that allows missing dependencies. *)
Definition tolerantConfig : Config :=
  {| ReleaseHiddenApiExportableStubs := false; AllowMissingDependencies := true;
     BuildFromTextStub := false; ApiLibraries := [] |}.

(** The context of a module in [libs/L], in a source tree that has none
    of the files asked for and where every other module exists. *)
Definition emptyTree (config : Config) : moduleContext :=
  {| config := config;
     ModuleDir := "libs/L";
     ExistentPathForSource := λ _, false;
     OtherModuleExists := λ _, true;
     hasStandardLibs := false |}.


(** A library [L] without any [enabled] property. *)
Definition legacy : SdkLibrary := library None None None None None.


(** The names that [prebuilt_apis] gives its filegroup modules. *)
Definition prebuiltApiModuleName (name scope version : string) : string :=
  name +:+ ".api." +:+ scope +:+ "." +:+ version.

(** [sdk_version: "30"] *)
Definition sdk30 : @SdkSpec apiLevels :=
  @Build_SdkSpec apiLevels SdkPublic 30%Z "30".

(** The XML module of a platform library [L] with the given
    [min_device_sdk] and [max_device_sdk], of a library whose
    [min_sdk_version] is 33. *)
Definition xmlModule (minSdk maxSdk : option string) : @sdkLibraryXml :=
  {| properties :=
       {| Lib_name := Some "L";
          On_bootclasspath_since := None;
          On_bootclasspath_before := None;
          Min_device_sdk := minSdk;
          Max_device_sdk := maxSdk;
          Sdk_library_min_api_level := Some "33";
          Uses_libs_dependencies := None |};
     IsForPlatform := true;
     ApexVariationName := EmptyString;
     SocSpecific := false;
     DeviceSpecific := false;
     ProductSpecific := false;
     SystemExtSpecific := false |}.
(** An XML module whose [sdk_library_min_api_level] is not set. *)
Definition xmlModuleWithoutMinApiLevel : @sdkLibraryXml :=
  {| properties :=
       {| Lib_name := Some "L";
          On_bootclasspath_since := None;
          On_bootclasspath_before := None;
          Min_device_sdk := None;
          Max_device_sdk := None;
          Sdk_library_min_api_level := None;
          Uses_libs_dependencies := None |};
     IsForPlatform := true;
     ApexVariationName := EmptyString;
     SocSpecific := false;
     DeviceSpecific := false;
     ProductSpecific := false;
     SystemExtSpecific := false |}.

(** An XML module of a library whose [min_sdk_version] is [minApi], with
    [on_bootclasspath_before] and [min_device_sdk]. *)
Definition xmlModuleOnBootclasspathBefore (minApi : string)
    (before minSdk : option string) : @sdkLibraryXml :=
  {| properties :=
       {| Lib_name := Some "L";
          On_bootclasspath_since := None;
          On_bootclasspath_before := before;
          Min_device_sdk := minSdk;
          Max_device_sdk := None;
          Sdk_library_min_api_level := Some minApi;
          Uses_libs_dependencies := None |};
     IsForPlatform := true;
     ApexVariationName := EmptyString;
     SocSpecific := false;
     DeviceSpecific := false;
     ProductSpecific := false;
     SystemExtSpecific := false |}.
End Sample.

(** * Properties *)

(** ** The context monad *)

Lemma forRange_emits {A} (f : A → list event) (body : A → Ctx unit) (l : list A) :
  (∀ x log, body x log = (Returned tt, log ++ f x)) →
  ∀ log, forRange l body log = (Returned tt, log ++ concat (map f l)).
Proof.
  intros Hbody. induction l as [|x l IH]; intros log; simpl.
  - by rewrite app_nil_r.
  - unfold bind. rewrite Hbody, IH. by rewrite app_assoc.
Qed.

Lemma emitsOnly_ret {A} P (a : A) : emitsOnly P (ret a).
Proof. exists (Returned a), []. split; [|done]. intros log. by rewrite app_nil_r. Qed.

Lemma emitsOnly_panic {A} P msg : emitsOnly P (@panic A msg).
Proof. exists (Panicked msg), []. split; [|done]. intros log. by rewrite app_nil_r. Qed.

Lemma emitsOnly_emit (P : event → Prop) e : P e → emitsOnly P (emit e).
Proof. intros He. exists (Returned tt), [e]. split; [done|]. by constructor. Qed.

Lemma emitsOnly_bind {A B} P (m : Ctx A) (k : A → Ctx B) :
  emitsOnly P m → (∀ a, emitsOnly P (k a)) → emitsOnly P (bind m k).
Proof.
  intros (out & evs & Hm & Hevs) Hk. destruct out as [a|msg].
  - destruct (Hk a) as (out' & evs' & Hka & Hevs').
    exists out', (evs ++ evs'). split; [|by apply Forall_app].
    intros log. unfold bind. by rewrite Hm, Hka, app_assoc.
  - exists (Panicked msg), evs. split; [|done].
    intros log. unfold bind. by rewrite Hm.
Qed.

Lemma emitsOnly_when P b (m : Ctx unit) : emitsOnly P m → emitsOnly P (when b m).
Proof. intros Hm. destruct b; [done|apply emitsOnly_ret]. Qed.

Lemma emitsOnly_orPanic {A} P (o : outcome A) : emitsOnly P (orPanic o).
Proof. destruct o; [apply emitsOnly_ret|apply emitsOnly_panic]. Qed.

Ltac emits_step side :=
  first
    [ apply emitsOnly_ret
    | apply emitsOnly_panic
    | apply emitsOnly_orPanic
    | apply emitsOnly_emit; side
    | apply emitsOnly_bind; [|intros ?]
    | apply emitsOnly_when
    | match goal with
      | |- emitsOnly _ (match ?x with _ => _ end) => destruct x
      end ].

Ltac emits side := repeat emits_step side.

(** ** getGeneratedApiScopes *)

Lemma allApiScopes_complete (s : apiScope) : s ∈ allApiScopes.
Proof. unfold allApiScopes. destruct s; repeat constructor. Qed.

Lemma collectEnabledScopes_spec module b l gen en :
  collectEnabledScopes module b l (gen, en) =
  (gen ++ filter (λ s, scopeEnabled module b s = true) l,
   list_to_set (filter (λ s, scopeEnabled module b s = true) l) ∪ en).
Proof.
  revert gen en. induction l as [|s l IH]; intros gen en.
  - simpl. rewrite app_nil_r. f_equal. by rewrite (left_id_L ∅ (∪)).
  - unfold collectEnabledScopes in *. simpl fold_left.
    destruct (scopeEnabled module b s) eqn:Hs.
    + rewrite IH. rewrite filter_cons_True by done.
      rewrite <- app_assoc. simpl. f_equal.
      rewrite (assoc_L (∪)). f_equal. apply (comm_L (∪)).
    + rewrite IH. by rewrite filter_cons_False by (rewrite Hs; done).
Qed.

Lemma checkExtendsEnabled_spec (en : apiScope → bool) (set : gset apiScope) :
  (∀ s, s ∈ set ↔ en s = true) →
  ∀ s log, checkExtendsEnabled set s log = (Returned tt, log ++ extendsErrors en s).
Proof.
  intros Hset s log. unfold checkExtendsEnabled, extendsErrors.
  destruct (decide (s ∈ set)) as [Hin|Hnin].
  - apply Hset in Hin. rewrite Hin.
    destruct (extends (scope s)) as [e|]; [|by unfold ret; rewrite app_nil_r].
    destruct (decide (e ∈ set)) as [Hin'|Hnin'].
    + apply Hset in Hin'. rewrite Hin'. by unfold ret; rewrite app_nil_r.
    + destruct (en e) eqn:He; [by apply Hset in He|done].
  - destruct (en s) eqn:Hs; [by apply Hset in Hs|].
    by unfold ret; rewrite app_nil_r.
Qed.

(** The result of [getGeneratedApiScopes], in closed form. *)
Lemma getGeneratedApiScopes_spec module log :
  getGeneratedApiScopes module log =
  (Returned (filter (λ s, enabledStatus module s = true) allApiScopes),
   log ++ concat (map (extendsErrors (enabledStatus module)) allApiScopes)).
Proof.
  unfold getGeneratedApiScopes.
  rewrite collectEnabledScopes_spec. simpl app.
  unfold bind.
  rewrite (forRange_emits (extendsErrors (enabledStatus module))); [done|].
  apply checkExtendsEnabled_spec. intros s.
  rewrite elem_of_union, elem_of_list_to_set, list_elem_of_filter.
  split.
  - intros [[Hs _]|Hs]; [done|by apply not_elem_of_empty in Hs].
  - intros Hs. left. split; [done|apply allApiScopes_complete].
Qed.

Lemma anyScopesExplicitlyEnabled_true module :
  anyScopesExplicitlyEnabled module = true ↔
  ∃ s, Enabled (scopeToProperties module s) ≠ None.
Proof.
  unfold anyScopesExplicitlyEnabled. rewrite existsb_exists. split.
  - intros (s & _ & Hs). exists s. by apply bool_decide_eq_true in Hs.
  - intros (s & Hs). exists s. split.
    + apply list_elem_of_In, allApiScopes_complete.
    + by apply bool_decide_eq_true.
Qed.

Lemma generated_elem module (s : apiScope) :
  s ∈ filter (λ s, enabledStatus module s = true) allApiScopes ↔
  enabledStatus module s = true.
Proof.
  rewrite list_elem_of_filter. split; [by intros [? _]|].
  intros Hs. split; [done|apply allApiScopes_complete].
Qed.

(** C1: in explicit mode (some scope sets [enabled]) the generated scopes
    are, in the order of [allApiScopes], the scopes whose [enabled] property
    is true or, when it is unset, whose [defaultEnabledStatus] is true, which
    holds of public only.  For a library with [system.enabled = true] and no
    [enabled] on public and module-lib, public and system are generated and
    module-lib is not; when test and system-server are not enabled either,
    the result is exactly public and system, without an error. *)
Theorem getGeneratedApiScopes_explicit_mode (module : SdkLibrary) (log : list event) :
  (∃ s, Enabled (scopeToProperties module s) ≠ None) →
  ∃ generated log',
    getGeneratedApiScopes module log = (Returned generated, log') ∧
    generated =
      filter (λ s, BoolDefault (Enabled (scopeToProperties module s))
                     (defaultEnabledStatus (scope s)) = true) allApiScopes ∧
    (∀ s, s ∈ generated ↔
          Enabled (scopeToProperties module s) = Some true ∨
          (Enabled (scopeToProperties module s) = None ∧
           defaultEnabledStatus (scope s) = true)) ∧
    (∀ s, defaultEnabledStatus (scope s) = true ↔ s = apiScopePublic) ∧
    (Enabled (System (sdkLibProps module)) = Some true →
     Enabled (Public (sdkLibProps module)) = None →
     Enabled (Module_lib (sdkLibProps module)) = None →
     apiScopePublic ∈ generated ∧ apiScopeSystem ∈ generated ∧
     (apiScopeModuleLib ∉ generated) ∧
     (Enabled (Test (sdkLibProps module)) ≠ Some true →
      Enabled (System_server (sdkLibProps module)) ≠ Some true →
      generated = [apiScopePublic; apiScopeSystem] ∧ log' = log)).
Proof.
  intros Hany. apply anyScopesExplicitlyEnabled_true in Hany.
  eexists _, _. split; [apply getGeneratedApiScopes_spec|].
  assert (Hen : ∀ s, enabledStatus module s =
                     BoolDefault (Enabled (scopeToProperties module s))
                       (defaultEnabledStatus (scope s))).
  { intros s. unfold enabledStatus, scopeEnabled. by rewrite Hany. }
  assert (Helem : ∀ s,
    s ∈ filter (λ s, enabledStatus module s = true) allApiScopes ↔
    Enabled (scopeToProperties module s) = Some true ∨
    (Enabled (scopeToProperties module s) = None ∧
     defaultEnabledStatus (scope s) = true)).
  { intros s. rewrite generated_elem, Hen.
    destruct (Enabled (scopeToProperties module s)) as [[]|]; simpl;
      intuition congruence. }
  split; [|split; [exact Helem|split]].
  - apply list_filter_iff. intros s. by rewrite Hen.
  - intros []; simpl; intuition congruence.
  - intros Hsys Hpub Hmod.
    split; [apply Helem; right; simpl; by rewrite Hpub|].
    split; [apply Helem; left; simpl; by rewrite Hsys|].
    split; [rewrite Helem; simpl; rewrite Hmod; intuition congruence|].
    intros Htest Hss.
    assert (Ht : enabledStatus module apiScopeTest = false).
    { rewrite Hen. simpl. by destruct (Enabled (Test (sdkLibProps module))) as [[]|]. }
    assert (Hs : enabledStatus module apiScopeSystemServer = false).
    { rewrite Hen. simpl.
      by destruct (Enabled (System_server (sdkLibProps module))) as [[]|]. }
    assert (Hp : enabledStatus module apiScopePublic = true).
    { rewrite Hen. simpl. by rewrite Hpub. }
    assert (Hy : enabledStatus module apiScopeSystem = true).
    { rewrite Hen. simpl. by rewrite Hsys. }
    assert (Hm : enabledStatus module apiScopeModuleLib = false).
    { rewrite Hen. simpl. by rewrite Hmod. }
    unfold allApiScopes, extendsErrors. simpl.
    rewrite !filter_cons, filter_nil, Ht, Hs, Hp, Hy, Hm. simpl.
    split; [by repeat case_decide|by rewrite app_nil_r].
Qed.

(** The library with [system: { enabled: true }] only. *)
Lemma getGeneratedApiScopes_explicit_mode_witness :
  (∃ s, Enabled (scopeToProperties Sample.systemOnly s) ≠ None) ∧
  ∃ log', getGeneratedApiScopes Sample.systemOnly [] =
          (Returned [apiScopePublic; apiScopeSystem], log') ∧ log' = [].
Proof.
  assert (Hany : ∃ s, Enabled (scopeToProperties Sample.systemOnly s) ≠ None)
    by (exists apiScopeSystem; discriminate).
  split; [exact Hany|].
  destruct (getGeneratedApiScopes_explicit_mode Sample.systemOnly [] Hany)
    as (generated & log' & Hrun & _ & _ & _ & Hscenario).
  destruct Hscenario as (_ & _ & _ & Hexact); [reflexivity..|].
  destruct Hexact as [-> ->]; [discriminate..|].
  exists []. by split.
Defined.

Lemma extendsErrors_elem en (e : event) :
  e ∈ concat (map (extendsErrors en) allApiScopes) ↔
  ∃ S P, e = disabledExtendsError S P ∧ en S = true ∧
         extends (scope S) = Some P ∧ en P = false.
Proof.
  rewrite list_elem_of_In, in_concat. split.
  - intros (l & Hl & He). apply in_map_iff in Hl as (S & <- & _).
    unfold extendsErrors in He.
    destruct (en S) eqn:HS; [|done].
    destruct (extends (scope S)) as [P|] eqn:HP; [|done].
    destruct (en P) eqn:HenP; [done|].
    destruct He as [<-|[]]. by exists S, P.
  - intros (S & P & -> & HS & HP & HenP).
    exists (extendsErrors en S). split.
    + apply in_map_iff. exists S. split; [done|].
      apply list_elem_of_In, allApiScopes_complete.
    + unfold extendsErrors. rewrite HS, HP, HenP. by left.
Qed.

(** C2: [getGeneratedApiScopes] reports, for every generated scope whose
    [extends] scope is not generated, the error "enabled api scope %q depends
    on disabled scope %q" with the names of the two scopes, and reports
    nothing else; so whenever it reports no error, the scope extended by a
    generated scope is generated too. *)
Theorem getGeneratedApiScopes_down_closure (module : SdkLibrary) (log : list event) :
  ∃ generated errs,
    getGeneratedApiScopes module log = (Returned generated, log ++ errs) ∧
    (∀ S P, S ∈ generated → extends (scope S) = Some P → P ∉ generated →
            ModuleErrorf "enabled api scope %q depends on disabled scope %q"
              [ArgString (name (scope S)); ArgString (name (scope P))] ∈ errs) ∧
    (∀ e, e ∈ errs →
          ∃ S P, e = ModuleErrorf "enabled api scope %q depends on disabled scope %q"
                       [ArgString (name (scope S)); ArgString (name (scope P))] ∧
                 S ∈ generated ∧ extends (scope S) = Some P ∧ P ∉ generated) ∧
    (errs = [] →
     ∀ S P, S ∈ generated → extends (scope S) = Some P → P ∈ generated).
Proof.
  eexists _, _. split; [apply getGeneratedApiScopes_spec|].
  assert (Hmissing : ∀ S P,
    S ∈ filter (λ s, enabledStatus module s = true) allApiScopes →
    extends (scope S) = Some P →
    P ∉ filter (λ s, enabledStatus module s = true) allApiScopes →
    disabledExtendsError S P ∈
      concat (map (extendsErrors (enabledStatus module)) allApiScopes)).
  { intros S P HS HP HnP. rewrite generated_elem in HS, HnP.
    apply extendsErrors_elem. exists S, P.
    by destruct (enabledStatus module P). }
  split; [exact Hmissing|split].
  - intros e He. apply extendsErrors_elem in He as (S & P & -> & HS & HP & HnP).
    exists S, P. rewrite !generated_elem. rewrite HnP. by repeat split.
  - intros Hnone S P HS HP.
    destruct (decide (P ∈ filter (λ s, enabledStatus module s = true) allApiScopes))
      as [|HnP]; [done|].
    specialize (Hmissing S P HS HP HnP). rewrite Hnone in Hmissing.
    by apply elem_of_nil in Hmissing.
Qed.

(** ** Scope selection *)

Lemma findClosestScopePath_step c s :
  findClosestScopePath c s =
  match findScopePaths c s with
  | Some paths => Some paths
  | None => match canAccess (scope s) with
            | Some s' => findClosestScopePath c s'
            | None => None
            end
  end.
Proof.
  simp findClosestScopePath.
  destruct (findScopePaths c s); simpl; [done|]. by destruct s.
Qed.

Lemma accessChain_step s :
  accessChain s =
  s :: match canAccess (scope s) with
       | Some s' => accessChain s'
       | None => []
       end.
Proof. simp accessChain. by destruct s. Qed.

(** The loop returns the first paths found along the access chain. *)
Lemma findClosestScopePath_chain c s :
  findClosestScopePath c s = head (omap (findScopePaths c) (accessChain s)).
Proof.
  remember (accessDepth s) as d eqn:Hd. revert s Hd.
  induction d as [d IH] using lt_wf_ind. intros s ->.
  rewrite findClosestScopePath_step, accessChain_step.
  cbn [omap list_omap]. destruct (findScopePaths c s) as [paths|]; [done|].
  destruct (canAccess (scope s)) as [s'|] eqn:Hacc; [|done].
  apply (IH (accessDepth s')); [by apply canAccess_decreases|done].
Qed.

(** The first element of a list that [f] maps to a value. *)
Lemma head_omap_Some {A B} (f : A → option B) (l : list A) (b : B) :
  head (omap f l) = Some b ↔
  ∃ i a, l !! i = Some a ∧ f a = Some b ∧
         ∀ j a', j < i → l !! j = Some a' → f a' = None.
Proof.
  induction l as [|x l IH]; simpl.
  - split; [done|]. by intros (i & a & Hi & _).
  - destruct (f x) as [b'|] eqn:Hx; simpl.
    + split.
      * intros [= ->]. exists 0, x. repeat split; [done|]. intros j a' Hj. lia.
      * intros (i & a & Hi & Ha & Hfirst). destruct i as [|i].
        -- simpl in Hi. injection Hi as ->. congruence.
        -- specialize (Hfirst 0 x). rewrite Hfirst in Hx; [done|lia|done].
    + rewrite IH. split.
      * intros (i & a & Hi & Ha & Hfirst). exists (S i), a.
        repeat split; [done..|]. intros [|j] a' Hj Hl.
        -- simpl in Hl. by injection Hl as <-.
        -- simpl in Hl. apply (Hfirst j); [lia|done].
      * intros (i & a & Hi & Ha & Hfirst). destruct i as [|i].
        -- simpl in Hi. injection Hi as ->. congruence.
        -- exists i, a. repeat split; [done..|]. intros j a' Hj Hl.
           apply (Hfirst (S j)); [lia|done].
Qed.

Lemma head_omap_None {A B} (f : A → option B) (l : list A) :
  head (omap f l) = None ↔ ∀ a, a ∈ l → f a = None.
Proof.
  induction l as [|x l IH]; simpl.
  - split; [|done]. intros _ a Ha. by apply elem_of_nil in Ha.
  - destruct (f x) as [b|] eqn:Hx; simpl.
    + split; [done|]. intros Hall. rewrite Hall in Hx; [done|]. by left.
    + rewrite IH. split.
      * intros Hall a Ha. apply elem_of_cons in Ha as [->|Ha]; [done|by apply Hall].
      * intros Hall a Ha. apply Hall. by right.
Qed.

(** C3: [findClosestScopePath] returns the paths of the first scope that has
    any along the access chain of the requested scope, which starts at the
    requested scope, follows [canAccess] and ends at a scope without one.  A
    library without system-server paths but with module-lib paths answers a
    system-server request with the module-lib paths, whatever it has for
    public, although system-server extends public. *)
Theorem findClosestScopePath_first_on_chain (c : commonToSdkLibraryAndImport)
    (requested : apiScope) :
  (∀ paths,
     findClosestScopePath c requested = Some paths ↔
     ∃ i s, accessChain requested !! i = Some s ∧
            findScopePaths c s = Some paths ∧
            ∀ j s', j < i → accessChain requested !! j = Some s' →
                    findScopePaths c s' = None) ∧
  accessChain requested !! 0 = Some requested ∧
  (∀ i s, accessChain requested !! i = Some s →
          accessChain requested !! (S i) = canAccess (scope s)) ∧
  (∀ paths,
     findScopePaths c apiScopeSystemServer = None →
     findScopePaths c apiScopeModuleLib = Some paths →
     findClosestScopePath c apiScopeSystemServer = Some paths ∧
     (∀ log, selectScopePaths c SdkSystemServer log = (Returned (Some paths), log))) ∧
  canAccess (scope apiScopeSystemServer) = Some apiScopeModuleLib ∧
  extends (scope apiScopeSystemServer) = Some apiScopePublic.
Proof.
  split; [|split; [|split; [|split]]].
  - intros paths. rewrite findClosestScopePath_chain. apply head_omap_Some.
  - by destruct requested.
  - intros i s.
    destruct requested; do 5 (destruct i as [|i]; [by intros [= <-]|]); done.
  - intros paths Hss Hml.
    assert (Hfound : findClosestScopePath c apiScopeSystemServer = Some paths).
    { rewrite findClosestScopePath_step, Hss. simpl.
      by rewrite findClosestScopePath_step, Hml. }
    split; [done|]. intros log. unfold selectScopePaths. simpl.
    by rewrite Hfound.
  - done.
Qed.

Lemma availableScopeNames_spec c :
  availableScopeNames c =
  map (λ s, name (scope s)) (filter (λ s, is_Some (findScopePaths c s)) allApiScopes).
Proof.
  unfold availableScopeNames.
  assert (Hgen : ∀ l acc,
    fold_left
      (λ scopes s,
         match findScopePaths c s with
         | Some _ => scopes ++ [name (scope s)]
         | None => scopes
         end) l acc =
    acc ++ map (λ s, name (scope s)) (filter (λ s, is_Some (findScopePaths c s)) l)).
  { induction l as [|s l IH]; intros acc; simpl.
    - by rewrite app_nil_r.
    - rewrite IH. destruct (findScopePaths c s) as [p|] eqn:Hs.
      + rewrite filter_cons_True by (by rewrite Hs). simpl. by rewrite <- app_assoc.
      + rewrite filter_cons_False; [done|]. rewrite Hs. by intros [? ?]. }
  apply Hgen.
Qed.

Lemma scope_name_inj s1 s2 : name (scope s1) = name (scope s2) → s1 = s2.
Proof. by destruct s1, s2. Qed.

(** C4: when no scope on the access chain of the requested scope has paths,
    [selectScopePaths] returns no paths and reports one error, whose
    arguments are the name of the requested scope, the name of the library
    and the names of the scopes that the library has paths for. *)
Theorem selectScopePaths_not_available (c : commonToSdkLibraryAndImport)
    (kind : SdkKind) (log : list event) :
  (∀ s, s ∈ accessChain (sdkKindToApiScope kind) → findScopePaths c s = None) →
  ∃ available,
    selectScopePaths c kind log =
      (Returned None,
       log ++ [ModuleErrorf "requires api scope %s from %s but it only has %q available"
                 [ArgString (name (scope (sdkKindToApiScope kind)));
                  ArgString (RootLibraryName c);
                  ArgStrings available]]) ∧
    available =
      map (λ s, name (scope s))
        (filter (λ s, is_Some (findScopePaths c s)) allApiScopes) ∧
    (∀ s, name (scope s) ∈ available ↔ is_Some (findScopePaths c s)).
Proof.
  intros Hnone. eexists. split; [|split; [reflexivity|]].
  - unfold selectScopePaths.
    assert (Hclosest : findClosestScopePath c (sdkKindToApiScope kind) = None).
    { rewrite findClosestScopePath_chain. by apply head_omap_None. }
    rewrite Hclosest. unfold bind, emit, ret, scopeNotAvailableError.
    by rewrite availableScopeNames_spec.
  - intros s. rewrite list_elem_of_fmap. split.
    + intros (s' & Heq & Hin). apply scope_name_inj in Heq as ->.
      by apply list_elem_of_filter in Hin as [? _].
    + intros Hs. exists s. split; [done|].
      apply list_elem_of_filter. split; [done|apply allApiScopes_complete].
Qed.

(** A module-lib request to a library that has system-server paths only. *)
Lemma selectScopePaths_not_available_witness :
  selectScopePaths Sample.systemServerOnly SdkModule [] =
    (Returned None,
     [ModuleErrorf "requires api scope %s from %s but it only has %q available"
        [ArgString "module-lib"; ArgString "L"; ArgStrings ["system-server"]]]).
Proof.
  assert (Hnone : ∀ s, s ∈ accessChain (sdkKindToApiScope SdkModule) →
                       findScopePaths Sample.systemServerOnly s = None).
  { intros s Hs. change (s ∈ [apiScopeModuleLib; apiScopeSystem; apiScopePublic]) in Hs.
    repeat (apply elem_of_cons in Hs as [->|Hs]; [by vm_compute|]).
    by apply elem_of_nil in Hs. }
  destruct (selectScopePaths_not_available Sample.systemServerOnly SdkModule [] Hnone)
    as (available & -> & -> & _).
  by vm_compute.
Defined.

(** C10: [sdkKindToApiScope] sends the system, test, module and system-server
    kinds to their scopes and every other kind, among them core, none and
    private, to the public scope; a request for such a kind selects the same
    paths, and reports the same error, as a request for the public kind. *)
Theorem sdkKindToApiScope_mapping :
  sdkKindToApiScope SdkSystem = apiScopeSystem ∧
  sdkKindToApiScope SdkTest = apiScopeTest ∧
  sdkKindToApiScope SdkModule = apiScopeModuleLib ∧
  sdkKindToApiScope SdkSystemServer = apiScopeSystemServer ∧
  (∀ kind, kind ∉ [SdkSystem; SdkTest; SdkModule; SdkSystemServer] →
           sdkKindToApiScope kind = apiScopePublic) ∧
  sdkKindToApiScope SdkCore = apiScopePublic ∧
  sdkKindToApiScope SdkNone = apiScopePublic ∧
  sdkKindToApiScope SdkPrivate = apiScopePublic ∧
  (∀ c kind, kind ∉ [SdkSystem; SdkTest; SdkModule; SdkSystemServer] →
             selectScopePaths c kind = selectScopePaths c SdkPublic) ∧
  (∀ s, sdkKindToApiScope (kind (scope s)) = s).
Proof.
  assert (Hother : ∀ kind, kind ∉ [SdkSystem; SdkTest; SdkModule; SdkSystemServer] →
                           sdkKindToApiScope kind = apiScopePublic).
  { intros k Hk. destruct k; try done; exfalso; apply Hk; repeat constructor. }
  repeat split; try done.
  - intros c k Hk. unfold selectScopePaths. by rewrite (Hother k Hk).
  - by intros [].
Qed.

Example selectScopePaths_system_server_from_module_lib :
  selectScopePaths Sample.moduleLibOnly SdkSystemServer [] =
    (Returned (Some (Sample.pathsWithHeader "ml.jar")), []).
Proof. by vm_compute. Qed.

Example getGeneratedApiScopes_system_without_public :
  getGeneratedApiScopes Sample.systemWithoutPublic [] =
    (Returned [apiScopeSystem],
     [ModuleErrorf "enabled api scope %q depends on disabled scope %q"
        [ArgString "system"; ArgString "public"]]).
Proof. by vm_compute. Qed.

(** ** Stub library paths *)

(** With [ReleaseHiddenApiExportableStubs] set, the everything extractor
    still writes the dex jar field: here it was unset and holds the dex jar
    of the dependency afterwards, while the implementation jars stay unset. *)
Lemma everything_extractor_sets_dex_jar_in_exportable_mode :
  ReleaseHiddenApiExportableStubs Sample.exportableConfig = true ∧
  stubsDexJarPath zeroScopePaths = None ∧
  ∃ paths',
    extractEverythingStubsLibraryInfoFromDependency
      Sample.exportableConfig Sample.stubsDep zeroScopePaths = Returned (paths', None) ∧
    stubsDexJarPath paths' = Some "stubs-dex.jar" ∧
    stubsImplPath paths' = [].
Proof. repeat split. eexists. by repeat split. Qed.

(** C5, amended: on a dependency with a [JavaInfoProvider] the everything
    extractor writes the header jars and the dex jar whatever the release
    flag says, and the implementation jars only when
    [ReleaseHiddenApiExportableStubs] is off; the exportable extractor writes
    the exportable dex jar whatever the flag says, and the implementation
    jars only when the flag is on.  Neither touches any other field. *)
Theorem stubs_extractors_flavor_split (config : Config) (dep : depModule)
    (lib : JavaInfo) (dexJar : option string) (paths : scopePaths) :
  depJavaInfo dep = Some lib →
  depDexJarBuildPath dep = Some dexJar →
  ∃ everything exportable,
    extractEverythingStubsLibraryInfoFromDependency config dep paths =
      Returned (everything, None) ∧
    extractExportableStubsLibraryInfoFromDependency config dep paths =
      Returned (exportable, None) ∧
    stubsHeaderPath everything = HeaderJars lib ∧
    stubsDexJarPath everything = dexJar ∧
    stubsImplPath everything =
      (if ReleaseHiddenApiExportableStubs config then stubsImplPath paths
       else ImplementationJars lib) ∧
    exportableStubsDexJarPath everything = exportableStubsDexJarPath paths ∧
    exportableStubsDexJarPath exportable = dexJar ∧
    stubsImplPath exportable =
      (if ReleaseHiddenApiExportableStubs config then ImplementationJars lib
       else stubsImplPath paths) ∧
    stubsHeaderPath exportable = stubsHeaderPath paths ∧
    stubsDexJarPath exportable = stubsDexJarPath paths ∧
    (∀ p, p ∈ [everything; exportable] →
          currentApiFilePath p = currentApiFilePath paths ∧
          removedApiFilePath p = removedApiFilePath paths ∧
          stubsSrcJar p = stubsSrcJar paths ∧
          annotationsZip p = annotationsZip paths ∧
          latestApiPath p = latestApiPath paths ∧
          latestRemovedApiPath p = latestRemovedApiPath paths).
Proof.
  intros Hlib Hdex.
  unfold extractEverythingStubsLibraryInfoFromDependency,
    extractExportableStubsLibraryInfoFromDependency.
  rewrite Hlib, Hdex. eexists _, _. do 2 (split; [reflexivity|]). simpl.
  destruct (ReleaseHiddenApiExportableStubs config); simpl; repeat split; try done.
  all: match goal with
       | Hp : _ ∈ _ |- _ =>
           apply elem_of_cons in Hp as [->|Hp];
           [done|apply list_elem_of_singleton in Hp as ->; done]
       end.
Qed.

(** Both extractors on a stubs library, in exportable mode. *)
Lemma stubs_extractors_flavor_split_witness :
  ∃ everything exportable,
    extractEverythingStubsLibraryInfoFromDependency
      Sample.exportableConfig Sample.stubsDep zeroScopePaths = Returned (everything, None) ∧
    extractExportableStubsLibraryInfoFromDependency
      Sample.exportableConfig Sample.stubsDep zeroScopePaths = Returned (exportable, None) ∧
    stubsDexJarPath everything = Some "stubs-dex.jar" ∧
    stubsImplPath everything = [] ∧
    exportableStubsDexJarPath exportable = Some "stubs-dex.jar" ∧
    stubsImplPath exportable = ["stubs-impl.jar"].
Proof.
  destruct (stubs_extractors_flavor_split Sample.exportableConfig Sample.stubsDep
              {| HeaderJars := ["stubs-header.jar"];
                 ImplementationJars := ["stubs-impl.jar"] |}
              (Some "stubs-dex.jar") zeroScopePaths eq_refl eq_refl)
    as (everything & exportable & He & Hx & _ & Hd & Hi & _ & Hxd & Hxi & _).
  exists everything, exportable. by repeat split.
Defined.

(** ** Strings *)

Lemma string_app_cons (a : ascii) (s t : string) :
  String a s +:+ t = String a (s +:+ t).
Proof. reflexivity. Qed.

Lemma string_app_nil_r (s : string) : s +:+ EmptyString = s.
Proof. induction s as [|a s IH]; [done|]. by rewrite string_app_cons, IH. Qed.

Lemma string_app_assoc (a b c : string) : (a +:+ b) +:+ c = a +:+ b +:+ c.
Proof. induction a as [|x a IH]; [done|]. by rewrite !string_app_cons, IH. Qed.

Lemma string_app_inj_l (s a b : string) : s +:+ a = s +:+ b → a = b.
Proof.
  induction s as [|x s IH]; [done|].
  rewrite !string_app_cons. intros [= Heq]. by apply IH.
Qed.

Lemma stringsJoin_empty_cons (x : string) (l : list string) :
  stringsJoin (x :: l) EmptyString = x +:+ stringsJoin l EmptyString.
Proof.
  unfold stringsJoin. destruct l as [|y l]; [|done].
  simpl. by rewrite string_app_nil_r.
Qed.

Lemma stringsJoin_empty_app (l1 l2 : list string) :
  stringsJoin (l1 ++ l2) EmptyString =
  stringsJoin l1 EmptyString +:+ stringsJoin l2 EmptyString.
Proof.
  induction l1 as [|x l1 IH]; [done|].
  rewrite <- app_comm_cons, !stringsJoin_empty_cons, IH.
  by rewrite string_app_assoc.
Qed.

(** ** The permissions XML *)

Section XmlProperties.
Context `{ApiLevels}.

Lemma formattedOptionalSdkLevelAttribute_returns attrName value log :
  ∃ attr log',
    formattedOptionalSdkLevelAttribute attrName value log = (Returned attr, log').
Proof.
  unfold formattedOptionalSdkLevelAttribute.
  destruct value as [v|]; [|by eexists _, _].
  destruct (ApiLevelFromUser v) as [level|err]; [|by eexists _, _].
  destruct (IsCurrent level); by eexists _, _.
Qed.

(** C9: the permissions XML always comes out, and after the fixed header
    lines its library element opens with [<apex-library] exactly when
    [Min_device_sdk] is set, and with [<library] exactly when it is not. *)
Theorem permissionsContents_library_tag (module : sdkLibraryXml) (log : list event) :
  ∃ content log',
    permissionsContents module log = (Returned content, log') ∧
    let header := stringsJoin permissionsHeader EmptyString in
    ((∃ rest, content = header +:+ ("    <apex-library" +:+ bs +:+ "n") +:+ rest) ↔
     Min_device_sdk (properties module) ≠ None) ∧
    ((∃ rest, content = header +:+ ("    <library" +:+ bs +:+ "n") +:+ rest) ↔
     Min_device_sdk (properties module) = None).
Proof.
  unfold permissionsContents, bind.
  destruct (formattedOptionalSdkLevelAttribute_returns "on-bootclasspath-since"
              (On_bootclasspath_since (properties module)) log) as (a1 & l1 & ->).
  destruct (formattedOptionalSdkLevelAttribute_returns "on-bootclasspath-before"
              (On_bootclasspath_before (properties module)) l1) as (a2 & l2 & ->).
  destruct (formattedOptionalSdkLevelAttribute_returns "min-device-sdk"
              (Min_device_sdk (properties module)) l2) as (a3 & l3 & ->).
  destruct (formattedOptionalSdkLevelAttribute_returns "max-device-sdk"
              (Max_device_sdk (properties module)) l3) as (a4 & l4 & ->).
  eexists _, _. split; [reflexivity|].
  rewrite stringsJoin_empty_app, stringsJoin_empty_cons.
  generalize (stringsJoin permissionsHeader EmptyString) as header.
  intros header. cbv zeta.
  match goal with
  | |- context [libraryTagOf module +:+ ?r] => generalize r as rest
  end.
  intros rest. unfold libraryTagOf.
  destruct (Min_device_sdk (properties module)) as [minSdk|].
  - split; split; try done.
    + intros _. by exists rest.
    + intros (rest' & Heq). apply string_app_inj_l in Heq. discriminate Heq.
  - split; split; try done.
    + intros (rest' & Heq). apply string_app_inj_l in Heq. discriminate Heq.
    + intros _. by exists rest.
Qed.

Lemma validateAtLeastTAttributes_emits module :
  emitsOnly isPropertyError (validateAtLeastTAttributes module).
Proof.
  unfold validateAtLeastTAttributes, attrAtLeastT, atLeastTError.
  emits ltac:(by eexists _, _, _).
Qed.

Lemma afterMinAndMax_emits module :
  emitsOnly (λ e, e ≠ minGreaterThanMaxError) (afterMinAndMax module).
Proof.
  unfold afterMinAndMax, validateMinMaxDeviceSdkAndModuleMinSdk,
    validateOnBootclasspathBeforeRequirements, moduleMinApiOf,
    checkNotBelowModuleMinSdk, permissionsContents,
    formattedOptionalSdkLevelAttribute, lessThanModuleMinSdkError,
    onBootclasspathBeforeError, minGreaterThanMaxError.
  emits ltac:(done).
Qed.

Lemma xmlGenerateAndroidBuildActions_unfold module log :
  xmlGenerateAndroidBuildActions module log =
  bind (validateAtLeastTAttributes module)
    (λ _, bind (validateMinAndMaxDeviceSdk module) (λ _, afterMinAndMax module)) log.
Proof.
  unfold xmlGenerateAndroidBuildActions, selfValidate, afterMinAndMax, bind.
  destruct (validateAtLeastTAttributes module log) as [[[]|] l1]; [|done].
  destruct (validateMinAndMaxDeviceSdk module l1) as [[[]|] l2]; [|done].
  destruct (validateMinMaxDeviceSdkAndModuleMinSdk module l2) as [[[]|] l3]; [|done].
  by destruct (validateOnBootclasspathBeforeRequirements module l3) as [[[]|] l4].
Qed.

Lemma validateMinAndMaxDeviceSdk_exact module minSdk maxSdk min max :
  Min_device_sdk (properties module) = Some minSdk →
  Max_device_sdk (properties module) = Some maxSdk →
  ApiLevelFromUser minSdk = inl min →
  ApiLevelFromUser maxSdk = inl max →
  ∀ log, validateMinAndMaxDeviceSdk module log =
         (Returned tt,
          log ++ if GreaterThan min max then [minGreaterThanMaxError] else []).
Proof.
  intros Hmin Hmax Hpmin Hpmax log. unfold validateMinAndMaxDeviceSdk.
  rewrite Hmin, Hmax, Hpmin, Hpmax.
  destruct (GreaterThan min max); [done|]. unfold when, ret. by rewrite app_nil_r.
Qed.

(** An event that follows property errors precedes any later event of
    another kind. *)
Lemma error_before_rule (e1 rest pre post : list event) (err rb : event) :
  Forall isPropertyError e1 → ¬ isPropertyError rb → err ≠ rb →
  e1 ++ err :: rest = pre ++ rb :: post → err ∈ pre.
Proof.
  intros He1 Hrb Hne. revert pre.
  induction He1 as [|x e1 Hx He1 IH]; intros pre Heq.
  - destruct pre as [|y pre]; simpl in Heq; injection Heq as Hhead Htail.
    + done.
    + subst y. by left.
  - destruct pre as [|y pre]; simpl in Heq; injection Heq as Hhead Htail.
    + by subst x.
    + right. by apply IH.
Qed.

(** C8: when [min_device_sdk] and [max_device_sdk] are both set and parse
    as API levels with the first greater than the second,
    [GenerateAndroidBuildActions] reports "min_device_sdk can't be greater
    than max_device_sdk" before it registers the rule that writes the XML,
    and it cannot return without that error; it reports this error in no
    other case.  So a run that returns without any error has
    [min_device_sdk] not greater than [max_device_sdk]. *)
Theorem xml_min_device_sdk_not_above_max (module : sdkLibraryXml) (log : list event)
    (minSdk maxSdk : string) (min max : ApiLevel) :
  Min_device_sdk (properties module) = Some minSdk →
  Max_device_sdk (properties module) = Some maxSdk →
  ApiLevelFromUser minSdk = inl min →
  ApiLevelFromUser maxSdk = inl max →
  ∃ out events,
    xmlGenerateAndroidBuildActions module log = (out, log ++ events) ∧
    (GreaterThan min max = true →
     (∀ pre post name description text output,
        events = pre ++ RuleBuild name description text output :: post →
        ModuleErrorf "min_device_sdk can't be greater than max_device_sdk" [] ∈ pre) ∧
     (out = Returned tt →
      ModuleErrorf "min_device_sdk can't be greater than max_device_sdk" [] ∈ events)) ∧
    (GreaterThan min max = false →
     ModuleErrorf "min_device_sdk can't be greater than max_device_sdk" [] ∉ events) ∧
    (out = Returned tt → Forall (λ e, isError e = false) events →
     GreaterThan min max = false).
Proof.
  intros Hmin Hmax Hpmin Hpmax.
  destruct (validateAtLeastTAttributes_emits module) as (o1 & e1 & H1 & F1).
  destruct (afterMinAndMax_emits module) as (o3 & e3 & H3 & F3).
  pose proof (validateMinAndMaxDeviceSdk_exact module _ _ _ _ Hmin Hmax Hpmin Hpmax)
    as H2.
  fold minGreaterThanMaxError.
  assert (Hnot1 : minGreaterThanMaxError ∉ e1).
  { intros Hin. rewrite Forall_forall in F1.
    by destruct (F1 _ Hin) as (? & ? & ? & ?). }
  assert (Hnot3 : minGreaterThanMaxError ∉ e3).
  { intros Hin. rewrite Forall_forall in F3. by apply (F3 _ Hin). }
  destruct o1 as [[]|msg].
  - exists o3, (e1 ++ (if GreaterThan min max then [minGreaterThanMaxError] else [])
                   ++ e3).
    split.
    { rewrite xmlGenerateAndroidBuildActions_unfold. unfold bind.
      rewrite H1, H2, H3. by rewrite <- !app_assoc. }
    destruct (GreaterThan min max); simpl.
    + split; [intros _; split|split; [done|]].
      * intros pre post nm description text output Heq.
        apply (error_before_rule e1 e3 pre post _ _ F1) in Heq; [done| |done].
        by intros (? & ? & ? & ?).
      * intros _. apply elem_of_app. right. by left.
      * intros _ Hnoerr. apply Forall_app in Hnoerr as [_ Hnoerr].
        by apply Forall_cons in Hnoerr as [? _].
    + split; [done|split; [|done]].
      intros _ Hin. by apply elem_of_app in Hin as [Hin|Hin].
  - exists (Panicked msg), e1. split.
    { rewrite xmlGenerateAndroidBuildActions_unfold. unfold bind. by rewrite H1. }
    split; [intros _; split|split; [done..|]]; [|done|done].
    intros pre post nm description text output Heq. exfalso.
    rewrite Forall_forall in F1.
    destruct (F1 (RuleBuild nm description text output)) as (? & ? & ? & ?); [|done].
    rewrite Heq. apply elem_of_app. right. by left.
Qed.
End XmlProperties.

(** [min_device_sdk: "34", max_device_sdk: "33"] *)
Lemma xml_min_device_sdk_not_above_max_witness :
  ∃ out events,
    @xmlGenerateAndroidBuildActions Sample.apiLevels
      (Sample.xmlModule (Some "34") (Some "33")) [] = (out, events) ∧
    (∀ pre post name description text output,
       events = pre ++ RuleBuild name description text output :: post →
       ModuleErrorf "min_device_sdk can't be greater than max_device_sdk" [] ∈ pre).
Proof.
  destruct (@xml_min_device_sdk_not_above_max Sample.apiLevels
              (Sample.xmlModule (Some "34") (Some "33")) [] "34" "33" 34%Z 33%Z
              eq_refl eq_refl eq_refl eq_refl)
    as (out & events & Hrun & Hgt & _).
  exists out, events. split; [exact Hrun|]. by apply Hgt.
Defined.

Example xml_min_above_max_run :
  ∃ text,
    @xmlGenerateAndroidBuildActions Sample.apiLevels
      (Sample.xmlModule (Some "34") (Some "33")) [] =
    (Returned tt,
     [ModuleErrorf "min_device_sdk can't be greater than max_device_sdk" [];
      RuleBuild "java_sdk_xml" "Permission XML" text "L.xml"]).
Proof. eexists. by vm_compute. Qed.

(** ** Paths *)

Lemma splitPath_app (a b : string) :
  hasSlash a = false →
  splitPath (a +:+ "/" +:+ b) = a :: splitPath b.
Proof.
  unfold splitPath. induction a as [|x a IH]; intros Ha.
  - change (EmptyString +:+ "/" +:+ b) with (String "/" b). simpl.
    by destruct (splitFirst b).
  - simpl in Ha. apply orb_false_iff in Ha as [Hx Ha].
    apply bool_decide_eq_false in Hx.
    rewrite string_app_cons. simpl. specialize (IH Ha).
    destruct (splitFirst (a +:+ "/" +:+ b)) as [e es].
    rewrite decide_False by done. destruct (splitFirst b) as [e' es'].
    by injection IH as -> ->.
Qed.

Lemma splitPath_no_slash (e : string) : hasSlash e = false → splitPath e = [e].
Proof.
  unfold splitPath. induction e as [|x e IH]; [done|]. simpl.
  intros [Hx He]%orb_false_iff. apply bool_decide_eq_false in Hx.
  specialize (IH He). destruct (splitFirst e) as [e' es].
  rewrite decide_False by done. by injection IH as -> ->.
Qed.

Lemma plainComponent_spec (e : string) :
  plainComponent e = true →
  hasSlash e = false ∧ e ≠ EmptyString ∧ e ≠ "." ∧ e ≠ "..".
Proof.
  unfold plainComponent. intros [Hslash Hname]%andb_true_iff.
  apply negb_true_iff in Hslash, Hname. apply bool_decide_eq_false in Hname.
  tauto.
Qed.

Lemma splitPath_concat (c : string) (cs : list string) :
  Forall (λ e, plainComponent e = true) (c :: cs) →
  splitPath (String.concat "/" (c :: cs)) = c :: cs.
Proof.
  revert c. induction cs as [|d cs IH]; intros c Hplain.
  - apply Forall_cons in Hplain as [Hc _].
    apply plainComponent_spec in Hc as [Hc _]. by apply splitPath_no_slash.
  - apply Forall_cons in Hplain as [Hc Hplain].
    apply plainComponent_spec in Hc as [Hc _].
    change (String.concat "/" (c :: d :: cs))
      with (c +:+ "/" +:+ String.concat "/" (d :: cs)).
    rewrite splitPath_app by done. by rewrite IH.
Qed.

Lemma cleanStep_plain (rooted : bool) (cs out : list string) :
  Forall (λ e, plainComponent e = true) cs →
  fold_left (cleanStep rooted) cs out = rev cs ++ out.
Proof.
  revert out. induction cs as [|c cs IH]; intros out Hplain; [done|].
  apply Forall_cons in Hplain as [Hc Hplain].
  apply plainComponent_spec in Hc as (_ & Hempty & Hdot & Hdotdot).
  simpl. unfold cleanStep at 2.
  rewrite decide_False by tauto. rewrite decide_False by done.
  rewrite IH by done. by rewrite <- app_assoc.
Qed.

Lemma concat_plain_head (c : string) (cs : list string) :
  plainComponent c = true →
  ∃ a rest, String.concat "/" (c :: cs) = String a rest ∧ a ≠ "/"%char.
Proof.
  intros (Hslash & Hempty & _)%plainComponent_spec.
  destruct c as [|a c]; [done|].
  simpl in Hslash. apply orb_false_iff in Hslash as [Ha _].
  apply bool_decide_eq_false in Ha.
  destruct cs as [|d cs]; [by exists a, c|].
  change (String.concat "/" (String a c :: d :: cs))
    with (String a (c +:+ "/" +:+ String.concat "/" (d :: cs))).
  by eexists _, _.
Qed.

(** [Clean] leaves a path made of plain names as it is. *)
Lemma Clean_plain (cs : list string) :
  cs ≠ [] →
  Forall (λ e, plainComponent e = true) cs →
  Clean (String.concat "/" cs) = String.concat "/" cs.
Proof.
  intros Hne Hplain. destruct cs as [|c cs]; [done|].
  destruct (concat_plain_head c cs) as (a & rest & Heq & Ha);
    [by apply Forall_cons in Hplain as [? _]|].
  unfold Clean. rewrite decide_False by (by rewrite Heq).
  assert (Hrooted : isRooted (String.concat "/" (c :: cs)) = false).
  { rewrite Heq. simpl. by apply bool_decide_eq_false. }
  rewrite Hrooted, splitPath_concat, cleanStep_plain by done.
  rewrite app_nil_r, rev_involutive.
  change (EmptyString +:+ String.concat "/" (c :: cs)) with (String.concat "/" (c :: cs)).
  by rewrite decide_False by (by rewrite Heq).
Qed.

Lemma hasSlash_app (a b : string) :
  hasSlash (a +:+ b) = hasSlash a || hasSlash b.
Proof.
  induction a as [|x a IH]; [done|].
  rewrite string_app_cons. simpl. by rewrite IH, orb_assoc.
Qed.

Lemma plainComponent_jar (baseName : string) :
  hasSlash baseName = false → plainComponent (baseName +:+ ".jar") = true.
Proof.
  intros Hbase. unfold plainComponent. rewrite hasSlash_app, Hbase. simpl.
  apply negb_true_iff, bool_decide_eq_false.
  destruct baseName as [|a [|b [|c baseName]]]; rewrite ?string_app_cons;
    intros [?|[?|?]]; done.
Qed.

(** ** Prebuilt jars *)

Section PrebuiltJars.
Context `{ApiLevels}.

Lemma prebuiltJarPath_eq (ver : ApiLevel) (kind : SdkKind) (baseName : string) :
  plainComponent (ApiLevelString ver) = true →
  plainComponent (SdkKindString kind) = true →
  hasSlash baseName = false →
  prebuiltJarPath ver kind baseName =
  "prebuilts/sdk/" +:+ ApiLevelString ver +:+ "/" +:+ SdkKindString kind +:+
  "/" +:+ baseName +:+ ".jar".
Proof.
  intros Hver Hkind Hbase. unfold prebuiltJarPath.
  assert (Hjar : plainComponent (baseName +:+ ".jar") = true)
    by (by apply plainComponent_jar).
  assert (Hdir : pathJoin ["prebuilts"; "sdk"; ApiLevelString ver; SdkKindString kind] =
                 String.concat "/" ["prebuilts"; "sdk"; ApiLevelString ver;
                                    SdkKindString kind]).
  { cbn [pathJoin]. rewrite decide_False by done.
    apply Clean_plain; [done|]. by repeat constructor. }
  rewrite Hdir.
  assert (Hne : String.concat "/" ["prebuilts"; "sdk"; ApiLevelString ver;
                                   SdkKindString kind] ≠ EmptyString) by done.
  cbn [pathJoin]. rewrite decide_False by done.
  replace (String.concat "/"
             [String.concat "/" ["prebuilts"; "sdk"; ApiLevelString ver; SdkKindString kind];
              baseName +:+ ".jar"])
    with (String.concat "/" ["prebuilts"; "sdk"; ApiLevelString ver; SdkKindString kind;
                             baseName +:+ ".jar"])
    by (cbn [String.concat]; by rewrite !string_app_assoc).
  rewrite Clean_plain; [|done|by repeat constructor].
  reflexivity.
Qed.

(** C7, amended: for an sdk version whose API level is not a preview,
    [selectHeaderJarsForSdkVersion] does not look at the scope paths.  The
    jar is the join of [prebuilts/sdk/<version>/<kind>] and
    [<baseName>.jar], for the requested version and kind when [UsePrebuilt]
    holds and for the future API level and the system kind when it does
    not; with a version, a kind and a library name that are plain names
    this is [prebuilts/sdk/<version>/<kind>/<baseName>.jar].  If the file
    exists, or if missing dependencies are allowed, the result is that one
    path and nothing is reported; otherwise the result is empty and a
    property error names the raw version and the jar. *)
Theorem selectHeaderJarsForSdkVersion_numbered (c : commonToSdkLibraryAndImport)
    (ctx : moduleContext) (UsePrebuilt : SdkSpec → bool) (sdkVersion : SdkSpec)
    (log : list event) :
  IsPreview (SpecApiLevel sdkVersion) = false →
  ∃ ver kind jar,
    (ver, kind) =
      (if UsePrebuilt sdkVersion then (SpecApiLevel sdkVersion, Kind sdkVersion)
       else (FutureApiLevel, SdkSystem)) ∧
    jar = pathJoin [pathJoin ["prebuilts"; "sdk"; ApiLevelString ver; SdkKindString kind];
                    RootLibraryName c +:+ ".jar"] ∧
    (plainComponent (ApiLevelString ver) = true →
     plainComponent (SdkKindString kind) = true →
     hasSlash (RootLibraryName c) = false →
     jar = "prebuilts/sdk/" +:+ ApiLevelString ver +:+ "/" +:+ SdkKindString kind +:+
           "/" +:+ RootLibraryName c +:+ ".jar") ∧
    selectHeaderJarsForSdkVersion c ctx UsePrebuilt sdkVersion log =
      if ExistentPathForSource ctx jar || AllowMissingDependencies (config ctx)
      then (Returned [jar], log)
      else (Returned [],
            log ++ [PropertyErrorf "sdk_library"
                      "invalid sdk version %q, %q does not exist"
                      [ArgString (Raw sdkVersion); ArgString jar]]).
Proof.
  intros Hnum.
  unfold selectHeaderJarsForSdkVersion, PrebuiltJars, prebuiltVersionAndKind.
  rewrite Hnum. simpl negb. cbv iota.
  destruct (UsePrebuilt sdkVersion).
  - exists (SpecApiLevel sdkVersion), (Kind sdkVersion). eexists.
    split; [done|split; [reflexivity|]].
    split; [intros; by apply prebuiltJarPath_eq|].
    fold (prebuiltJarPath (SpecApiLevel sdkVersion) (Kind sdkVersion) (RootLibraryName c)).
    destruct (ExistentPathForSource ctx _); [done|].
    by destruct (AllowMissingDependencies (config ctx)).
  - exists FutureApiLevel, SdkSystem. eexists.
    split; [done|split; [reflexivity|]].
    split; [intros; by apply prebuiltJarPath_eq|].
    fold (prebuiltJarPath FutureApiLevel SdkSystem (RootLibraryName c)).
    destruct (ExistentPathForSource ctx _); [done|].
    by destruct (AllowMissingDependencies (config ctx)).
Qed.
End PrebuiltJars.

(** Version 30 without a prebuilt sdk, in a tree without the jar and with
    missing dependencies not allowed. *)
Lemma selectHeaderJarsForSdkVersion_numbered_witness :
  ∃ jar,
    @selectHeaderJarsForSdkVersion Sample.apiLevels Sample.moduleLibOnly
      (Sample.emptyTree Sample.exportableConfig) (λ _, false) Sample.sdk30 [] =
    (Returned [],
     [PropertyErrorf "sdk_library" "invalid sdk version %q, %q does not exist"
        [ArgString "30"; ArgString jar]]) ∧
    jar = "prebuilts/sdk/current/system/L.jar".
Proof.
  destruct (@selectHeaderJarsForSdkVersion_numbered Sample.apiLevels
              Sample.moduleLibOnly (Sample.emptyTree Sample.exportableConfig)
              (λ _, false) Sample.sdk30 [] eq_refl)
    as (ver & kind & jar & Hpair & _ & Hjar & Hrun).
  injection Hpair as -> ->. specialize (Hjar eq_refl eq_refl eq_refl).
  exists jar. split; [|by rewrite Hjar].
  by rewrite Hrun, Hjar.
Defined.

(** With the jar of the requested version absent and missing dependencies
    allowed, a request for version 30 of the public kind gets the path of
    that absent jar: not the jar of a default version and kind, which is
    used when [UsePrebuilt] fails, and no error. *)
Lemma numbered_version_absent_jar_is_returned_when_tolerated :
  @IsPreview Sample.apiLevels (SpecApiLevel Sample.sdk30) = false ∧
  ExistentPathForSource (Sample.emptyTree Sample.tolerantConfig)
    "prebuilts/sdk/30/public/L.jar" = false ∧
  AllowMissingDependencies (config (Sample.emptyTree Sample.tolerantConfig)) = true ∧
  @selectHeaderJarsForSdkVersion Sample.apiLevels Sample.moduleLibOnly
    (Sample.emptyTree Sample.tolerantConfig) (λ _, true) Sample.sdk30 [] =
    (Returned ["prebuilts/sdk/30/public/L.jar"], []) ∧
  @prebuiltJarPath Sample.apiLevels (@FutureApiLevel Sample.apiLevels) SdkSystem "L" =
    "prebuilts/sdk/current/system/L.jar".
Proof. repeat split. Qed.

(** ** The checked-in API files *)

Lemma forRangeAcc_flag {A} (f : A → bool) (g : A → list event)
    (body : bool → A → Ctx bool) (l : list A) :
  (∀ acc x log, body acc x log = (Returned (acc || f x), log ++ g x)) →
  ∀ acc log,
    forRangeAcc l acc body log = (Returned (acc || existsb f l), log ++ concat (map g l)).
Proof.
  intros Hbody. induction l as [|x l IH]; intros acc log; simpl.
  - by rewrite orb_false_r, app_nil_r.
  - unfold bind. rewrite Hbody, IH. by rewrite orb_assoc, app_assoc.
Qed.






(** The paths in the errors are cleaned: a library at the root of the
    tree, and a library whose [api_dir] ends in a slash. *)
Example current_api_paths_are_cleaned :
  let atRoot :=
    {| config := Sample.exportableConfig; ModuleDir := ".";
       ExistentPathForSource := λ path, bool_decide (path = genCurrentApiScript);
       OtherModuleExists := λ _, true; hasStandardLibs := false |} in
  (∃ module',
     CreateInternalModules atRoot Sample.legacy [] =
     (Returned module',
      [ModuleErrorf "Current api file %#v doesn't exist" [ArgString "api/current.txt"];
       ModuleErrorf "Current api file %#v doesn't exist" [ArgString "api/removed.txt"];
       ModuleErrorf
         ("One or more current api files are missing. " +:+
          "You can update them by:" +:+ nl +:+ "%s %q %s && m update-api")
         [ArgString "build/soong/scripts/gen-java-current-api-files.sh";
          ArgString "api"; ArgString EmptyString]])) ∧
  pathJoin ["libs/L"; "api/"; "current.txt"] = "libs/L/api/current.txt" ∧
  pathJoin ["libs/L"; "../api"; "system-current.txt"] = "libs/api/system-current.txt".
Proof. split; [eexists; by vm_compute|]. by split. Qed.



(** * Further properties *)

(** ** The generated scopes *)

(** In legacy mode, when no scope sets [enabled], the generated scopes are
    public alone, or public, system and test when the library builds against
    the standard libraries; no error is reported. *)
Theorem getGeneratedApiScopes_legacy_mode (module : SdkLibrary) (log : list event) :
  (∀ s, Enabled (scopeToProperties module s) = None) →
  getGeneratedApiScopes module log =
  (Returned (if Generate_system_and_test_apis (sdkLibProps module)
             then [apiScopePublic; apiScopeSystem; apiScopeTest]
             else [apiScopePublic]),
   log).
Proof.
  intros Hnone. rewrite getGeneratedApiScopes_spec.
  assert (Hany : anyScopesExplicitlyEnabled module = false).
  { destruct (anyScopesExplicitlyEnabled module) eqn:Hany; [|done].
    apply anyScopesExplicitlyEnabled_true in Hany as (s & Hs). by rewrite Hnone in Hs. }
  assert (Hen : ∀ s, enabledStatus module s = legacyEnabledStatus s module).
  { intros s. unfold enabledStatus, scopeEnabled. by rewrite Hany, Hnone. }
  unfold allApiScopes, extendsErrors. simpl.
  rewrite !filter_cons, filter_nil, !Hen. simpl.
  unfold generateTestAndSystemScopesByDefault.
  destruct (Generate_system_and_test_apis (sdkLibProps module)); simpl;
    repeat case_decide; try done; by rewrite app_nil_r.
Qed.

(** The library [L] without any [enabled] property. *)
Lemma getGeneratedApiScopes_legacy_mode_witness :
  getGeneratedApiScopes Sample.legacy [] =
  (Returned [apiScopePublic; apiScopeSystem; apiScopeTest], []).
Proof.
  rewrite (getGeneratedApiScopes_legacy_mode Sample.legacy []); [done|].
  by intros [].
Defined.

Lemma StronglySorted_filter {A} (R : A → A → Prop) (P : A → Prop)
    `{!∀ x, Decision (P x)} (l : list A) :
  StronglySorted R l → StronglySorted R (filter P l).
Proof.
  induction 1 as [|x l Hl IH Hx]; [constructor|].
  rewrite filter_cons. destruct (decide (P x)); [|done].
  constructor; [done|]. rewrite Forall_forall in *. intros y Hy.
  apply Hx. by apply list_elem_of_filter in Hy as [_ ?].
Qed.

Lemma StronglySorted_lookup_lt {A} (R : A → A → Prop) (l : list A) i j a b :
  StronglySorted R l → l !! i = Some a → l !! j = Some b → i < j → R a b.
Proof.
  intros Hl. revert i j. induction Hl as [|x l Hl IH Hx]; intros i j Hi Hj Hij.
  - done.
  - destruct i as [|i], j as [|j]; simpl in *; try lia.
    + injection Hi as ->. rewrite Forall_forall in Hx. apply Hx.
      by eapply list_elem_of_lookup_2.
    + apply (IH i j); [done..|lia].
Qed.

Lemma allApiScopes_sorted :
  StronglySorted (λ s t, apiScope_index s < apiScope_index t) allApiScopes.
Proof. unfold allApiScopes. repeat constructor; simpl; lia. Qed.

Lemma extends_index s p : extends (scope s) = Some p → apiScope_index p < apiScope_index s.
Proof. destruct s; simpl; intros [= <-]; simpl; lia. Qed.

(** The generated scopes come in the order of [allApiScopes], each at most
    once, so that a generated scope always comes after the generated scope
    it extends: the modules of a scope are created after those of the scope
    it extends. *)
Theorem getGeneratedApiScopes_parents_first (module : SdkLibrary) (log : list event) :
  ∃ generated log',
    getGeneratedApiScopes module log = (Returned generated, log') ∧
    NoDup generated ∧
    generated `sublist_of` allApiScopes ∧
    (∀ i j s p, generated !! i = Some s → generated !! j = Some p →
                extends (scope s) = Some p → j < i).
Proof.
  eexists _, _. split; [apply getGeneratedApiScopes_spec|].
  split; [|split].
  - apply NoDup_filter. unfold allApiScopes.
    repeat (constructor; [rewrite ?elem_of_cons, elem_of_nil; intuition congruence|]).
    constructor.
  - apply sublist_filter.
  - intros i j s p Hi Hj Hext.
    pose proof (StronglySorted_filter _ (λ s, enabledStatus module s = true) _
                  allApiScopes_sorted) as Hsorted.
    apply extends_index in Hext.
    destruct (decide (j < i)) as [|Hge]; [done|].
    destruct (decide (i = j)) as [->|Hne].
    + rewrite Hi in Hj. injection Hj as ->. lia.
    + assert (Hlt : i < j) by lia.
      pose proof (StronglySorted_lookup_lt _ _ _ _ _ _ Hsorted Hi Hj Hlt). simpl in *. lia.
Qed.

(** ** The scope paths of a library *)

(** [getScopePathsCreateIfNeeded] returns the paths that [findScopePaths]
    then finds for the scope: those the library had, or new empty ones.  It
    leaves the other scopes and the library name alone, and a second call
    changes nothing. *)
Theorem getScopePathsCreateIfNeeded_findScopePaths (c : commonToSdkLibraryAndImport)
    (s : apiScope) :
  let c' := (getScopePathsCreateIfNeeded c s).1 in
  let paths := (getScopePathsCreateIfNeeded c s).2 in
  findScopePaths c' s = Some paths ∧
  paths = default zeroScopePaths (findScopePaths c s) ∧
  (∀ t, t ≠ s → findScopePaths c' t = findScopePaths c t) ∧
  RootLibraryName c' = RootLibraryName c ∧
  getScopePathsCreateIfNeeded c' s = (c', paths).
Proof.
  unfold getScopePathsCreateIfNeeded, findScopePaths.
  destruct (scopePathsMap c) as [m|]; simpl.
  - destruct (m !! s) as [p|] eqn:Hs; simpl.
    + rewrite Hs. by repeat split.
    + rewrite lookup_insert_eq. repeat split; try done.
      intros t Ht. by rewrite lookup_insert_ne.
  - rewrite lookup_empty. simpl. rewrite lookup_insert_eq. repeat split; try done.
    intros t Ht. by rewrite lookup_insert_ne, lookup_empty.
Qed.

(** A library that has paths for the public scope answers every request:
    public ends the access chain of every scope, so [selectScopePaths]
    returns the paths of some scope on the chain of the requested one and
    reports nothing.  When public is all the library has, every request gets
    the public paths. *)
Theorem selectScopePaths_with_public (c : commonToSdkLibraryAndImport)
    (public : scopePaths) (kind : SdkKind) (log : list event) :
  findScopePaths c apiScopePublic = Some public →
  ∃ s found,
    s ∈ accessChain (sdkKindToApiScope kind) ∧
    findScopePaths c s = Some found ∧
    selectScopePaths c kind log = (Returned (Some found), log) ∧
    ((∀ t, t ≠ apiScopePublic → findScopePaths c t = None) → found = public).
Proof.
  intros Hpublic.
  assert (Hlast : apiScopePublic ∈ accessChain (sdkKindToApiScope kind)).
  { destruct (sdkKindToApiScope kind); vm_compute;
      repeat first [by apply list_elem_of_here|apply list_elem_of_further]. }
  destruct (findClosestScopePath c (sdkKindToApiScope kind)) as [found|] eqn:Hclosest.
  - pose proof Hclosest as Hfound.
    rewrite findClosestScopePath_chain in Hfound.
    apply head_omap_Some in Hfound as (i & s & Hi & Hs & _).
    exists s, found. split; [by eapply list_elem_of_lookup_2|].
    split; [done|]. split.
    + unfold selectScopePaths. by rewrite Hclosest.
    + intros Honly. destruct (decide (s = apiScopePublic)) as [->|Hne].
      * congruence.
      * rewrite Honly in Hs by done. done.
  - rewrite findClosestScopePath_chain in Hclosest.
    rewrite head_omap_None in Hclosest. rewrite Hclosest in Hpublic; done.
Qed.

(** A module-lib request to a library that has public paths only. *)
Lemma selectScopePaths_with_public_witness :
  ∃ s found,
    s ∈ accessChain (sdkKindToApiScope SdkModule) ∧
    selectScopePaths
      {| RootLibraryName := "L";
         scopePathsMap := Some {[ apiScopePublic := Sample.pathsWithHeader "public.jar" ]} |}
      SdkModule [] = (Returned (Some found), []) ∧
    found = Sample.pathsWithHeader "public.jar".
Proof.
  assert (Hpublic :
    findScopePaths
      {| RootLibraryName := "L";
         scopePathsMap := Some {[ apiScopePublic := Sample.pathsWithHeader "public.jar" ]} |}
      apiScopePublic = Some (Sample.pathsWithHeader "public.jar")) by (by vm_compute).
  destruct (selectScopePaths_with_public _ _ SdkModule [] Hpublic)
    as (s & found & Hs & _ & Hrun & Honly).
  exists s, found. repeat split; [done..|].
  apply Honly. intros [] Hne; try done; by vm_compute.
Defined.

(** ** The modules of a library *)

Lemma checkCurrentApiFile_spec mctx module s acc api log :
  checkCurrentApiFile mctx module s acc api log =
  (Returned (acc || (missingCurrentApiFile mctx module s api
                     && negb (AllowMissingDependencies (config mctx)))),
   log ++ if missingCurrentApiFile mctx module s api
          then if AllowMissingDependencies (config mctx)
               then [AddMissingDependencies [currentApiFilePathOf mctx module s api]]
               else [currentApiFileError (currentApiFilePathOf mctx module s api)]
          else []).
Proof.
  unfold checkCurrentApiFile, missingCurrentApiFile.
  destruct (ExistentPathForSource mctx _); simpl.
  - unfold ret. by rewrite orb_false_r, app_nil_r.
  - destruct (AllowMissingDependencies (config mctx)); simpl; unfold bind, emit, ret.
    + by rewrite orb_false_r.
    + by rewrite orb_true_r.
Qed.

Lemma checkCurrentApiFiles_spec mctx module generated log :
  checkCurrentApiFiles mctx module generated log =
  (Returned (existsb (λ s, existsb (λ api, missingCurrentApiFile mctx module s api
                                           && negb (AllowMissingDependencies (config mctx)))
                             currentApiFileNames) generated),
   log ++ concat (map (currentApiFileEvents mctx module) generated)).
Proof.
  unfold checkCurrentApiFiles.
  rewrite (forRangeAcc_flag
             (λ s, existsb (λ api, missingCurrentApiFile mctx module s api
                                   && negb (AllowMissingDependencies (config mctx)))
                     currentApiFileNames)
             (currentApiFileEvents mctx module)); [done|].
  intros acc s log'. unfold currentApiFileEvents.
  apply (forRangeAcc_flag
           (λ api, missingCurrentApiFile mctx module s api
                   && negb (AllowMissingDependencies (config mctx)))).
  intros acc' api log''. apply checkCurrentApiFile_spec.
Qed.

Lemma createScopeModules_spec mctx module s log :
  createScopeModules mctx module s log =
  (Returned tt,
   log ++ map CreateModule
            (scopeModuleNames (createsApiLibrary (config mctx) module s) s
               (BaseModuleName module))).
Proof.
  unfold createScopeModules, scopeModuleNames, createsApiLibrary.
  set (alt := if decide (s = apiScopePublic)
              then alternativeFullApiSurfaceStubLib module else EmptyString).
  assert (Halt : bool_decide (alt ≠ EmptyString) =
                 bool_decide (s = apiScopePublic ∧
                              alternativeFullApiSurfaceStubLib module ≠ EmptyString)).
  { unfold alt. apply bool_decide_ext. destruct (decide (s = apiScopePublic)); intuition. }
  rewrite Halt. unfold bind, emit, ret, when.
  destruct (_ || _); simpl; by rewrite <- !app_assoc.
Qed.

Lemma createdModules_app l1 l2 :
  createdModules (l1 ++ l2) = createdModules l1 ++ createdModules l2.
Proof. apply omap_app. Qed.

Lemma createdModules_CreateModule names : createdModules (map CreateModule names) = names.
Proof. induction names as [|n names IH]; [done|]. simpl. by rewrite IH. Qed.

Lemma createdModules_concat {A} (f : A → list string) (l : list A) :
  createdModules (concat (map (λ x, map CreateModule (f x)) l)) = concat (map f l).
Proof.
  induction l as [|x l IH]; [done|]. simpl.
  by rewrite createdModules_app, createdModules_CreateModule, IH.
Qed.

Lemma createdModules_none (l : list event) :
  Forall (λ e, ∀ n, e ≠ CreateModule n) l → createdModules l = [].
Proof.
  induction 1 as [|e l He _ IH]; [done|]. simpl.
  destruct e; try done. by destruct (He name0).
Qed.

Lemma sublist_concat_map {A B} (f g : A → list B) (l1 l2 : list A) :
  l1 `sublist_of` l2 → (∀ x, f x `sublist_of` g x) →
  concat (map f l1) `sublist_of` concat (map g l2).
Proof.
  intros Hl Hfg. induction Hl as [|x l1 l2 _ IH|x l1 l2 _ IH]; simpl.
  - done.
  - by apply sublist_app.
  - by apply sublist_inserts_l.
Qed.

Lemma internalModuleSuffixes_NoDup : NoDup internalModuleSuffixes.
Proof. apply (bool_decide_unpack (NoDup internalModuleSuffixes)). by vm_compute. Qed.

Lemma scopeModuleNames_sublist contributes s baseName :
  scopeModuleNames contributes s baseName `sublist_of`
  (String.app baseName <$>
     [".stubs.source" +:+ moduleSuffix (scope s);
      stubsLibraryModuleNameSuffix s +:+ ".from-source";
      exportableStubsLibraryModuleNameSuffix s +:+ ".from-source";
      stubsLibraryModuleNameSuffix s +:+ ".from-text";
      stubsLibraryModuleNameSuffix s;
      exportableStubsLibraryModuleNameSuffix s]).
Proof.
  unfold scopeModuleNames, stubsSourceModuleName, sourceStubLibraryModuleName,
    exportableSourceStubsLibraryModuleName, apiLibraryModuleName,
    stubsLibraryModuleName, exportableStubsLibraryModuleName.
  rewrite !string_app_assoc. simpl.
  do 3 apply sublist_skip.
  destruct contributes; simpl; [by apply sublist_skip|by apply sublist_cons].
Qed.

Lemma fmap_concat_map {A B C} (f : B → C) (h : A → list B) (l : list A) :
  f <$> concat (map h l) = concat (map (λ x, f <$> h x) l).
Proof.
  induction l as [|x l IH]; [done|]. simpl. by rewrite fmap_app, IH.
Qed.

Lemma internalModuleNames_NoDup c module generated :
  generated `sublist_of` allApiScopes →
  NoDup (internalModuleNames c module generated).
Proof.
  intros Hgen.
  apply (sublist_NoDup _ (String.app (BaseModuleName module) <$> internalModuleSuffixes)).
  { apply NoDup_fmap_2; [apply _|apply internalModuleSuffixes_NoDup]. }
  unfold internalModuleNames, internalModuleSuffixes.
  rewrite fmap_app, fmap_concat_map. apply sublist_app.
  - apply sublist_concat_map; [done|]. intros s. apply scopeModuleNames_sublist.
  - unfold implLibraryModuleName, xmlPermissionsModuleName.
    destruct (requiresRuntimeImplementationLibrary module); [|apply sublist_nil_l].
    apply sublist_skip.
    destruct (sharedLibrary module); [done|apply sublist_nil_l].
Qed.

Lemma extendsErrors_not_create en :
  Forall (λ e, ∀ n, e ≠ CreateModule n) (concat (map (extendsErrors en) allApiScopes)).
Proof.
  apply Forall_forall. intros e He.
  by apply extendsErrors_elem in He as (S & P & -> & _).
Qed.

Lemma currentApiFileEvents_not_create mctx module generated :
  Forall (λ e, ∀ n, e ≠ CreateModule n)
    (concat (map (currentApiFileEvents mctx module) generated)).
Proof.
  apply Forall_forall. intros e He.
  apply list_elem_of_In, in_concat in He as (l & Hl & He).
  apply in_map_iff in Hl as (s & <- & _).
  unfold currentApiFileEvents in He. apply in_concat in He as (l & Hl & He).
  apply in_map_iff in Hl as (api & <- & _).
  destruct (missingCurrentApiFile mctx module s api); [|done].
  by destruct (AllowMissingDependencies (config mctx)); destruct He as [<-|[]].
Qed.

(** The shape of a run of [CreateInternalModules]: either it creates
    nothing, or it got past all its checks and creates the modules of the
    generated scopes, then those of the implementation. *)
Lemma CreateInternalModules_shape mctx module log :
  let module' := setGenerateSystemAndTestApis module (hasStandardLibs mctx) in
  let generated := filter (λ s, enabledStatus module' s = true) allApiScopes in
  let missing :=
    existsb (λ s, existsb (λ api, missingCurrentApiFile mctx module' s api
                                  && negb (AllowMissingDependencies (config mctx)))
                    currentApiFileNames) generated in
  ∃ out events,
    CreateInternalModules mctx module log = (out, log ++ events) ∧
    if moduleEnabled module && negb (bool_decide (length (Srcs module) = 0)) && negb missing
    then out = Returned module' ∧
         createdModules events = internalModuleNames (config mctx) module generated ∧
         (RecordJavaSdkLibrary (BaseModuleName module) ∈ events ↔
          requiresRuntimeImplementationLibrary module = true)
    else createdModules events = [] ∧
         ∀ n, RecordJavaSdkLibrary n ∉ events.
Proof.
  intros module' generated missing. unfold CreateInternalModules.
  destruct (moduleEnabled module); simpl.
  2: { exists (Returned module), []. split; [by unfold ret; rewrite app_nil_r|].
       split; [done|]. intros n Hn. by apply elem_of_nil in Hn. }
  destruct (bool_decide (length (Srcs module) = 0)); simpl.
  { eexists _, _. split; [reflexivity|]. split; [done|].
    intros n Hn. apply list_elem_of_singleton in Hn. done. }
  fold module'. unfold bind at 1. rewrite getGeneratedApiScopes_spec. fold generated.
  unfold bind at 1. rewrite checkCurrentApiFiles_spec. fold missing.
  pose proof (extendsErrors_not_create (enabledStatus module')) as He1.
  pose proof (currentApiFileEvents_not_create mctx module' generated) as He2.
  set (e1 := concat (map (extendsErrors (enabledStatus module')) allApiScopes)) in *.
  set (e2 := concat (map (currentApiFileEvents mctx module') generated)) in *.
  assert (Hrec : ∀ n l, Forall (λ e, ∀ n, e ≠ CreateModule n) l →
                        (∀ e, e ∈ l → isError e = true ∨ ∃ d, e = AddMissingDependencies d) →
                        RecordJavaSdkLibrary n ∉ l).
  { intros n l _ Hl Hin. by destruct (Hl _ Hin) as [?|[? ?]]. }
  assert (Hkind1 : ∀ e, e ∈ e1 → isError e = true ∨ ∃ d, e = AddMissingDependencies d).
  { intros e He. apply extendsErrors_elem in He as (S & P & -> & _). by left. }
  assert (Hkind2 : ∀ e, e ∈ e2 → isError e = true ∨ ∃ d, e = AddMissingDependencies d).
  { intros e He. unfold e2 in He.
    apply list_elem_of_In, in_concat in He as (l & Hl & He).
    apply in_map_iff in Hl as (s & <- & _).
    unfold currentApiFileEvents in He. apply in_concat in He as (l & Hl & He).
    apply in_map_iff in Hl as (api & <- & _).
    destruct (missingCurrentApiFile mctx module' s api); [|done].
    destruct (AllowMissingDependencies (config mctx)); destruct He as [<-|[]];
      [right; by eexists|by left]. }
  destruct missing; simpl.
  - destruct (ExistentPathForSource mctx genCurrentApiScript); simpl.
    + exists (Returned module'), (e1 ++ e2 ++ [missingCurrentApiError mctx module' generated]).
      split; [unfold bind, emit, ret; by rewrite <- !app_assoc|].
      split.
      * by rewrite !createdModules_app, (createdModules_none e1 He1),
          (createdModules_none e2 He2).
      * intros n Hn. rewrite !elem_of_app in Hn. destruct Hn as [Hn|[Hn|Hn]].
        -- by destruct (Hkind1 _ Hn) as [?|[? ?]].
        -- by destruct (Hkind2 _ Hn) as [?|[? ?]].
        -- by apply list_elem_of_singleton in Hn.
    + eexists _, (e1 ++ e2). split; [unfold panic; by rewrite <- !app_assoc|].
      split.
      * by rewrite !createdModules_app, (createdModules_none e1 He1),
          (createdModules_none e2 He2).
      * intros n Hn. rewrite !elem_of_app in Hn. destruct Hn as [Hn|Hn].
        -- by destruct (Hkind1 _ Hn) as [?|[? ?]].
        -- by destruct (Hkind2 _ Hn) as [?|[? ?]].
  - unfold bind at 1.
    rewrite (forRange_emits
               (λ s, map CreateModule
                       (scopeModuleNames (createsApiLibrary (config mctx) module' s) s
                          (BaseModuleName module'))))
      by apply createScopeModules_spec.
    set (e3 := concat (map _ generated)).
    assert (Hc3 : createdModules e3 =
                  concat (map (λ s, scopeModuleNames (createsApiLibrary (config mctx) module s)
                                      s (BaseModuleName module)) generated)).
    { unfold e3. apply (createdModules_concat
        (λ s, scopeModuleNames (createsApiLibrary (config mctx) module s) s
                (BaseModuleName module))). }
    assert (Hr3 : ∀ n, RecordJavaSdkLibrary n ∉ e3).
    { intros n Hn. unfold e3 in Hn.
      apply list_elem_of_In, in_concat in Hn as (l & Hl & Hn).
      apply in_map_iff in Hl as (s & <- & _).
      by apply in_map_iff in Hn as (? & ? & _). }
    unfold internalModuleNames.
    change (requiresRuntimeImplementationLibrary module')
      with (requiresRuntimeImplementationLibrary module).
    change (sharedLibrary module') with (sharedLibrary module).
    change (implLibraryModuleName module') with (implLibraryModuleName module).
    change (xmlPermissionsModuleName module') with (xmlPermissionsModuleName module).
    change (BaseModuleName module') with (BaseModuleName module).
    destruct (requiresRuntimeImplementationLibrary module); simpl.
    + destruct (sharedLibrary module); simpl.
      * eexists _, (e1 ++ e2 ++ e3 ++ [_; _; _]).
        split; [unfold bind, emit, ret; by rewrite <- !app_assoc|].
        split; [done|]. split.
        -- by rewrite !createdModules_app, Hc3, (createdModules_none e1 He1),
             (createdModules_none e2 He2).
        -- split; [done|]. intros _. rewrite !elem_of_app. do 3 right.
           do 2 apply list_elem_of_further. apply list_elem_of_here.
      * eexists _, (e1 ++ e2 ++ e3 ++ [_; _]).
        split; [unfold bind, emit, ret; by rewrite <- !app_assoc|].
        split; [done|]. split.
        -- by rewrite !createdModules_app, Hc3, (createdModules_none e1 He1),
             (createdModules_none e2 He2).
        -- split; [done|]. intros _. rewrite !elem_of_app. do 3 right.
           apply list_elem_of_further. apply list_elem_of_here.
    + eexists _, (e1 ++ e2 ++ e3).
      split; [unfold bind, emit, ret; by rewrite <- !app_assoc|].
      split; [done|]. split.
      * by rewrite !createdModules_app, Hc3, (createdModules_none e1 He1),
          (createdModules_none e2 He2), app_nil_r.
      * split; [|done]. intros Hn. rewrite !elem_of_app in Hn.
        destruct Hn as [Hn|[Hn|Hn]].
        -- by destruct (Hkind1 _ Hn) as [?|[? ?]].
        -- by destruct (Hkind2 _ Hn) as [?|[? ?]].
        -- by apply Hr3 in Hn.
Qed.

(** [CreateInternalModules] never creates two modules of the same name,
    whatever the library, its scopes and the source tree are. *)
Theorem CreateInternalModules_distinct_names (mctx : moduleContext)
    (module : SdkLibrary) (log : list event) :
  ∃ out events,
    CreateInternalModules mctx module log = (out, log ++ events) ∧
    NoDup (createdModules events).
Proof.
  destruct (CreateInternalModules_shape mctx module log) as (out & events & Hrun & Hshape).
  exists out, events. split; [done|].
  destruct (_ && _).
  - destruct Hshape as (_ & -> & _).
    apply internalModuleNames_NoDup, sublist_filter.
  - destruct Hshape as [-> _]. constructor.
Qed.

(** An enabled library with sources whose current API files are all there,
    or that is built with missing dependencies allowed, gets, for every
    generated scope in turn, its stubs source module, its two from-source
    stubs libraries, its from-text library if the library contributes to an
    API surface, and its two top-level stubs libraries; then, unless it is
    [api_only], its implementation library and, if it is a shared library,
    its XML module, and only then is it recorded as a [java_sdk_library].
    An error about a disabled extended scope does not stop any of this. *)
Theorem CreateInternalModules_creates_family (mctx : moduleContext)
    (module : SdkLibrary) (log : list event) (generated : list apiScope) :
  let module' := setGenerateSystemAndTestApis module (hasStandardLibs mctx) in
  moduleEnabled module = true →
  Srcs module ≠ [] →
  (getGeneratedApiScopes module' log).1 = Returned generated →
  (AllowMissingDependencies (config mctx) = true ∨
   ∀ s api, s ∈ generated → api ∈ ["current.txt"; "removed.txt"] →
            ExistentPathForSource mctx (currentApiFilePathOf mctx module' s api) = true) →
  ∃ events,
    CreateInternalModules mctx module log = (Returned module', log ++ events) ∧
    createdModules events =
      concat (map (λ s, scopeModuleNames (createsApiLibrary (config mctx) module s) s
                          (BaseModuleName module)) generated) ++
      (if Bool (Api_only (sdkLibProps module)) then []
       else (BaseModuleName module +:+ ".impl") ::
            (if BoolDefault (Shared_library module) true
             then [BaseModuleName module +:+ ".xml"] else [])) ∧
    (RecordJavaSdkLibrary (BaseModuleName module) ∈ events ↔
     Bool (Api_only (sdkLibProps module)) = false).
Proof.
  intros module' Henabled Hsrcs Hgen Hfiles.
  rewrite getGeneratedApiScopes_spec in Hgen. simpl in Hgen. injection Hgen as Hgen.
  destruct (CreateInternalModules_shape mctx module log) as (out & events & Hrun & Hshape).
  fold module' in Hshape. rewrite Hgen in Hshape.
  rewrite Henabled in Hshape.
  rewrite bool_decide_eq_false_2 in Hshape by (by destruct (Srcs module)).
  assert (Hmissing :
    existsb (λ s, existsb (λ api, missingCurrentApiFile mctx module' s api
                                  && negb (AllowMissingDependencies (config mctx)))
                    currentApiFileNames) generated = false).
  { apply not_true_is_false. intros Hex.
    apply existsb_exists in Hex as (s & Hs & Hex).
    apply existsb_exists in Hex as (api & Hapi & Hex).
    apply andb_true_iff in Hex as [Hmiss Hstrict].
    destruct Hfiles as [Hallow|Hfiles].
    - by rewrite Hallow in Hstrict.
    - unfold missingCurrentApiFile in Hmiss.
      rewrite Hfiles in Hmiss; [done|by apply list_elem_of_In..]. }
  rewrite Hmissing in Hshape. simpl in Hshape.
  destruct Hshape as (-> & Hcreated & Hrecord).
  exists events. split; [done|]. split.
  - rewrite Hcreated. unfold internalModuleNames, requiresRuntimeImplementationLibrary.
    by destruct (Bool (Api_only (sdkLibProps module))).
  - rewrite Hrecord. unfold requiresRuntimeImplementationLibrary.
    by destruct (Bool (Api_only (sdkLibProps module))).
Qed.

(** The library [L] in legacy mode, in a tree without its API files and with
    missing dependencies allowed. *)
Lemma CreateInternalModules_creates_family_witness :
  ∃ module' events,
    CreateInternalModules (Sample.emptyTree Sample.tolerantConfig) Sample.legacy [] =
      (Returned module', events) ∧
    createdModules events =
      ["L.stubs.source"; "L.stubs.from-source"; "L.stubs.exportable.from-source";
       "L.stubs"; "L.stubs.exportable"; "L.impl"; "L.xml"].
Proof.
  destruct (CreateInternalModules_creates_family
              (Sample.emptyTree Sample.tolerantConfig) Sample.legacy [] [apiScopePublic])
    as (events & Hrun & Hcreated & _); try done.
  - by left.
  - eexists _, events. split; [exact Hrun|]. by rewrite Hcreated.
Defined.

(** ** Suffixes of module names *)

Lemma string_length_app (p a : string) :
  String.length (p +:+ a) = String.length p + String.length a.
Proof. induction p as [|c p IH]; [done|]. rewrite string_app_cons. simpl. by rewrite IH. Qed.

Lemma substring_all (a : string) : String.substring 0 (String.length a) a = a.
Proof. induction a as [|c a IH]; [done|]. simpl. by rewrite IH. Qed.

Lemma substring_app_suffix (p a : string) :
  String.substring (String.length p) (String.length a) (p +:+ a) = a.
Proof. induction p as [|c p IH]; [apply substring_all|]. by rewrite string_app_cons. Qed.

Lemma substring_app_prefix (p a : string) :
  String.substring 0 (String.length p) (p +:+ a) = p.
Proof.
  induction p as [|c p IH]; [by destruct a|]. rewrite string_app_cons. simpl. by rewrite IH.
Qed.

Lemma substring_split (s : string) (k : nat) :
  (k ≤ String.length s)%nat →
  s = String.substring 0 k s +:+ String.substring k (String.length s - k) s.
Proof.
  revert k. induction s as [|c s IH]; intros k Hk; simpl in Hk.
  - by destruct k.
  - destruct k as [|k].
    + simpl. by rewrite substring_all.
    + simpl. rewrite string_app_cons. f_equal. apply IH. lia.
Qed.

Lemma HasSuffix_app (p a : string) : HasSuffix (p +:+ a) a = true.
Proof.
  unfold HasSuffix. rewrite string_length_app.
  apply andb_true_iff. split; [apply Nat.leb_le; lia|].
  apply bool_decide_eq_true.
  replace (String.length p + String.length a - String.length a) with (String.length p) by lia.
  apply substring_app_suffix.
Qed.

Lemma HasSuffix_inv (s b : string) : HasSuffix s b = true → ∃ q, s = q +:+ b.
Proof.
  unfold HasSuffix. intros [Hlen Hsub]%andb_true_iff.
  apply Nat.leb_le in Hlen. apply bool_decide_eq_true in Hsub.
  exists (String.substring 0 (String.length s - String.length b) s).
  pose proof (substring_split s (String.length s - String.length b)) as Hsplit.
  replace (String.length s - (String.length s - String.length b))
    with (String.length b) in Hsplit by lia.
  rewrite Hsub in Hsplit. apply Hsplit. lia.
Qed.

Lemma string_app_eq_suffix (p a q b : string) :
  p +:+ a = q +:+ b → (∃ r, a = r +:+ b) ∨ (∃ r, b = r +:+ a).
Proof.
  revert q. induction p as [|c p IH]; intros q Heq.
  - left. by exists q.
  - destruct q as [|d q].
    + right. by exists (String c p).
    + rewrite !string_app_cons in Heq. injection Heq as _ Heq. by apply IH in Heq.
Qed.

Lemma string_app_inj_r (p q a : string) : p +:+ a = q +:+ a → p = q.
Proof.
  revert q. induction p as [|c p IH]; intros q Heq.
  - apply (f_equal String.length) in Heq. rewrite !string_length_app in Heq.
    destruct q; [done|]. simpl in Heq. lia.
  - destruct q as [|d q].
    + apply (f_equal String.length) in Heq. rewrite !string_length_app in Heq.
      simpl in Heq. lia.
    + rewrite !string_app_cons in Heq. injection Heq as -> Heq. f_equal. by apply IH.
Qed.

(** Whether a name ends in [b] is decided by its known ending [a], unless
    [a] is a proper suffix of [b]. *)
Lemma HasSuffix_verdict (p a b : string) (v : bool) :
  suffixVerdict a b = Some v → HasSuffix (p +:+ a) b = v.
Proof.
  unfold suffixVerdict. intros Hv.
  destruct v.
  - destruct (String.length b <=? String.length a)%nat; [|by destruct (HasSuffix b a)].
    injection Hv as Hv. apply HasSuffix_inv in Hv as (r & ->).
    rewrite <- string_app_assoc. apply HasSuffix_app.
  - apply not_true_is_false. intros Hs.
    apply HasSuffix_inv in Hs as (q & Hs).
    apply string_app_eq_suffix in Hs as [(r & ->)|(r & ->)].
    + rewrite HasSuffix_app in Hv. rewrite string_length_app in Hv.
      destruct (_ <=? _)%nat eqn:Hlen; [done|].
      apply Nat.leb_gt in Hlen. lia.
    + rewrite HasSuffix_app in Hv. rewrite string_length_app in Hv.
      destruct (_ <=? _)%nat eqn:Hlen; [|done].
      apply Nat.leb_le in Hlen. destruct r; [|simpl in Hlen; lia].
      pose proof (HasSuffix_app EmptyString a) as Haa.
      change (EmptyString +:+ a) with a in *. congruence.
Qed.

Lemma TrimSuffix_app (p a : string) : TrimSuffix (p +:+ a) a = p.
Proof.
  unfold TrimSuffix. rewrite HasSuffix_app, string_length_app.
  replace (String.length p + String.length a - String.length a) with (String.length p) by lia.
  apply substring_app_prefix.
Qed.

Lemma TrimSuffix_verdict (p a b : string) :
  suffixVerdict a b = Some false → TrimSuffix (p +:+ a) b = p +:+ a.
Proof. intros Hv. unfold TrimSuffix. by rewrite (HasSuffix_verdict p a b false Hv). Qed.

Lemma string_app_ne_verdict (p a b : string) :
  suffixVerdict a b = Some false → suffixVerdict b a = Some false → p +:+ a ≠ b.
Proof.
  intros Hab Hba Heq.
  pose proof (HasSuffix_verdict p a b false Hab) as H1.
  rewrite Heq in H1. pose proof (HasSuffix_app EmptyString b) as Hbb.
  change (EmptyString +:+ b) with b in *. congruence.
Qed.

Ltac suffix_verdicts :=
  repeat first
    [ rewrite TrimSuffix_app
    | rewrite TrimSuffix_verdict by reflexivity
    | rewrite (HasSuffix_verdict _ _ _ true) by reflexivity
    | rewrite (HasSuffix_verdict _ _ _ false) by reflexivity ].

(** [moduleStubLinkType] knows the stubs libraries that a library creates
    for a scope, top-level or from-source, everything or exportable, by
    their names: it classifies each as a stub of the link type of its scope,
    whatever the name of the library, the two libraries [hwbinder] and
    [libcore_private] apart. *)
Theorem moduleStubLinkType_stubs_names (baseName : string) (s : apiScope) (name : string) :
  name ∈ [stubsLibraryModuleName s baseName;
          sourceStubLibraryModuleName s baseName;
          exportableStubsLibraryModuleName s baseName;
          exportableSourceStubsLibraryModuleName s baseName] →
  baseName ≠ "hwbinder" →
  baseName ≠ "libcore_private" →
  moduleStubLinkType name = (true, scopeLinkType s).
Proof.
  intros Hname Hb1 Hb2.
  assert (Hne1 : baseName +:+ ".stubs" ≠ "hwbinder.stubs").
  { intros Heq. by apply (string_app_inj_r baseName "hwbinder" ".stubs") in Heq. }
  assert (Hne2 : baseName +:+ ".stubs" ≠ "libcore_private.stubs").
  { intros Heq. by apply (string_app_inj_r baseName "libcore_private" ".stubs") in Heq. }
  assert (Hne3 : baseName +:+ ".stubs.exportable" ≠ "hwbinder.stubs")
    by (by apply string_app_ne_verdict).
  assert (Hne4 : baseName +:+ ".stubs.exportable" ≠ "libcore_private.stubs")
    by (by apply string_app_ne_verdict).
  repeat (apply elem_of_cons in Hname as [->|Hname]); [..|by apply elem_of_nil in Hname].
  all: unfold moduleStubLinkType, hasStubsLibrarySuffix, sourceStubLibraryModuleName,
         exportableSourceStubsLibraryModuleName, stubsLibraryModuleName,
         exportableStubsLibraryModuleName.
  all: destruct s; suffix_verdicts; simpl.
  all: try done.
  all: by rewrite !bool_decide_eq_false_2 by assumption.
Qed.

(** The stubs libraries of [framework-foo]. *)
Lemma moduleStubLinkType_stubs_names_witness :
  moduleStubLinkType "framework-foo.stubs.exportable.module_lib.from-source" =
  (true, javaModule).
Proof.
  apply (moduleStubLinkType_stubs_names "framework-foo" apiScopeModuleLib); [|done..].
  do 3 apply list_elem_of_further. apply list_elem_of_here.
Defined.


(** ** More on the stub library paths *)

(** The everything and the exportable extractor can run in either order:
    the paths end up the same, with the header jars and the dex jar of the
    everything stubs, the exportable dex jar of the exportable stubs, and the
    implementation jars of the exportable stubs if
    [ReleaseHiddenApiExportableStubs] is set and of the everything stubs
    otherwise, whatever those four fields held before.  On one and the same
    dependency this is what the extractor for prebuilt stubs gives. *)
Theorem stubs_extractors_commute (config : Config) (everything exportable : depModule)
    (libE libX : JavaInfo) (dexE dexX : option string) (paths : scopePaths) :
  depJavaInfo everything = Some libE →
  depDexJarBuildPath everything = Some dexE →
  depJavaInfo exportable = Some libX →
  depDexJarBuildPath exportable = Some dexX →
  ∃ pathsE pathsX final,
    extractEverythingStubsLibraryInfoFromDependency config everything paths =
      Returned (pathsE, None) ∧
    extractExportableStubsLibraryInfoFromDependency config exportable pathsE =
      Returned (final, None) ∧
    extractExportableStubsLibraryInfoFromDependency config exportable paths =
      Returned (pathsX, None) ∧
    extractEverythingStubsLibraryInfoFromDependency config everything pathsX =
      Returned (final, None) ∧
    stubsHeaderPath final = HeaderJars libE ∧
    stubsDexJarPath final = dexE ∧
    exportableStubsDexJarPath final = dexX ∧
    stubsImplPath final =
      (if ReleaseHiddenApiExportableStubs config then ImplementationJars libX
       else ImplementationJars libE) ∧
    (everything = exportable →
     extractStubsLibraryInfoFromDependency config everything paths =
       Returned (final, None)).
Proof.
  intros HlibE HdexE HlibX HdexX.
  unfold extractEverythingStubsLibraryInfoFromDependency,
    extractExportableStubsLibraryInfoFromDependency,
    extractStubsLibraryInfoFromDependency.
  rewrite HlibE, HdexE, HlibX, HdexX. eexists _, _, _.
  split; [reflexivity|]. split; [reflexivity|]. split; [reflexivity|]. simpl.
  destruct (ReleaseHiddenApiExportableStubs config); simpl; repeat split; try done.
  all: intros ->; rewrite HlibE in HlibX; rewrite HdexE in HdexX;
    by injection HlibX as ->; injection HdexX as ->.
Qed.

(** The stubs library of the samples as both dependencies. *)
Lemma stubs_extractors_commute_witness :
  ∃ final,
    extractStubsLibraryInfoFromDependency Sample.exportableConfig Sample.stubsDep
      zeroScopePaths = Returned (final, None) ∧
    stubsImplPath final = ["stubs-impl.jar"] ∧
    exportableStubsDexJarPath final = Some "stubs-dex.jar".
Proof.
  destruct (stubs_extractors_commute Sample.exportableConfig Sample.stubsDep
              Sample.stubsDep _ _ _ _ zeroScopePaths eq_refl eq_refl eq_refl eq_refl)
    as (pathsE & pathsX & final & _ & _ & _ & _ & _ & _ & Hdex & Himpl & Hsame).
  exists final. split; [by apply Hsame|]. by split.
Defined.

(** On a dependency without a [JavaInfoProvider], each of the three stubs
    library tags reports one module error, with the name of the tag, the
    name of the dependency and what was expected, and leaves the paths as
    they were. *)
Theorem extractDepInfo_without_JavaInfo (config : Config) (s : apiScope)
    (depName : string) (dep : depModule) (paths : scopePaths) (log : list event) :
  depJavaInfo dep = None →
  let report (tagName : string) :=
    (Returned paths,
     log ++ [ModuleErrorf
               "has an invalid {scopeDependencyTag: %s} dependency on module %s: %s"
               [ArgString tagName; ArgString depName;
                ArgString "expected module that has JavaInfoProvider, e.g. java_library"]]) in
  extractDepInfo (prebuiltStubsTagName s)
    (extractStubsLibraryInfoFromDependency config dep) depName paths log =
    report (name (scope s) +:+ "-stubs") ∧
  extractDepInfo (everythingStubsTagName s)
    (extractEverythingStubsLibraryInfoFromDependency config dep) depName paths log =
    report (name (scope s) +:+ "-stubs-everything") ∧
  extractDepInfo (exportableStubsTagName s)
    (extractExportableStubsLibraryInfoFromDependency config dep) depName paths log =
    report (name (scope s) +:+ "-stubs-exportable").
Proof.
  intros Hnone report.
  unfold extractDepInfo, extractStubsLibraryInfoFromDependency,
    extractEverythingStubsLibraryInfoFromDependency,
    extractExportableStubsLibraryInfoFromDependency.
  by rewrite Hnone.
Qed.

(** A dependency that is not a Java library, under the system tags. *)
Lemma extractDepInfo_without_JavaInfo_witness :
  extractDepInfo (everythingStubsTagName apiScopeSystem)
    (extractEverythingStubsLibraryInfoFromDependency Sample.exportableConfig
       {| depJavaInfo := None; depDexJarBuildPath := None |})
    "L.stubs.system" zeroScopePaths [] =
  (Returned zeroScopePaths,
   [ModuleErrorf "has an invalid {scopeDependencyTag: %s} dependency on module %s: %s"
      [ArgString "system-stubs-everything"; ArgString "L.stubs.system";
       ArgString "expected module that has JavaInfoProvider, e.g. java_library"]]).
Proof.
  by destruct (extractDepInfo_without_JavaInfo Sample.exportableConfig apiScopeSystem
                 "L.stubs.system" {| depJavaInfo := None; depDexJarBuildPath := None |}
                 zeroScopePaths [] eq_refl) as (_ & Heverything & _).
Defined.

(** The stubs source and API extractor asks the provider for the exportable
    files if [ReleaseHiddenApiExportableStubs] is set and for the everything
    files otherwise.  The annotations zip, the current API file and the
    removed API file are written together, when the provider has all three,
    and none of them is written when it lacks one; the stubs source jar is
    written whenever the provider has it, whatever happened to the API
    files.  The extractor returns no error exactly when the provider has all
    four, and it touches no other field. *)
Theorem extractStubsSourceAndApiInfo_all_or_nothing (config : Config)
    (provider : ApiStubsProvider) (paths : scopePaths) :
  let stubsType :=
    if ReleaseHiddenApiExportableStubs config then Exportable else Everything in
  let result :=
    extractStubsSourceAndApiInfoFromApiStubsProvider config (Some provider) paths in
  let hasApi :=
    ∃ zip api removed,
      AnnotationsZip provider stubsType = inl zip ∧
      ApiFilePath provider stubsType = inl api ∧
      RemovedApiFilePath provider stubsType = inl removed ∧
      annotationsZip result.1 = Some zip ∧
      currentApiFilePath result.1 = Some api ∧
      removedApiFilePath result.1 = Some removed in
  let keepsApi :=
    annotationsZip result.1 = annotationsZip paths ∧
    currentApiFilePath result.1 = currentApiFilePath paths ∧
    removedApiFilePath result.1 = removedApiFilePath paths in
  (hasApi ∨
   ((∃ err, AnnotationsZip provider stubsType = inr err ∨
            ApiFilePath provider stubsType = inr err ∨
            RemovedApiFilePath provider stubsType = inr err) ∧ keepsApi)) ∧
  stubsSrcJar result.1 =
    match StubsSrcJar provider stubsType with
    | inl jar => Some jar
    | inr _ => stubsSrcJar paths
    end ∧
  (result.2 = None ↔
   hasApi ∧ ∃ jar, StubsSrcJar provider stubsType = inl jar) ∧
  stubsHeaderPath result.1 = stubsHeaderPath paths ∧
  stubsImplPath result.1 = stubsImplPath paths ∧
  stubsDexJarPath result.1 = stubsDexJarPath paths ∧
  exportableStubsDexJarPath result.1 = exportableStubsDexJarPath paths ∧
  latestApiPath result.1 = latestApiPath paths ∧
  latestRemovedApiPath result.1 = latestRemovedApiPath paths ∧
  extractStubsSourceAndApiInfoFromApiStubsProvider config None paths =
    (paths, Some "expected module that implements ExportableApiStubsSrcProvider, e.g. droidstubs").
Proof.
  intros stubsType result hasApi keepsApi.
  unfold hasApi, keepsApi, result, extractStubsSourceAndApiInfoFromApiStubsProvider,
    treatDepAsApiStubsProvider, extractApiInfoFromApiStubsProvider,
    extractStubsSourceInfoFromApiStubsProviders.
  fold stubsType.
  destruct (AnnotationsZip provider stubsType) as [zip|e1],
           (ApiFilePath provider stubsType) as [api|e2],
           (RemovedApiFilePath provider stubsType) as [removed|e3],
           (StubsSrcJar provider stubsType) as [jar|e4]; simpl.
  all: repeat split; try done.
  all: try (left; by eexists _, _, _).
  all: try (right; split; [eexists; eauto|done]).
  all: try by eexists.
  all: try by intros [(? & ? & ? & ? & ? & ? & _)|((? & [?|[?|?]]) & _)].
  all: try by intros ((? & ? & ? & ? & ? & ? & _) & _).
  all: try by intros (_ & ? & ?).
  all: by eexists _, _, _.
Qed.


(** ** The latest API modules *)

Section LatestApiProperties.
Variable PrebuiltApiModuleName : string → string → string → string.

Lemma missingApiModulesOf_elem mctx module generated (m : string) :
  m ∈ missingApiModulesOf PrebuiltApiModuleName mctx module generated ↔
  ∃ s, s ∈ generated ∧ unstable (scope s) = false ∧
       m ∈ [latestApiModuleName PrebuiltApiModuleName module s;
            latestRemovedApiModuleName PrebuiltApiModuleName module s;
            latestIncompatibilitiesModuleName PrebuiltApiModuleName module s] ∧
       OtherModuleExists mctx m = false.
Proof.
  unfold missingApiModulesOf.
  assert (Hadd : ∀ (m x : string) (l : list string),
    m ∈ (if negb (OtherModuleExists mctx x) then l ++ [x] else l) ↔
    m ∈ l ∨ (m = x ∧ OtherModuleExists mctx x = false)).
  { intros m' x l. destruct (OtherModuleExists mctx x); simpl.
    - split; [by left|]. by intros [?|[_ ?]].
    - rewrite elem_of_app, list_elem_of_singleton. split.
      + intros [?| ->]; [by left|by right].
      + intros [?|[-> _]]; [by left|by right]. }
  assert (Hgen : ∀ acc,
    m ∈ fold_left
          (λ missingApiModules s,
             if unstable (scope s) then missingApiModules
             else
               let add (m : string) (l : list string) :=
                 if negb (OtherModuleExists mctx m) then l ++ [m] else l in
               add (latestIncompatibilitiesModuleName PrebuiltApiModuleName module s)
                 (add (latestRemovedApiModuleName PrebuiltApiModuleName module s)
                    (add (latestApiModuleName PrebuiltApiModuleName module s)
                       missingApiModules)))
          generated acc ↔
    m ∈ acc ∨
    ∃ s, s ∈ generated ∧ unstable (scope s) = false ∧
         m ∈ [latestApiModuleName PrebuiltApiModuleName module s;
              latestRemovedApiModuleName PrebuiltApiModuleName module s;
              latestIncompatibilitiesModuleName PrebuiltApiModuleName module s] ∧
         OtherModuleExists mctx m = false).
  { induction generated as [|s generated IH]; intros acc; cbn [fold_left].
    - split; [by left|]. intros [?|(s & Hs & _)]; [done|by apply elem_of_nil in Hs].
    - rewrite IH. clear IH. cbv zeta.
      destruct (unstable (scope s)) eqn:Hunstable.
      + split.
        * intros [?|(t & Ht & ?)]; [by left|]. right. exists t. split; [by right|done].
        * intros [?|(t & Ht & Hu & ?)]; [by left|].
          apply elem_of_cons in Ht as [->|Ht]; [congruence|]. right. by exists t.
      + rewrite !(Hadd m). split.
        * intros [[[[Hm|[-> Hex]]|[-> Hex]]|[-> Hex]]|(t & Ht & Hrest)].
          -- by left.
          -- right. exists s. rewrite !elem_of_cons. tauto.
          -- right. exists s. rewrite !elem_of_cons. tauto.
          -- right. exists s. rewrite !elem_of_cons. tauto.
          -- right. exists t. rewrite elem_of_cons. tauto.
        * intros [Hm|(t & Ht & Hu & Hin & Hex)]; [tauto|].
          rewrite !elem_of_cons, elem_of_nil in Hin.
          apply elem_of_cons in Ht as [->|Ht].
          -- left. destruct Hin as [->|[->|[->|[]]]]; tauto.
          -- right. exists t. rewrite !elem_of_cons, elem_of_nil. tauto. }
  rewrite Hgen. split; [|by right]. intros [Hm|?]; [by apply elem_of_nil in Hm|done].
Qed.
Lemma unstable_scope_test (s : apiScope) :
  unstable (scope s) = false ↔ s ≠ apiScopeTest.
Proof. by destruct s. Qed.

Variable LibraryDeps : moduleContext → SdkLibrary → outcome unit * list event.

(** [DepsMutator] adds at most one error of its own to those of
    [getGeneratedApiScopes]: the error on missing tracking files, exactly
    when [unsafe_ignore_missing_latest_api] is not set and some filegroup
    module of the latest API of a generated scope other than test does not
    exist.  The modules that the message lists are exactly those.  After
    that a library that is [api_only] returns, and any other library goes on
    with [Library.deps]: the mutator ends as that call ends, and the events
    of that call follow its own. *)
Theorem DepsMutator_missing_latest_api mctx module log :
  ∃ generated log1 missing,
    getGeneratedApiScopes module log = (Returned generated, log1) ∧
    (∀ m, m ∈ missing ↔
          ∃ s, s ∈ generated ∧ s ≠ apiScopeTest ∧
               m ∈ [latestApiModuleName PrebuiltApiModuleName module s;
                    latestRemovedApiModuleName PrebuiltApiModuleName module s;
                    latestIncompatibilitiesModuleName PrebuiltApiModuleName module s] ∧
               OtherModuleExists mctx m = false) ∧
    let checked :=
      if decide (missing ≠ [] ∧
                 Unsafe_ignore_missing_latest_api (sdkLibProps module) = false)
      then log1 ++ [ModuleErrorf (missingLatestApiMessage module missing) []]
      else log1 in
    DepsMutator PrebuiltApiModuleName LibraryDeps mctx module log =
      if requiresRuntimeImplementationLibrary module
      then ((LibraryDeps mctx module).1, checked ++ (LibraryDeps mctx module).2)
      else (Returned tt, checked).
Proof.
  destruct (getGeneratedApiScopes module log) as [out log1] eqn:Hgen.
  pose proof Hgen as Hgen'. rewrite getGeneratedApiScopes_spec in Hgen'.
  destruct out as [generated|msg]; [|done].
  exists generated, log1,
    (missingApiModulesOf PrebuiltApiModuleName mctx module generated).
  split; [done|]. split.
  - intros m. rewrite missingApiModulesOf_elem.
    by setoid_rewrite unstable_scope_test.
  - unfold DepsMutator, bind. rewrite Hgen.
    destruct (missingApiModulesOf PrebuiltApiModuleName mctx module generated)
      as [|m missing] eqn:Hmissing;
      destruct (Unsafe_ignore_missing_latest_api (sdkLibProps module));
      destruct (requiresRuntimeImplementationLibrary module);
      cbv zeta; case_decide; try (exfalso; intuition congruence); reflexivity.
Qed.

(** The two mutators together: when the log that [DepsMutator] leaves has
    no error on missing tracking files, every module of the latest API
    that [ComponentDepsMutator] depends on exists. *)
Theorem ComponentDepsMutator_latest_api_exists mctx module log deps log1 out log2 :
  ComponentDepsMutator PrebuiltApiModuleName module log = (Returned deps, log1) →
  DepsMutator PrebuiltApiModuleName LibraryDeps mctx module log = (out, log2) →
  (∀ missing, ModuleErrorf (missingLatestApiMessage module missing) [] ∉ log2) →
  ∀ tagName nm,
    AddDependency (scopeDependencyTag tagName) nm ∈ deps →
    OtherModuleExists mctx nm = true.
Proof.
  intros Hdeps Hrun Hok tagName nm Hin.
  destruct (getGeneratedApiScopes module log) as [gout log1'] eqn:Hgen.
  pose proof Hgen as Hgen'. rewrite getGeneratedApiScopes_spec in Hgen'.
  destruct gout as [generated|msg]; [|done].
  unfold DepsMutator, bind in Hrun. rewrite Hgen in Hrun.
  unfold ComponentDepsMutator, bind in Hdeps. rewrite Hgen in Hdeps.
  injection Hdeps as <- _.
  apply elem_of_app in Hin as [Hin|Hin].
  - apply list_elem_of_In, in_concat in Hin as (l & Hl & Hin).
    apply in_map_iff in Hl as (s & <- & Hs).
    apply list_elem_of_In in Hin, Hs.
    unfold scopeComponentDeps in Hin.
    apply elem_of_app in Hin as [Hin|Hin].
    { rewrite !elem_of_cons, elem_of_nil in Hin. intuition congruence. }
    destruct (compareAgainstLatestApi module s) eqn:Hcompare;
      [|by apply elem_of_nil in Hin].
    unfold compareAgainstLatestApi in Hcompare.
    apply negb_true_iff, orb_false_iff in Hcompare as [Hunstable Hignore].
    apply not_false_is_true. intros Hex.
    assert (Hnm : nm ∈ missingApiModulesOf PrebuiltApiModuleName mctx module generated).
    { apply missingApiModulesOf_elem. exists s.
      split; [done|]. split; [done|]. split; [|done].
      rewrite !elem_of_cons, elem_of_nil in Hin. rewrite !elem_of_cons.
      destruct Hin as [Heq|[Heq|[]]]; injection Heq as _ ->; tauto. }
    destruct (missingApiModulesOf PrebuiltApiModuleName mctx module generated)
      as [|m missing] eqn:Hmissing; [by apply elem_of_nil in Hnm|].
    rewrite Hignore in Hrun. unfold when, emit, libraryDeps, ret in Hrun.
    simpl in Hrun.
    apply (Hok (m :: missing)).
    destruct (requiresRuntimeImplementationLibrary module); injection Hrun as _ <-;
      rewrite !elem_of_app, list_elem_of_singleton; tauto.
  - destruct (requiresRuntimeImplementationLibrary module);
      [|by apply elem_of_nil in Hin].
    apply elem_of_cons in Hin as [?|Hin]; [done|].
    destruct (sharedLibrary module); [|by apply elem_of_nil in Hin].
    apply list_elem_of_singleton in Hin. done.
Qed.
End LatestApiProperties.

(** The library [L] in legacy mode, in a tree where every other module
    exists. *)
Lemma ComponentDepsMutator_latest_api_exists_witness :
  ∃ deps log1,
    ComponentDepsMutator Sample.prebuiltApiModuleName Sample.legacy [] =
      (Returned deps, log1) ∧
    AddDependency (scopeDependencyTag "public-latest-api") "L.api.public.latest" ∈ deps ∧
    OtherModuleExists (Sample.emptyTree Sample.tolerantConfig) "L.api.public.latest" = true.
Proof.
  eexists _, _. split; [reflexivity|].
  match goal with |- ?P ∧ _ => assert (Hin : P) end.
  { apply elem_of_app. left. vm_compute. do 3 constructor 2. constructor 1. }
  split; [exact Hin|].
  apply (ComponentDepsMutator_latest_api_exists Sample.prebuiltApiModuleName
           (λ _ _, (Returned tt, []))
           (Sample.emptyTree Sample.tolerantConfig) Sample.legacy [] _ [] (Returned tt) []
           eq_refl eq_refl (λ missing, not_elem_of_nil _) _ _ Hin).
Defined.

(** ** Output files by tag *)

Lemma tagSplitter_component_tag (s : apiScope) (component : string) :
  component ∈ componentNames →
  tagSplitter ("." +:+ name (scope s) +:+ "." +:+ component) =
    Some (name (scope s), component).
Proof.
  unfold componentNames. rewrite !elem_of_cons, elem_of_nil.
  intros [->|[->|[->|[->|[]]]]]; destruct s; by vm_compute.
Qed.

Lemma scopeByName_name (s : apiScope) : scopeByName (name (scope s)) = Some s.
Proof. destruct s; by vm_compute. Qed.

Lemma tagSplitter_Some tag scopeName component :
  tagSplitter tag = Some (scopeName, component) →
  (∃ s, scopeName = name (scope s)) ∧ component ∈ componentNames ∧
  tag = "." +:+ scopeName +:+ "." +:+ component.
Proof.
  unfold tagSplitter. intros Hhead.
  assert (Hin : (scopeName, component) ∈
                filter (λ groups, tag = "." +:+ groups.1 +:+ "." +:+ groups.2)
                  (list_prod allScopeNames componentNames)).
  { destruct (filter _ _) as [|g l]; [done|]. injection Hhead as ->. by left. }
  apply list_elem_of_filter in Hin as [Htag Hin].
  apply list_elem_of_In, in_prod_iff in Hin as [Hscope Hcomponent].
  apply in_map_iff in Hscope as (s & Hs & _).
  split; [by exists s|]. split; [by apply list_elem_of_In|done].
Qed.

Lemma tagSplitter_None tag :
  tagSplitter tag = None →
  ∀ s component, component ∈ componentNames →
    tag ≠ "." +:+ name (scope s) +:+ "." +:+ component.
Proof.
  intros Hnone s component Hcomponent ->.
  by rewrite tagSplitter_component_tag in Hnone.
Qed.

(** The tag [.<scope>.<component>] of a scope and one of the four
    components gives the path of that component of exactly that scope: when
    the library has no paths for the scope the result is an error, also
    when it has paths for a scope that this one can access, and when the
    path is not valid the result is the error that the component is not
    available. *)
Theorem commonOutputFiles_component_tag (c : commonToSdkLibraryAndImport)
    (doctagPaths : option (list string)) (s : apiScope) (component : string) :
  component ∈ componentNames →
  commonOutputFiles c doctagPaths ("." +:+ name (scope s) +:+ "." +:+ component) =
    match findScopePaths c s with
    | None =>
        (None, Some (Errorf "%q does not provide api scope %s"
                       [ArgString (RootLibraryName c); ArgString (name (scope s))]))
    | Some paths =>
        match componentPath component paths with
        | Some path => (Some [path], None)
        | None =>
            (None, Some (Errorf "%s not available for api scope %s"
                           [ArgString component; ArgString (name (scope s))]))
        end
    end.
Proof.
  intros Hcomponent. unfold commonOutputFiles.
  rewrite (tagSplitter_component_tag s component Hcomponent), scopeByName_name.
  destruct (findScopePaths c s) as [paths|]; [|done].
  unfold componentPath, validPathOr, notAvailableForScope.
  unfold componentNames in Hcomponent.
  rewrite !elem_of_cons, elem_of_nil in Hcomponent.
  destruct Hcomponent as [->|[->|[->|[->|[]]]]]; repeat case_decide; done.
Qed.

(** The API file of the system scope of a library that has paths for the
    public scope only. *)
Lemma commonOutputFiles_component_tag_witness :
  commonOutputFiles
    {| RootLibraryName := "L";
       scopePathsMap := Some {[ apiScopePublic := Sample.pathsWithHeader "L.jar" ]} |}
    None ".system.api.txt" =
  (None, Some (Errorf "%q does not provide api scope %s" [ArgString "L"; ArgString "system"])).
Proof.
  pose proof (commonOutputFiles_component_tag
    {| RootLibraryName := "L";
       scopePathsMap := Some {[ apiScopePublic := Sample.pathsWithHeader "L.jar" ]} |}
    None apiScopeSystem "api.txt") as Hrun.
  assert (Hcomponent : "api.txt" ∈ componentNames) by (do 1 constructor 2; constructor 1).
  specialize (Hrun Hcomponent).
  assert (Hfind : findScopePaths
    {| RootLibraryName := "L";
       scopePathsMap := Some {[ apiScopePublic := Sample.pathsWithHeader "L.jar" ]} |}
    apiScopeSystem = None) by (by vm_compute).
  rewrite Hfind in Hrun. exact Hrun.
Defined.

(** [commonOutputFiles] never fails with the error of an unknown scope,
    and a tag that is neither [.doctags] nor made of a scope and a component
    is left to the caller: the result has no paths and no error. *)
Theorem commonOutputFiles_other_tags (c : commonToSdkLibraryAndImport)
    (doctagPaths : option (list string)) (tag : string) :
  (∀ args, (commonOutputFiles c doctagPaths tag).2 ≠
           Some (Errorf "unknown scope %s in %s" args)) ∧
  ((∀ s component, component ∈ componentNames →
      tag ≠ "." +:+ name (scope s) +:+ "." +:+ component) →
   tag ≠ ".doctags" →
   commonOutputFiles c doctagPaths tag = (None, None)) ∧
  (commonOutputFiles c doctagPaths tag = (None, None) →
   tag ≠ ".doctags" ∧
   ∀ s component, component ∈ componentNames →
     tag ≠ "." +:+ name (scope s) +:+ "." +:+ component).
Proof.
  unfold commonOutputFiles.
  destruct (tagSplitter tag) as [[scopeName component]|] eqn:Hsplit.
  - apply tagSplitter_Some in Hsplit as ((s & ->) & Hcomponent & ->).
    rewrite scopeByName_name.
    split; [|split].
    + intros args.
      destruct (findScopePaths c s) as [paths|]; [|done].
      unfold validPathOr, notAvailableForScope.
      repeat case_decide;
        repeat match goal with |- context [match ?x with _ => _ end] => destruct x end;
        done.
    + intros Hne. by destruct (Hne s component Hcomponent).
    + destruct (findScopePaths c s) as [paths|]; [|done].
      unfold validPathOr, notAvailableForScope.
      repeat case_decide;
        repeat match goal with |- context [match ?x with _ => _ end] => destruct x end;
        done.
  - split; [|split].
    + intros args. case_decide; [|done]. by destruct doctagPaths.
    + intros _ Hdoctags. by rewrite decide_False.
    + intros Hrun. split; [|by apply tagSplitter_None].
      intros ->. rewrite decide_True in Hrun by done. by destruct doctagPaths.
Qed.

(** The two ways to the removed API file of a library agree:
    [SdkRemovedTxtFile] for a kind gives a path exactly when the tag
    [.<scope>.removed-api.txt] of the scope of that kind gives that path;
    neither looks at another scope. *)
Theorem SdkRemovedTxtFile_agrees_with_tag (c : commonToSdkLibraryAndImport)
    (doctagPaths : option (list string)) (kind : SdkKind) (path : string) :
  SdkRemovedTxtFile c kind = Some path ↔
  commonOutputFiles c doctagPaths
    ("." +:+ name (scope (sdkKindToApiScope kind)) +:+ "." +:+ removedApiTxtComponentName) =
    (Some [path], None).
Proof.
  assert (Hcomponent : removedApiTxtComponentName ∈ componentNames)
    by (do 2 constructor 2; constructor 1).
  unfold commonOutputFiles, SdkRemovedTxtFile.
  rewrite (tagSplitter_component_tag _ _ Hcomponent), scopeByName_name.
  destruct (findScopePaths c (sdkKindToApiScope kind)) as [paths|]; [|done].
  rewrite decide_False by done. rewrite decide_False by done.
  rewrite decide_True by done. unfold validPathOr.
  destruct (removedApiFilePath paths) as [p|]; [|done].
  split; [by intros [= ->]|by intros [= ->]].
Qed.

(** ** Validation of the permissions XML *)

Section XmlValidation.
Context `{ApiLevels}.

Lemma attrAtLeastT_run (t : ApiLevel) (attr : option string) (attrName : string) :
  ∃ evs,
    (∀ log, attrAtLeastT t attr attrName log = (Returned tt, log ++ evs)) ∧
    (Forall (λ e, isError e = false) evs →
     ∀ a level, attr = Some a → ApiLevelFromUser a = inl level →
                GreaterThan t level = false).
Proof.
  unfold attrAtLeastT.
  destruct attr as [a|]; [|exists []; split; [intros; by rewrite app_nil_r|done]].
  destruct (ApiLevelFromUser a) as [level|err] eqn:Hparse;
    [|exists []; split; [intros; by rewrite app_nil_r|congruence]].
  destruct (GreaterThan t level) eqn:Hgt.
  - exists [atLeastTError attrName]. split; [done|].
    intros Hok. by apply Forall_cons in Hok as [? _].
  - exists []. split; [intros; by rewrite app_nil_r|]. congruence.
Qed.

Lemma formattedOptionalSdkLevelAttribute_run (attrName : string) (value : option string) :
  ∃ attr evs,
    (∀ log, formattedOptionalSdkLevelAttribute attrName value log =
            (Returned attr, log ++ evs)) ∧
    (Forall (λ e, isError e = false) evs →
     ∀ v, value = Some v →
          ∃ level, ApiLevelFromUser v = inl level ∧ IsCurrent level = false).
Proof.
  unfold formattedOptionalSdkLevelAttribute.
  destruct value as [v|];
    [|eexists _, []; split; [intros; by rewrite app_nil_r|done]].
  destruct (ApiLevelFromUser v) as [level|err] eqn:Hparse.
  - destruct (IsCurrent level) eqn:Hcurrent.
    + eexists _, [_]. split; [done|].
      intros Hok. by apply Forall_cons in Hok as [? _].
    + eexists _, []. split; [intros; by rewrite app_nil_r|].
      intros _ v' [= <-]. by exists level.
  - eexists _, [_]. split; [done|].
    intros Hok. by apply Forall_cons in Hok as [? _].
Qed.

Lemma checkNotBelowModuleMinSdk_run (moduleMinApi : ApiLevel) (attr : option string)
    (property : string) :
  ∃ evs,
    (∀ log, checkNotBelowModuleMinSdk moduleMinApi attr property log =
            (Returned tt, log ++ evs)) ∧
    (Forall (λ e, isError e = false) evs →
     ∀ a level, attr = Some a → ApiLevelFromUser a = inl level →
                GreaterThan moduleMinApi level = false).
Proof.
  unfold checkNotBelowModuleMinSdk.
  destruct attr as [a|]; [|exists []; split; [intros; by rewrite app_nil_r|done]].
  destruct (ApiLevelFromUser a) as [level|err] eqn:Hparse;
    [|exists []; split; [intros; by rewrite app_nil_r|congruence]].
  destruct (GreaterThan moduleMinApi level) eqn:Hgt.
  - exists [lessThanModuleMinSdkError property moduleMinApi]. split; [done|].
    intros Hok. by apply Forall_cons in Hok as [? _].
  - exists []. split; [intros; by rewrite app_nil_r|]. congruence.
Qed.

Lemma validateMinAndMaxDeviceSdk_run (module : sdkLibraryXml) :
  ∃ evs,
    (∀ log, validateMinAndMaxDeviceSdk module log = (Returned tt, log ++ evs)) ∧
    (evs = [] ∨ evs = [minGreaterThanMaxError]).
Proof.
  unfold validateMinAndMaxDeviceSdk.
  destruct (Min_device_sdk (properties module)) as [minS|];
    [|exists []; split; [intros; by rewrite app_nil_r|by left]].
  destruct (Max_device_sdk (properties module)) as [maxS|];
    [|exists []; split; [intros; by rewrite app_nil_r|by left]].
  destruct (ApiLevelFromUser minS) as [min|];
    [|exists []; split; [intros; by rewrite app_nil_r|by left]].
  destruct (ApiLevelFromUser maxS) as [max|];
    [|exists []; split; [intros; by rewrite app_nil_r|by left]].
  destruct (GreaterThan min max).
  - exists [minGreaterThanMaxError]. split; [done|by right].
  - exists []. split; [intros; by rewrite app_nil_r|by left].
Qed.

Lemma validateOnBootclasspathBeforeRequirements_run (module : sdkLibraryXml)
    (raw : string) (moduleMinApi t : ApiLevel) :
  Sdk_library_min_api_level (properties module) = Some raw →
  ApiLevelOrPanic raw = Returned moduleMinApi →
  ApiLevelOrPanic "Tiramisu" = Returned t →
  ∃ evs,
    (∀ log, validateOnBootclasspathBeforeRequirements module log =
            (Returned tt, log ++ evs)) ∧
    (Forall (λ e, isError e = false) evs →
     On_bootclasspath_before (properties module) ≠ None →
     LessThan moduleMinApi t = true →
     Min_device_sdk (properties module) ≠ None).
Proof.
  intros Hraw HmoduleMinApi Ht.
  unfold validateOnBootclasspathBeforeRequirements, moduleMinApiOf, bind.
  rewrite Hraw, HmoduleMinApi. simpl. rewrite Ht. simpl.
  destruct (On_bootclasspath_before (properties module)) as [before|];
    [|exists []; split; [intros; by rewrite app_nil_r|done]].
  destruct (LessThan moduleMinApi t);
    [|exists []; split; [intros; by rewrite app_nil_r|done]].
  destruct (Min_device_sdk (properties module)) as [minS|].
  - exists []. split; [intros; by rewrite app_nil_r|done].
  - exists [onBootclasspathBeforeError]. split; [done|].
    intros Hok. by apply Forall_cons in Hok as [? _].
Qed.

(** What a run of [GenerateAndroidBuildActions] that returns without an
    error says about the properties of the module. *)
Lemma xml_error_free_run (module : sdkLibraryXml) (log events : list event) :
  xmlGenerateAndroidBuildActions module log = (Returned tt, log ++ events) →
  Forall (λ e, isError e = false) events →
  ∃ t raw moduleMinApi,
    ApiLevelOrPanic "Tiramisu" = Returned t ∧
    Sdk_library_min_api_level (properties module) = Some raw ∧
    ApiLevelOrPanic raw = Returned moduleMinApi ∧
    (∀ attr v,
       attr ∈ [Min_device_sdk (properties module); Max_device_sdk (properties module);
               On_bootclasspath_before (properties module);
               On_bootclasspath_since (properties module)] →
       attr = Some v →
       ∃ level, ApiLevelFromUser v = inl level ∧ IsCurrent level = false ∧
                GreaterThan t level = false) ∧
    (∀ attr v level,
       attr ∈ [Min_device_sdk (properties module); Max_device_sdk (properties module)] →
       attr = Some v → ApiLevelFromUser v = inl level →
       GreaterThan moduleMinApi level = false) ∧
    (On_bootclasspath_before (properties module) ≠ None →
     LessThan moduleMinApi t = true →
     Min_device_sdk (properties module) ≠ None).
Proof.
  intros Hrun Hok.
  unfold xmlGenerateAndroidBuildActions, selfValidate, validateAtLeastTAttributes,
    validateMinMaxDeviceSdkAndModuleMinSdk, moduleMinApiOf, permissionsContents in Hrun.
  unfold bind, orPanic in Hrun.
  destruct (ApiLevelOrPanic "Tiramisu") as [t|msg] eqn:Ht; [|done].
  unfold ret in Hrun at 1.
  destruct (attrAtLeastT_run t (Min_device_sdk (properties module)) "min_device_sdk")
    as (a1 & Ha1 & Hmin).
  destruct (attrAtLeastT_run t (Max_device_sdk (properties module)) "max_device_sdk")
    as (a2 & Ha2 & Hmax).
  destruct (attrAtLeastT_run t (On_bootclasspath_before (properties module))
              "on_bootclasspath_before") as (a3 & Ha3 & Hbefore).
  destruct (attrAtLeastT_run t (On_bootclasspath_since (properties module))
              "on_bootclasspath_since") as (a4 & Ha4 & Hsince).
  rewrite Ha1, Ha2, Ha3, Ha4 in Hrun.
  destruct (validateMinAndMaxDeviceSdk_run module) as (b & Hb & _).
  rewrite Hb in Hrun.
  destruct (Sdk_library_min_api_level (properties module)) as [raw|] eqn:Hraw; [|done].
  destruct (ApiLevelOrPanic raw) as [moduleMinApi|msg] eqn:HmoduleMinApi; [|done].
  unfold ret in Hrun at 1.
  destruct (checkNotBelowModuleMinSdk_run moduleMinApi (Min_device_sdk (properties module))
              "min_device_sdk") as (c1 & Hc1 & Hmin').
  destruct (checkNotBelowModuleMinSdk_run moduleMinApi (Max_device_sdk (properties module))
              "max_device_sdk") as (c2 & Hc2 & Hmax').
  rewrite Hc1, Hc2 in Hrun.
  destruct (validateOnBootclasspathBeforeRequirements_run module raw moduleMinApi t
              Hraw HmoduleMinApi Ht) as (d & Hd' & Hd).
  rewrite Hd' in Hrun.
  destruct (formattedOptionalSdkLevelAttribute_run "on-bootclasspath-since"
              (On_bootclasspath_since (properties module))) as (s1 & f1 & Hf1 & Hsince').
  destruct (formattedOptionalSdkLevelAttribute_run "on-bootclasspath-before"
              (On_bootclasspath_before (properties module))) as (s2 & f2 & Hf2 & Hbefore').
  destruct (formattedOptionalSdkLevelAttribute_run "min-device-sdk"
              (Min_device_sdk (properties module))) as (s3 & f3 & Hf3 & Hmin'').
  destruct (formattedOptionalSdkLevelAttribute_run "max-device-sdk"
              (Max_device_sdk (properties module))) as (s4 & f4 & Hf4 & Hmax'').
  rewrite Hf1, Hf2, Hf3, Hf4 in Hrun. unfold ret, emit in Hrun.
  injection Hrun as Hrun.
  rewrite <- !app_assoc in Hrun. apply app_inv_head in Hrun. subst events.
  rewrite !Forall_app in Hok.
  destruct Hok as (Ho1 & Ho2 & Ho3 & Ho4 & _ & Hoc1 & Hoc2 & Hod & Hof1 & Hof2 & Hof3 & Hof4 & _).
  exists t, raw, moduleMinApi.
  split; [done|]. split; [done|]. split; [done|]. split; [|split].
  - intros attr v Hattr Hv. rewrite !elem_of_cons, elem_of_nil in Hattr.
    destruct Hattr as [->|[->|[->|[->|[]]]]].
    + destruct (Hmin'' Hof3 v Hv) as (level & Hparse & Hcurrent).
      exists level. eauto.
    + destruct (Hmax'' Hof4 v Hv) as (level & Hparse & Hcurrent).
      exists level. eauto.
    + destruct (Hbefore' Hof2 v Hv) as (level & Hparse & Hcurrent).
      exists level. eauto.
    + destruct (Hsince' Hof1 v Hv) as (level & Hparse & Hcurrent).
      exists level. eauto.
  - intros attr v level Hattr Hv Hparse. rewrite !elem_of_cons, elem_of_nil in Hattr.
    destruct Hattr as [->|[->|[]]]; eauto.
  - by apply Hd.
Qed.
(** A run of [GenerateAndroidBuildActions] of the XML module that returns
    without reporting an error has accepted each of [min_device_sdk],
    [max_device_sdk], [on_bootclasspath_before] and [on_bootclasspath_since]
    that is set: its value is an API level, it is not [current], and it is
    not below Tiramisu. *)
Theorem xml_error_free_attributes (module : sdkLibraryXml) (log events : list event) :
  xmlGenerateAndroidBuildActions module log = (Returned tt, log ++ events) →
  Forall (λ e, isError e = false) events →
  ∃ t,
    ApiLevelOrPanic "Tiramisu" = Returned t ∧
    ∀ attr v,
      attr ∈ [Min_device_sdk (properties module); Max_device_sdk (properties module);
              On_bootclasspath_before (properties module);
              On_bootclasspath_since (properties module)] →
      attr = Some v →
      ∃ level, ApiLevelFromUser v = inl level ∧ IsCurrent level = false ∧
               GreaterThan t level = false.
Proof.
  intros Hrun Hok.
  destruct (xml_error_free_run module log events Hrun Hok)
    as (t & raw & moduleMinApi & Ht & _ & _ & Hattrs & _).
  by exists t.
Qed.

(** A run that returns without reporting an error belongs to a module whose
    [sdk_library_min_api_level] is set to an API level; [min_device_sdk] and
    [max_device_sdk] are not below that level, and
    [on_bootclasspath_before] is set together with [min_device_sdk] whenever
    that level is below Tiramisu. *)
Theorem xml_error_free_module_min_sdk (module : sdkLibraryXml) (log events : list event) :
  xmlGenerateAndroidBuildActions module log = (Returned tt, log ++ events) →
  Forall (λ e, isError e = false) events →
  ∃ t raw moduleMinApi,
    ApiLevelOrPanic "Tiramisu" = Returned t ∧
    Sdk_library_min_api_level (properties module) = Some raw ∧
    ApiLevelOrPanic raw = Returned moduleMinApi ∧
    (∀ attr v level,
       attr ∈ [Min_device_sdk (properties module); Max_device_sdk (properties module)] →
       attr = Some v → ApiLevelFromUser v = inl level →
       GreaterThan moduleMinApi level = false) ∧
    (On_bootclasspath_before (properties module) ≠ None →
     LessThan moduleMinApi t = true →
     Min_device_sdk (properties module) ≠ None).
Proof.
  intros Hrun Hok.
  destruct (xml_error_free_run module log events Hrun Hok)
    as (t & raw & moduleMinApi & Ht & Hraw & HmoduleMinApi & _ & Hlevels & Hbefore).
  by exists t, raw, moduleMinApi.
Qed.

(** The XML module dereferences [sdk_library_min_api_level] whatever its
    other properties are: when it is not set,
    [GenerateAndroidBuildActions] panics, and it has not registered the
    rule that writes the file. *)
Theorem xml_without_min_api_level_panics (module : sdkLibraryXml) (log : list event) :
  Sdk_library_min_api_level (properties module) = None →
  ∃ msg events,
    xmlGenerateAndroidBuildActions module log = (Panicked msg, log ++ events) ∧
    ∀ name description text output,
      RuleBuild name description text output ∉ events.
Proof.
  intros Hraw.
  unfold xmlGenerateAndroidBuildActions, selfValidate, bind.
  destruct (validateAtLeastTAttributes_emits module) as (out & evs & Hrun & Hevs).
  rewrite Hrun.
  assert (Hrule : ∀ (l : list event) name description text output,
            Forall isPropertyError l → RuleBuild name description text output ∉ l).
  { intros l name description text output Hl Hin.
    rewrite Forall_forall in Hl. apply Hl in Hin.
    by destruct Hin as (? & ? & ? & ?). }
  destruct out as [[]|msg]; [|exists msg, evs; split; [done|by intros; apply Hrule]].
  destruct (validateMinAndMaxDeviceSdk_run module) as (b & Hb & Hevents). rewrite Hb.
  unfold validateMinMaxDeviceSdkAndModuleMinSdk, moduleMinApiOf, bind.
  rewrite Hraw. unfold panic.
  exists nilDereference, (evs ++ b). split; [by rewrite app_assoc|].
  intros name description text output Hin.
  apply elem_of_app in Hin as [Hin|Hin]; [by apply Hrule in Hin|].
  destruct Hevents as [->| ->].
  - by apply elem_of_nil in Hin.
  - by apply list_elem_of_singleton in Hin.
Qed.
End XmlValidation.

(** [min_device_sdk: "33", max_device_sdk: "34"] *)
Lemma xml_error_free_attributes_witness :
  ∃ t,
    @ApiLevelOrPanic Sample.apiLevels "Tiramisu" = Returned t ∧
    ∀ attr v,
      attr ∈ [Some "33"; Some "34"; None; None] →
      attr = Some v →
      ∃ level, @ApiLevelFromUser Sample.apiLevels v = inl level ∧
               @IsCurrent Sample.apiLevels level = false ∧
               @GreaterThan Sample.apiLevels t level = false.
Proof.
  assert (Hrun : ∃ events,
    @xmlGenerateAndroidBuildActions Sample.apiLevels
      (Sample.xmlModule (Some "33") (Some "34")) [] = (Returned tt, [] ++ events) ∧
    Forall (λ e, isError e = false) events).
  { eexists [_]. split; [by vm_compute|]. by repeat constructor. }
  destruct Hrun as (events & Hrun & Hok).
  exact (@xml_error_free_attributes Sample.apiLevels
           (Sample.xmlModule (Some "33") (Some "34")) [] events Hrun Hok).
Defined.

(** A library whose [min_sdk_version] is 30, with
    [on_bootclasspath_before: "34"] and [min_device_sdk: "33"]. *)
Lemma xml_error_free_module_min_sdk_witness :
  ∃ t raw moduleMinApi,
    @ApiLevelOrPanic Sample.apiLevels "Tiramisu" = Returned t ∧
    Some "30" = Some raw ∧
    @ApiLevelOrPanic Sample.apiLevels raw = Returned moduleMinApi ∧
    (∀ attr v level,
       attr ∈ [Some "33"; None] →
       attr = Some v → @ApiLevelFromUser Sample.apiLevels v = inl level →
       @GreaterThan Sample.apiLevels moduleMinApi level = false) ∧
    (Some "34" ≠ None →
     @LessThan Sample.apiLevels moduleMinApi t = true →
     Some "33" ≠ None).
Proof.
  assert (Hrun : ∃ events,
    @xmlGenerateAndroidBuildActions Sample.apiLevels
      (Sample.xmlModuleOnBootclasspathBefore "30" (Some "34") (Some "33")) [] =
      (Returned tt, [] ++ events) ∧
    Forall (λ e, isError e = false) events).
  { eexists [_]. split; [by vm_compute|]. by repeat constructor. }
  destruct Hrun as (events & Hrun & Hok).
  exact (@xml_error_free_module_min_sdk Sample.apiLevels
           (Sample.xmlModuleOnBootclasspathBefore "30" (Some "34") (Some "33")) []
           events Hrun Hok).
Defined.

(** An XML module without [sdk_library_min_api_level]. *)
Lemma xml_without_min_api_level_panics_witness :
  ∃ msg events,
    @xmlGenerateAndroidBuildActions Sample.apiLevels Sample.xmlModuleWithoutMinApiLevel [] =
      (Panicked msg, [] ++ events) ∧
    ∀ name description text output,
      RuleBuild name description text output ∉ events.
Proof.
  exact (@xml_without_min_api_level_panics Sample.apiLevels
           Sample.xmlModuleWithoutMinApiLevel [] eq_refl).
Defined.
